(** * CLOET: occupational-exposure models, checked against their specification

    A shallow embedding of the Python package [cloet] (modules [checks],
    [exposures], [dermal] and [inhalation], and the unit table of
    [reports]) and the properties that its specification states of it,
    followed by further properties of the code.

    Conventions of the embedding.
    - Python numbers ([int] and [float]) are the rationals [Q] with exact
      arithmetic; rounding of binary floating point is not modelled.  True
      division by zero raises [ZeroDivisionError], as in Python.  The
      numbers of the embedding are finite: the floats NaN and infinity,
      which a caller can pass, and the overflow of a product are not
      values of it.  Module [PyFloat] gives the two bounds checks on
      numbers with NaN and the infinities, where the difference shows.
    - Python strings are [string]; [str.lower] acts on the ASCII letters.
    - A Python [dict] is an association list in insertion order.
    - A raised exception is the [Raise] case of the [result] type; the
      exceptions are the three classes of [checks.py] and the built-in ones
      the code can run into ([NameError], [KeyError], [TypeError],
      [ZeroDivisionError]).
    - A name is looked up in the local scope, then in the globals of the
      module the function is written in, then in the built-ins; a name bound
      in none of them raises [NameError].
    - The [equations] attribute (a fixed documentation text) is left out of
      the model instance.
    - [checkfile] reads the file system through a record of the [os]
      functions it calls; its [while] loop runs on fuel, and the loop is
      proved to end. *)

From Stdlib Require Import QArith Qminmax String Ascii List Bool.
From Stdlib Require Import Decimal DecimalNat DecimalString PeanoNat Lia.
Import ListNotations.

Local Open Scope string_scope.
Local Open Scope Q_scope.

(** ** Python values, messages and exceptions *)

Inductive value : Type :=
| VNum (q : Q)
| VStr (s : string)
| VList (l : list string).

(** An exception message is built by string concatenation: the list of the
    pieces, a piece [v] standing for [str(v)] (a string stands for itself). *)
Definition message : Type := list value.

Inductive exn : Type :=
| BoundsException (msg : message)
| ScenarioException (msg : message)
| RouteException (msg : message)
| NameError (name : string)
| KeyError (key : string)
| TypeError (what : string)
| ZeroDivisionError.

Inductive result (A : Type) : Type :=
| Ok (a : A)
| Raise (e : exn).

Arguments Ok {A} a.
Arguments Raise {A} e.

Definition bind {A B : Type} (c : result A) (k : A -> result B) : result B :=
  match c with
  | Ok a => k a
  | Raise e => Raise e
  end.

Notation "x <- c ;; k" := (bind c (fun x => k))
  (at level 61, c at next level, right associativity).

(** ** Dictionaries *)

Definition dict : Type := list (string * value).

Fixpoint dict_get (k : string) (d : dict) : option value :=
  match d with
  | [] => None
  | (k', v) :: d' => if String.eqb k k' then Some v else dict_get k d'
  end.

(** [k in d] *)
Definition dict_mem (k : string) (d : dict) : bool :=
  match dict_get k d with Some _ => true | None => false end.

(** [d[k] = v]: overwrite in place, or append. *)
Fixpoint dict_set (k : string) (v : value) (d : dict) : dict :=
  match d with
  | [] => [(k, v)]
  | (k', v') :: d' =>
      if String.eqb k k' then (k, v) :: d' else (k', v') :: dict_set k v d'
  end.

Fixpoint dict_remove (k : string) (d : dict) : dict :=
  match d with
  | [] => []
  | (k', v') :: d' =>
      if String.eqb k k' then d' else (k', v') :: dict_remove k d'
  end.

Definition dict_keys (d : dict) : list string := map fst d.

(** ** Name lookup

    [lookup locals globals nm] evaluates the name [nm] in a function whose
    local variables are [locals], written in a module whose global names are
    [globals].  A module-level or built-in object is denoted by its name. *)

Definition builtins : list string :=
  ["str"; "min"; "list"; "object"; "Exception"; "None"].

Definition bound_in (scope : list string) (nm : string) : bool :=
  existsb (String.eqb nm) scope.

Definition lookup (locals : dict) (globals : list string) (nm : string)
  : result value :=
  match dict_get nm locals with
  | Some v => Ok v
  | None =>
      if bound_in (globals ++ builtins) nm then Ok (VStr nm)
      else Raise (NameError nm)
  end.

(** [raise E(...)]: evaluating the exception expression may itself raise;
    either way an exception leaves the statement. *)
Definition raising {A : Type} (c : result exn) : result A :=
  match c with
  | Ok e => Raise e
  | Raise e => Raise e
  end.

(** ** Numbers *)

Definition Qltb (x y : Q) : bool := negb (Qle_bool y x).
Definition Qgtb (x y : Q) : bool := Qltb y x.

(** Python's [a / b]. *)
Definition pydiv (a b : Q) : result Q :=
  if Qeq_bool b 0 then Raise ZeroDivisionError else Ok (a / b).

(** Python's two-argument [min(a, b)]: [b] when [b < a], else [a]. *)
Definition pymin (a b : Q) : Q := if Qltb b a then b else a.

(** [d[k]] *)
Definition getitem (k : string) (d : dict) : result value :=
  match dict_get k d with
  | Some v => Ok v
  | None => Raise (KeyError k)
  end.

(** [d.pop(k)] *)
Definition dict_pop (k : string) (d : dict) : result (value * dict) :=
  v <- getitem k d ;; Ok (v, dict_remove k d).

Definition as_num (v : value) : result Q :=
  match v with
  | VNum q => Ok q
  | _ => Raise (TypeError "unsupported operand type(s)")
  end.

Definition as_list (v : value) : result (list string) :=
  match v with
  | VList l => Ok l
  | _ => Raise (TypeError "unsupported operand type(s)")
  end.

(** [d[k]] used as a number in an arithmetic expression. *)
Definition getnum (k : string) (d : dict) : result Q :=
  v <- getitem k d ;; as_num v.

(** Binding of the named parameter [p] in a call [f( **kwargs)]. *)
Definition kwarg (p : string) (kw : dict) : result value :=
  match dict_get p kw with
  | Some v => Ok v
  | None => Raise (TypeError ("missing required argument: " ++ p))
  end.

Definition kwnum (p : string) (kw : dict) : result Q :=
  v <- kwarg p kw ;; as_num v.

(** ** Module [checks] *)

Module Checks.

Definition globals : list string :=
  ["os"; "BoundsException"; "ScenarioException"; "RouteException";
   "check_ul"; "check_l"; "check_u"; "checkfile"].

Definition bounds_msg (name min_val max_val : value) : message :=
  [VStr "bounds of "; name; VStr " are outside of range (";
   min_val; VStr " <= value <= "; max_val; VStr ")"].

(** The statement
    [raise BoundsException("bounds of "+name+" are outside of range ("+
           str(min_val)+" <= value <= "+str(max_val)+")")],
    which all three checks share word for word, in a function with the
    given local variables. *)
Definition raise_bounds {A : Type} (locals : dict) : result A :=
  raising (_ <- lookup locals globals "BoundsException" ;;
           name <- lookup locals globals "name" ;;
           min_val <- lookup locals globals "min_val" ;;
           max_val <- lookup locals globals "max_val" ;;
           Ok (BoundsException (bounds_msg name min_val max_val))).

Definition check_ul (name : string) (value min_val max_val : Q) : result Q :=
  if Qltb value min_val || Qgtb value max_val then
    raise_bounds [("name", VStr name); ("value", VNum value);
                  ("min_val", VNum min_val); ("max_val", VNum max_val)]
  else Ok value.

Definition check_l (name : string) (value min_val : Q) : result Q :=
  if Qltb value min_val then
    raise_bounds [("name", VStr name); ("value", VNum value);
                  ("min_val", VNum min_val)]
  else Ok value.

Definition check_u (name : string) (value max_val : Q) : result Q :=
  let locals := [("name", VStr name); ("value", VNum value);
                 ("max_val", VNum max_val)] in
  min_val <- lookup locals globals "min_val" ;;
  min_val <- as_num min_val ;;
  if Qltb value min_val || Qgtb value max_val then raise_bounds locals
  else Ok value.

(** The default arguments of the signatures, [min_val=0] and [max_val=1]:
    a call that leaves a bound out ([None]) gets the default. *)
Definition or_default (d : Q) (a : option Q) : Q :=
  match a with
  | Some x => x
  | None => d
  end.

Definition check_ul_call (name : string) (value : Q)
  (min_val max_val : option Q) : result Q :=
  check_ul name value (or_default 0 min_val) (or_default 1 max_val).

Definition check_l_call (name : string) (value : Q) (min_val : option Q)
  : result Q :=
  check_l name value (or_default 0 min_val).

Definition check_u_call (name : string) (value : Q) (max_val : option Q)
  : result Q :=
  check_u name value (or_default 1 max_val).

End Checks.

(** ** Module [exposures] *)

(** Python's [a * b] on numbers. *)
Definition pymul (a b : value) : result value :=
  x <- as_num a ;; y <- as_num b ;; Ok (VNum (x * y)).

Definition is_str (v : value) (s : string) : bool :=
  match v with
  | VStr s' => String.eqb s' s
  | _ => false
  end.

Module Exposures.

Definition globals : list string :=
  ["potential_dose_rate"; "workers_exposed"; "daily_dose";
   "acute_potential_dose_rate"].

Definition route_msg (route : value) : message :=
  [VStr "unknown exposure route provided ("; route; VStr ")"].

Definition potential_dose_rate (route : value) (kwargs : dict)
  : result value :=
  if is_str route "dermal" then
    if dict_mem "SQu" kwargs then
      SQu <- getitem "SQu" kwargs ;;
      Yderm <- getitem "Yderm" kwargs ;;
      x <- pymul SQu Yderm ;;
      FT <- getitem "FT" kwargs ;;
      pymul x FT
    else
      S <- getitem "S" kwargs ;;
      Qu <- getitem "Qu" kwargs ;;
      x <- pymul S Qu ;;
      Yderm <- getitem "Yderm" kwargs ;;
      x <- pymul x Yderm ;;
      FT <- getitem "FT" kwargs ;;
      pymul x FT
  else if is_str route "inhalation" then
    if dict_mem "Cm" kwargs then
      Cm <- getitem "Cm" kwargs ;;
      b <- getitem "b" kwargs ;;
      x <- pymul Cm b ;;
      h <- getitem "h" kwargs ;;
      pymul x h
    else
      EF <- getitem "EF" kwargs ;;
      AH <- getitem "AH" kwargs ;;
      x <- pymul EF AH ;;
      Ys <- getitem "Ys" kwargs ;;
      x <- pymul x Ys ;;
      Sd <- getitem "Sd" kwargs ;;
      pymul x Sd
  else
    let locals := [("route", route)] in
    raising (_ <- lookup locals globals "RouteException" ;;
             route <- lookup locals globals "route" ;;
             Ok (RouteException (route_msg route))).

Definition workers_exposed (NWexp NS : Q) : Q := NWexp * NS.

Definition days_per_year : Q := 365.

Definition daily_dose (PDR ED EY BW t : Q) : result Q :=
  pydiv (PDR * ED * EY) (BW * t * days_per_year).

Definition acute_potential_dose_rate (PDR BW : Q) : result Q :=
  pydiv PDR BW.

End Exposures.

(** ** Calls with a keyword dictionary

    [f( **kwargs)] binds the named parameters of [f] from the dictionary;
    the entries left over go to the callee's own [kwargs]. *)

Definition call_potential_dose_rate (kwargs : dict) : result value :=
  route <- kwarg "route" kwargs ;;
  Exposures.potential_dose_rate route (dict_remove "route" kwargs).

Definition call_workers_exposed (kwargs : dict) : result value :=
  NWexp <- kwnum "NWexp" kwargs ;;
  NS <- kwnum "NS" kwargs ;;
  Ok (VNum (Exposures.workers_exposed NWexp NS)).

(** [daily_dose(t=tv, **kwargs)] *)
Definition call_daily_dose (tv : value) (kwargs : dict) : result value :=
  if dict_mem "t" kwargs then
    Raise (TypeError "got multiple values for keyword argument 't'")
  else
    PDR <- kwnum "PDR" kwargs ;;
    ED <- kwnum "ED" kwargs ;;
    EY <- kwnum "EY" kwargs ;;
    BW <- kwnum "BW" kwargs ;;
    t <- as_num tv ;;
    r <- Exposures.daily_dose PDR ED EY BW t ;;
    Ok (VNum r).

Definition call_acute_potential_dose_rate (kwargs : dict) : result value :=
  PDR <- kwnum "PDR" kwargs ;;
  BW <- kwnum "BW" kwargs ;;
  r <- Exposures.acute_potential_dose_rate PDR BW ;;
  Ok (VNum r).

(** ** Model instances and the construction steps the models share *)

Record model : Type := {
  route : string;
  model_name : string;
  scenario : string;
  inputs : dict;
  outputs : dict
}.

(** The family-common constructor arguments. *)
Record common : Type := {
  ED : Q; NWexp : Q; NS : Q; EY : Q; BW : Q; ATc : Q; AT : Q
}.

Definition common_defaults (nwexp : Q) : common :=
  {| ED := 1; NWexp := nwexp; NS := 1; EY := 40; BW := 70; ATc := 70;
     AT := 40 |}.

Definition lower_ascii (c : ascii) : ascii :=
  let n := nat_of_ascii c in
  if Nat.leb 65 n && Nat.leb n 90 then ascii_of_nat (n + 32) else c.

(** [s.lower()] *)
Fixpoint lower (s : string) : string :=
  match s with
  | EmptyString => EmptyString
  | String c rest => String (lower_ascii c) (lower rest)
  end.

(** [s.replace(", ", ",")] *)
Fixpoint replace_comma_space (s : string) : string :=
  match s with
  | EmptyString => EmptyString
  | String c rest =>
      match rest with
      | String c' rest' =>
          if Ascii.eqb c "," && Ascii.eqb c' " "
          then String "," (replace_comma_space rest')
          else String c (replace_comma_space rest)
      | EmptyString => String c EmptyString
      end
  end.

(** [str(scenario).lower().replace(", ", ",")] *)
Definition normalize (scen : string) : string :=
  replace_comma_space (lower scen).

Definition scenario_msg (shown : string) (scenarios : list string) : message :=
  [VStr "Error! Invalid value for class argument 'scenario' (";
   VStr shown; VStr "). Options are '";
   VStr (String.concat "', '" scenarios); VStr "'."].

(** [raise ScenarioException("Error! ... (" + str(shown) + "). Options are '"
    + "', '".join(self.get_scenarios()) + "'.")] in a module with the given
    global names. *)
Definition raise_scenario {A : Type} (globals : list string) (shown : string)
  (scenarios : list string) : result A :=
  raising (_ <- lookup [] globals "ScenarioException" ;;
           Ok (ScenarioException (scenario_msg shown scenarios))).

(** [if tested not in self.get_scenarios(): raise ScenarioException(...)] *)
Definition check_scenario (globals : list string) (tested shown : string)
  (scenarios : list string) : result unit :=
  if negb (bound_in scenarios tested)
  then raise_scenario globals shown scenarios
  else Ok tt.

Definition skip0 : list string :=
  ["self"; "model_name"; "equations"; "scenario"; "route"; "skips"].

(** [model_args]: the entries whose key is not in [kwargs['skips']]. *)
Definition model_args (kwargs : dict) : result dict :=
  skips <- getitem "skips" kwargs ;;
  skips <- as_list skips ;;
  Ok (filter (fun kv => negb (bound_in skips (fst kv))) kwargs).

(** [kwargs['skips'] = kwargs['skips'] + list(kwargs.keys())] *)
Definition extend_skips (kwargs : dict) : result dict :=
  skips <- getitem "skips" kwargs ;;
  skips <- as_list skips ;;
  Ok (dict_set "skips" (VList (skips ++ dict_keys kwargs)) kwargs).

(** The five shared assignments, [kwargs['PDR']] to [kwargs['APDR']]. *)
Definition exposure_outputs (kwargs : dict) : result dict :=
  PDR <- call_potential_dose_rate kwargs ;;
  let kwargs := dict_set "PDR" PDR kwargs in
  NW <- call_workers_exposed kwargs ;;
  let kwargs := dict_set "NW" NW kwargs in
  ATc <- getitem "ATc" kwargs ;;
  LADD <- call_daily_dose ATc kwargs ;;
  let kwargs := dict_set "LADD" LADD kwargs in
  AT <- getitem "AT" kwargs ;;
  ADD <- call_daily_dose AT kwargs ;;
  let kwargs := dict_set "ADD" ADD kwargs in
  APDR <- call_acute_potential_dose_rate kwargs ;;
  Ok (dict_set "APDR" APDR kwargs).

(** [self.outputs = self.model_args(kwargs)] followed by
    [self.outputs[display] = self.outputs.pop('PDR')]. *)
Definition freeze_outputs (display : string) (kwargs : dict) : result dict :=
  outs <- model_args kwargs ;;
  popped <- dict_pop "PDR" outs ;;
  Ok (dict_set display (fst popped) (snd popped)).

(** The tail of every constructor, from [self.inputs = ...] on; [extra] is
    the model's own intermediate quantities ([Cv], [Cm]), if any. *)
Definition finish (self_route name self_scenario display : string)
  (extra : dict -> result dict) (kwargs : dict) : result model :=
  ins <- model_args kwargs ;;
  kwargs <- extend_skips kwargs ;;
  kwargs <- extra kwargs ;;
  kwargs <- exposure_outputs kwargs ;;
  outs <- freeze_outputs display kwargs ;;
  Ok {| route := self_route; model_name := name; scenario := self_scenario;
        inputs := ins; outputs := outs |}.

Definition no_extra (kwargs : dict) : result dict := Ok kwargs.

(** ** Module [dermal] *)

Module Dermal.

Definition globals : list string :=
  ["checks"; "exposures"; "dermal_model"; "one_hand_liquid_contact";
   "two_hand_liquid_contact"; "two_hand_liquid_immersion";
   "two_hand_solids_contact"; "two_hand_container_surface_contact";
   "user_defined_dermal"].

(** [dermal_model.__init__]: the caller's [AT] is not read. *)
Definition dermal_model_init (c : common) : result dict :=
  ed <- Checks.check_ul "ED" (ED c) 0 365 ;;
  ey <- Checks.check_l "EY" (EY c) 0 ;;
  bw <- Checks.check_l "BW" (BW c) 0 ;;
  atc <- Checks.check_l "ATc" (ATc c) 0 ;;
  Ok [("ED", VNum ed); ("NWexp", VNum (NWexp c)); ("NS", VNum (NS c));
      ("EY", VNum ey); ("BW", VNum bw); ("ATc", VNum atc);
      ("AT", VNum (EY c)); ("skips", VList skip0)].

Definition liquid_scenarios : list string := ["low"; "high"; "user"].
Definition solids_scenarios : list string := ["high"; "user"].

(** The constructor body shared, line for line, by the three liquid
    models; they differ in the model name and in the two preset [Qu]. *)
Definition liquid_model (name : string) (Qu_low Qu_high : Q)
  (Yderm : Q) (scen : string) (S Qu FT : Q) (c : common) : result model :=
  kwargs <- dermal_model_init c ;;
  let self_route := "dermal" in
  let self_scenario := normalize scen in
  _ <- check_scenario globals self_scenario scen liquid_scenarios ;;
  let kwargs := dict_set "route" (VStr self_route) kwargs in
  let kwargs := dict_set "S" (VNum S) kwargs in
  let kwargs :=
    if String.eqb self_scenario "low" then dict_set "Qu" (VNum Qu_low) kwargs
    else if String.eqb self_scenario "high"
         then dict_set "Qu" (VNum Qu_high) kwargs
    else if String.eqb self_scenario "user" then dict_set "Qu" (VNum Qu) kwargs
    else kwargs in
  ft <- Checks.check_l "FT" FT 0 ;;
  let kwargs := dict_set "FT" (VNum ft) kwargs in
  yderm <- Checks.check_ul "Yderm" Yderm 0 1 ;;
  let kwargs := dict_set "Yderm" (VNum yderm) kwargs in
  finish self_route name self_scenario "Dexp" no_extra kwargs.

Definition one_hand_liquid_contact :=
  liquid_model "EPA-OPPT 1-Hand Dermal Contact with Liquid" 0.7 2.1.

Definition two_hand_liquid_contact :=
  liquid_model "EPA-OPPT 2-Hand Dermal Contact with Liquid" 0.7 2.1.

Definition two_hand_liquid_immersion :=
  liquid_model "EPA-OPPT 2-Hand Dermal Immersion with Liquid" 1.3 10.3.

(** The body shared by the two solids models, which differ in the model
    name and the preset [SQu]. *)
Definition solids_model (name : string) (SQu_high : Q)
  (Yderm : Q) (scen : string) (SQu FT : Q) (c : common) : result model :=
  kwargs <- dermal_model_init c ;;
  let self_route := "dermal" in
  let self_scenario := normalize scen in
  _ <- check_scenario globals self_scenario scen solids_scenarios ;;
  let kwargs := dict_set "route" (VStr self_route) kwargs in
  let kwargs :=
    if String.eqb self_scenario "high"
    then dict_set "SQu" (VNum SQu_high) kwargs
    else if String.eqb self_scenario "user"
         then dict_set "SQu" (VNum SQu) kwargs
    else kwargs in
  ft <- Checks.check_l "FT" FT 0 ;;
  let kwargs := dict_set "FT" (VNum ft) kwargs in
  yderm <- Checks.check_ul "Yderm" Yderm 0 1 ;;
  let kwargs := dict_set "Yderm" (VNum yderm) kwargs in
  finish self_route name self_scenario "Dexp" no_extra kwargs.

Definition two_hand_solids_contact :=
  solids_model "EPA-OPPT 2-Hand Dermal Contact with Solids" 3100.

Definition two_hand_container_surface_contact :=
  solids_model "EPA-OPPT 2-Hand Dermal Contact with Container Surfaces" 1100.

Definition user_defined_dermal (Yderm : Q) (scen : string) (S Qu FT : Q)
  (c : common) : result model :=
  kwargs <- dermal_model_init c ;;
  let self_route := "dermal" in
  let self_scenario := normalize scen in
  _ <- check_scenario globals self_scenario scen liquid_scenarios ;;
  let kwargs := dict_set "route" (VStr self_route) kwargs in
  let kwargs :=
    if String.eqb self_scenario "low"
    then dict_set "Qu" (VNum 0.7) (dict_set "S" (VNum 535) kwargs)
    else if String.eqb self_scenario "high"
         then dict_set "Qu" (VNum 2.1) (dict_set "S" (VNum 1070) kwargs)
    else if String.eqb self_scenario "user"
         then dict_set "Qu" (VNum Qu) (dict_set "S" (VNum S) kwargs)
    else kwargs in
  ft <- Checks.check_l "FT" FT 0 ;;
  let kwargs := dict_set "FT" (VNum ft) kwargs in
  yderm <- Checks.check_ul "Yderm" Yderm 0 1 ;;
  let kwargs := dict_set "Yderm" (VNum yderm) kwargs in
  finish self_route "User-defined Dermal" self_scenario "Dexp" no_extra
    kwargs.

End Dermal.

(** ** Module [inhalation] *)

Module Inhalation.

Definition globals : list string :=
  ["checks"; "exposures"; "inhalation_model";
   "small_volume_solids_handling"; "mass_balance";
   "pel_limiting_particulates"; "pel_limiting_vapors";
   "total_pnor_pel_limiting"; "respirable_pnor_pel_limiting";
   "automobile_oem_spray_coating"; "automobile_refinish_spray_coating";
   "automobile_spray_coating"; "uv_roll_coating";
   "user_defined_inhalation"].

(** [inhalation_model.__init__] *)
Definition inhalation_model_init (c : common) : result dict :=
  ed <- Checks.check_ul "ED" (ED c) 0 365 ;;
  ey <- Checks.check_l "EY" (EY c) 0 ;;
  bw <- Checks.check_l "BW" (BW c) 0 ;;
  atc <- Checks.check_l "ATc" (ATc c) 0 ;;
  Ok [("ED", VNum ed); ("NWexp", VNum (NWexp c)); ("NS", VNum (NS c));
      ("EY", VNum ey); ("BW", VNum bw); ("ATc", VNum atc);
      ("AT", VNum (AT c)); ("skips", VList skip0)].

(** *** Small volume solids handling *)

Definition small_volume_scenarios : list string :=
  ["typical"; "worst-case"; "user"].

Definition small_volume_solids_handling (Ys : Q) (scen : string)
  (EF AH Sd : Q) (c : common) : result model :=
  kwargs <- inhalation_model_init c ;;
  let self_route := "inhalation" in
  let self_scenario := normalize scen in
  _ <- check_scenario globals self_scenario self_scenario
         small_volume_scenarios ;;
  let kwargs := dict_set "route" (VStr self_route) kwargs in
  ah <- Checks.check_ul "AH" AH 0 54 ;;
  let kwargs := dict_set "AH" (VNum ah) kwargs in
  ys <- Checks.check_ul "Ys" Ys 0 1 ;;
  let kwargs := dict_set "Ys" (VNum ys) kwargs in
  sd <- Checks.check_ul "Sd" Sd 0 3 ;;
  let kwargs := dict_set "Sd" (VNum sd) kwargs in
  let kwargs :=
    if String.eqb self_scenario "typical"
    then dict_set "EF" (VNum 0.0477) kwargs
    else if String.eqb self_scenario "worst-case"
         then dict_set "EF" (VNum 0.161) kwargs
    else if String.eqb self_scenario "user"
         then dict_set "EF" (VNum EF) kwargs
    else kwargs in
  finish self_route "EPA-OPPT Small Volume Solids Handling" self_scenario
    "I" no_extra kwargs.

(** *** Mass balance *)

Definition mass_balance_scenarios : list string :=
  ["indoor,typical"; "indoor,worst-case"; "outdoor,typical";
   "outdoor,worst-case"; "user"].

(** [mass_balance._Cv]; the parameter [Q] of the source is [Qvent] here,
    [Q] being the type of the rationals. *)
Definition mass_balance_Cv (T G MW Qvent k X VP : Q) : result Q :=
  gen <- pydiv (170000 * T * G) (MW * Qvent * k) ;;
  Ok (pymin gen (1000000 * X * VP / 760)).

(** [_Cm(self, Cv, MW, Vm)] of the mass-balance and PEL-vapor models. *)
Definition Cm_of_Cv (Cv MW Vm : Q) : result Q := pydiv (Cv * MW) Vm.

(** [kwargs['Cv'] = self._Cv( **kwargs)] *)
Definition set_mass_balance_Cv (kwargs : dict) : result dict :=
  T <- kwnum "T" kwargs ;; G <- kwnum "G" kwargs ;;
  MW <- kwnum "MW" kwargs ;; Qvent <- kwnum "Q" kwargs ;;
  k <- kwnum "k" kwargs ;; X <- kwnum "X" kwargs ;;
  VP <- kwnum "VP" kwargs ;;
  Cv <- mass_balance_Cv T G MW Qvent k X VP ;;
  Ok (dict_set "Cv" (VNum Cv) kwargs).

(** [kwargs['Cm'] = self._Cm( **kwargs)] *)
Definition set_Cm_of_Cv (kwargs : dict) : result dict :=
  Cv <- kwnum "Cv" kwargs ;; MW <- kwnum "MW" kwargs ;;
  Vm <- kwnum "Vm" kwargs ;;
  Cm <- Cm_of_Cv Cv MW Vm ;;
  Ok (dict_set "Cm" (VNum Cm) kwargs).

(** The ventilation rate of the outdoor worst case:
    [26400 * (60 * vz / 5280)**3]. *)
Definition outdoor_worst_Q (vz : Q) : Q := 26400 * (60 * vz / 5280) ^ 3.

(** The [if]/[elif] chain that sets [kwargs['Q']] and [kwargs['k']]. *)
Definition mass_balance_Qk (self_scenario : string) (Qvent k vz : Q)
  (kwargs : dict) : dict :=
  if String.eqb self_scenario "indoor,typical"
  then dict_set "k" (VNum 0.5) (dict_set "Q" (VNum 3000) kwargs)
  else if String.eqb self_scenario "indoor,worst-case"
  then dict_set "k" (VNum 0.1) (dict_set "Q" (VNum 500) kwargs)
  else if String.eqb self_scenario "outdoor,typical"
  then dict_set "k" (VNum 0.5) (dict_set "Q" (VNum 237600) kwargs)
  else if String.eqb self_scenario "outdoor,worst-case"
  then dict_set "k" (VNum 0.1)
         (dict_set "Q" (VNum (outdoor_worst_Q vz)) kwargs)
  else if String.eqb self_scenario "user"
  then dict_set "k" (VNum k) (dict_set "Q" (VNum Qvent) kwargs)
  else kwargs.

Definition mass_balance (G MW VP X : Q) (scen : string)
  (T Qvent k Vm b h vz : Q) (c : common) : result model :=
  kwargs <- inhalation_model_init c ;;
  let self_route := "inhalation" in
  let self_scenario := normalize scen in
  _ <- check_scenario globals self_scenario self_scenario
         mass_balance_scenarios ;;
  let kwargs := dict_set "route" (VStr self_route) kwargs in
  let kwargs := dict_set "T" (VNum T) kwargs in
  let kwargs := dict_set "G" (VNum G) kwargs in
  let kwargs := dict_set "MW" (VNum MW) kwargs in
  let kwargs := dict_set "X" (VNum X) kwargs in
  let kwargs := dict_set "VP" (VNum VP) kwargs in
  let kwargs := dict_set "Vm" (VNum Vm) kwargs in
  let kwargs := dict_set "b" (VNum b) kwargs in
  let kwargs := dict_set "h" (VNum h) kwargs in
  let kwargs := dict_set "EY" (VNum (EY c)) kwargs in
  let kwargs := dict_set "BW" (VNum (BW c)) kwargs in
  let kwargs := dict_set "ATc" (VNum (ATc c)) kwargs in
  let kwargs := dict_set "AT" (VNum (AT c)) kwargs in
  let kwargs := mass_balance_Qk self_scenario Qvent k vz kwargs in
  finish self_route "EPA-OPPT Mass Balance" self_scenario "I"
    (fun kwargs => kwargs <- set_mass_balance_Cv kwargs ;;
                   set_Cm_of_Cv kwargs)
    kwargs.

(** *** PEL-limiting models; all four test the raw [scenario] argument *)

Definition user_only : list string := ["user"].

(** [pel_limiting_particulates._Cm]: [KCk * Ys / Ypel] *)
Definition set_Cm_particulates (kwargs : dict) : result dict :=
  KCk <- kwnum "KCk" kwargs ;; Ys <- kwnum "Ys" kwargs ;;
  Ypel <- kwnum "Ypel" kwargs ;;
  Cm <- pydiv (KCk * Ys) Ypel ;;
  Ok (dict_set "Cm" (VNum Cm) kwargs).

Definition pel_limiting_particulates (Ys : Q) (scen : string)
  (KCk Ypel b h : Q) (c : common) : result model :=
  kwargs <- inhalation_model_init c ;;
  let self_route := "inhalation" in
  let self_scenario := normalize scen in
  _ <- check_scenario globals scen self_scenario user_only ;;
  let kwargs := dict_set "route" (VStr self_route) kwargs in
  let kwargs := dict_set "KCk" (VNum KCk) kwargs in
  ys <- Checks.check_ul "Ys" Ys 0 1 ;;
  let kwargs := dict_set "Ys" (VNum ys) kwargs in
  ypel <- Checks.check_ul "Ypel" Ypel 0 1 ;;
  let kwargs := dict_set "Ypel" (VNum ypel) kwargs in
  b' <- Checks.check_ul "b" b 0 7.9 ;;
  let kwargs := dict_set "b" (VNum b') kwargs in
  h' <- Checks.check_ul "h" h 0 24 ;;
  let kwargs := dict_set "h" (VNum h') kwargs in
  finish self_route
    "OSHA PEL-limiting Model for Substance-specific Particulates"
    self_scenario "I" set_Cm_particulates kwargs.

(** [pel_limiting_vapors._Cv] *)
Definition pel_vapors_Cv (Cvk VP Ys MW VPpel Ypel MWpel X : Q) : result Q :=
  num <- pydiv (VP * Ys) MW ;;
  den <- pydiv (VPpel * Ypel) MWpel ;;
  ratio <- pydiv (Cvk * num) den ;;
  Ok (pymin ratio (1000000 * X * VP / 760)).

Definition set_pel_vapors_Cv (kwargs : dict) : result dict :=
  Cvk <- kwnum "Cvk" kwargs ;; VP <- kwnum "VP" kwargs ;;
  Ys <- kwnum "Ys" kwargs ;; MW <- kwnum "MW" kwargs ;;
  VPpel <- kwnum "VPpel" kwargs ;; Ypel <- kwnum "Ypel" kwargs ;;
  MWpel <- kwnum "MWpel" kwargs ;; X <- kwnum "X" kwargs ;;
  Cv <- pel_vapors_Cv Cvk VP Ys MW VPpel Ypel MWpel X ;;
  Ok (dict_set "Cv" (VNum Cv) kwargs).

Definition pel_limiting_vapors (Cvk VP Ys MW VPpel Ypel MWpel X : Q)
  (scen : string) (Vm b h : Q) (c : common) : result model :=
  kwargs <- inhalation_model_init c ;;
  let self_route := "inhalation" in
  let self_scenario := normalize scen in
  _ <- check_scenario globals scen self_scenario user_only ;;
  let kwargs := dict_set "route" (VStr self_route) kwargs in
  let kwargs := dict_set "Cvk" (VNum Cvk) kwargs in
  let kwargs := dict_set "VP" (VNum VP) kwargs in
  ys <- Checks.check_ul "Ys" Ys 0 1 ;;
  let kwargs := dict_set "Ys" (VNum ys) kwargs in
  let kwargs := dict_set "MW" (VNum MW) kwargs in
  let kwargs := dict_set "VPpel" (VNum VPpel) kwargs in
  ys1 <- getnum "Ys" kwargs ;;
  let kwargs := dict_set "Ypel" (VNum (1 - ys1)) kwargs in
  let kwargs := dict_set "MWpel" (VNum MWpel) kwargs in
  x <- Checks.check_ul "X" X 0 1 ;;
  let kwargs := dict_set "X" (VNum x) kwargs in
  vm <- Checks.check_l "Vm" Vm 0 ;;
  let kwargs := dict_set "Vm" (VNum vm) kwargs in
  b' <- Checks.check_ul "b" b 0 7.9 ;;
  let kwargs := dict_set "b" (VNum b') kwargs in
  h' <- Checks.check_ul "h" h 0 24 ;;
  let kwargs := dict_set "h" (VNum h') kwargs in
  finish self_route "OSHA PEL-limiting Model for Substance-specific Vapors"
    self_scenario "I"
    (fun kwargs => kwargs <- set_pel_vapors_Cv kwargs ;;
                   set_Cm_of_Cv kwargs)
    kwargs.

(** [_Cm(self, KCk, Ys)]: [KCk * Ys] *)
Definition set_Cm_KCk_Ys (kwargs : dict) : result dict :=
  KCk <- kwnum "KCk" kwargs ;; Ys <- kwnum "Ys" kwargs ;;
  Ok (dict_set "Cm" (VNum (KCk * Ys)) kwargs).

(** The body shared by the total and the respirable PNOR models. *)
Definition pnor_model (name : string) (Ys : Q) (scen : string)
  (KCk b h : Q) (c : common) : result model :=
  kwargs <- inhalation_model_init c ;;
  let self_route := "inhalation" in
  let self_scenario := normalize scen in
  _ <- check_scenario globals scen self_scenario user_only ;;
  let kwargs := dict_set "route" (VStr self_route) kwargs in
  let kwargs := dict_set "KCk" (VNum KCk) kwargs in
  ys <- Checks.check_ul "Ys" Ys 0 1 ;;
  let kwargs := dict_set "Ys" (VNum ys) kwargs in
  b' <- Checks.check_ul "b" b 0 7.9 ;;
  let kwargs := dict_set "b" (VNum b') kwargs in
  h' <- Checks.check_ul "h" h 0 24 ;;
  let kwargs := dict_set "h" (VNum h') kwargs in
  finish self_route name self_scenario "I" set_Cm_KCk_Ys kwargs.

Definition total_pnor_pel_limiting :=
  pnor_model "OSHA Total PNOR PEL-limiting".

Definition respirable_pnor_pel_limiting :=
  pnor_model "OSHA Respirable PNOR PEL-limiting".

(** *** Spray coating and roll coating *)

Definition spray_scenarios : list string :=
  ["conventional,downdraft"; "conventional,crossdraft"; "hvlp,downdraft";
   "hvlp,crossdraft"; "user"].

(** [if Ys == None: ... else: ...], the value later stored under ['Ys']. *)
Definition resolve_Ys (Ys : option Q) (kwargs : dict) : result Q :=
  match Ys with
  | None =>
      ymist <- getnum "Ymist" kwargs ;;
      ysf <- getnum "Ysf" kwargs ;;
      ratio <- pydiv ymist ysf ;;
      Checks.check_ul "Ys" (pymin ratio 1) 0 1
  | Some ys => Checks.check_ul "Ys" ys 0 1
  end.

(** The body shared by the OEM and the refinish spray-coating models. *)
Definition spray_model (name : string) (Ymist : Q) (scen : string)
  (KCk : Q) (Ys : option Q) (Ysf b h : Q) (c : common) : result model :=
  kwargs <- inhalation_model_init c ;;
  let self_route := "inhalation" in
  let self_scenario := normalize scen in
  _ <- check_scenario globals self_scenario self_scenario spray_scenarios ;;
  let kwargs := dict_set "route" (VStr self_route) kwargs in
  let kwargs :=
    if String.eqb self_scenario "conventional,downdraft"
    then dict_set "KCk" (VNum 2.3) kwargs
    else if String.eqb self_scenario "conventional,crossdraft"
    then dict_set "KCk" (VNum 15) kwargs
    else if String.eqb self_scenario "hvlp,downdraft"
    then dict_set "KCk" (VNum 1.9) kwargs
    else if String.eqb self_scenario "hvlp,crossdraft"
    then dict_set "KCk" (VNum 15) kwargs
    else if String.eqb self_scenario "user"
    then dict_set "KCk" (VNum KCk) kwargs
    else kwargs in
  ymist <- Checks.check_ul "Ymist" Ymist 0 1 ;;
  let kwargs := dict_set "Ymist" (VNum ymist) kwargs in
  ysf <- Checks.check_ul "Ysf" Ysf 0 1 ;;
  let kwargs := dict_set "Ysf" (VNum ysf) kwargs in
  ys <- resolve_Ys Ys kwargs ;;
  let kwargs := dict_set "Ys" (VNum ys) kwargs in
  b' <- Checks.check_ul "b" b 0 7.9 ;;
  let kwargs := dict_set "b" (VNum b') kwargs in
  h' <- Checks.check_ul "h" h 0 24 ;;
  let kwargs := dict_set "h" (VNum h') kwargs in
  finish self_route name self_scenario "I" set_Cm_KCk_Ys kwargs.

Definition automobile_oem_spray_coating :=
  spray_model "EPA-OPPT automobile OEM Spray Coating".

(** The refinish model takes [Ys] before [KCk]. *)
Definition automobile_refinish_spray_coating (Ymist : Q) (scen : string)
  (Ys : option Q) (KCk Ysf b h : Q) (c : common) : result model :=
  spray_model "EPA-OPPT Automobile Refinish Spray Coating" Ymist scen KCk Ys
    Ysf b h c.

Definition automobile_spray_scenarios : list string :=
  ["low,conventional,crossdraft"; "high,conventional,crossdraft";
   "low,conventional,downdraft"; "high,conventional,downdraft";
   "low,hvlp,crossdraft"; "high,hvlp,crossdraft";
   "low,hvlp,downdraft"; "high,hvlp,downdraft"].

(** [automobile_spray_coating._Cm]: [KCk] *)
Definition set_Cm_KCk (kwargs : dict) : result dict :=
  KCk <- kwnum "KCk" kwargs ;;
  Ok (dict_set "Cm" (VNum KCk) kwargs).

Definition automobile_spray_coating (scen : string) (KCk b h : Q)
  (c : common) : result model :=
  kwargs <- inhalation_model_init c ;;
  let self_route := "inhalation" in
  let self_scenario := normalize scen in
  _ <- check_scenario globals self_scenario self_scenario
         automobile_spray_scenarios ;;
  let kwargs := dict_set "route" (VStr self_route) kwargs in
  let kwargs :=
    if String.eqb self_scenario "low,conventional,crossdraft"
    then dict_set "KCk" (VNum 0.05) kwargs
    else if String.eqb self_scenario "high,conventional,crossdraft"
    then dict_set "KCk" (VNum 18.4) kwargs
    else if String.eqb self_scenario "low,conventional,downdraft"
    then dict_set "KCk" (VNum 0.01) kwargs
    else if String.eqb self_scenario "high,conventional,downdraft"
    then dict_set "KCk" (VNum 3.7) kwargs
    else if String.eqb self_scenario "low,hvlp,crossdraft"
    then dict_set "KCk" (VNum 1.0) kwargs
    else if String.eqb self_scenario "high,hvlp,crossdraft"
    then dict_set "KCk" (VNum 5.2) kwargs
    else if String.eqb self_scenario "low,hvlp,downdraft"
    then dict_set "KCk" (VNum 0.6) kwargs
    else if String.eqb self_scenario "high,hvlp,downdraft"
    then dict_set "KCk" (VNum 1.4) kwargs
    else if String.eqb self_scenario "user"
    then dict_set "KCk" (VNum KCk) kwargs
    else kwargs in
  let kwargs := dict_set "b" (VNum b) kwargs in
  let kwargs := dict_set "h" (VNum h) kwargs in
  finish self_route "EPA-OPPT Automobile Spray Coating" self_scenario "I"
    set_Cm_KCk kwargs.

Definition uv_roll_scenarios : list string :=
  ["low end of range"; "high end of range"].

Definition uv_roll_coating (Ymist : Q) (scen : string) (KCk : Q)
  (Ys : option Q) (Ysf b h : Q) (c : common) : result model :=
  kwargs <- inhalation_model_init c ;;
  let self_route := "inhalation" in
  let self_scenario := normalize scen in
  _ <- check_scenario globals self_scenario self_scenario
         uv_roll_scenarios ;;
  let kwargs := dict_set "route" (VStr self_route) kwargs in
  let kwargs :=
    if String.eqb self_scenario "low end of range"
    then dict_set "KCk" (VNum 0.04) kwargs
    else if String.eqb self_scenario "high end of range"
    then dict_set "KCk" (VNum 0.26) kwargs
    else if String.eqb self_scenario "user"
    then dict_set "KCk" (VNum KCk) kwargs
    else kwargs in
  ymist <- Checks.check_ul "Ymist" Ymist 0 1 ;;
  let kwargs := dict_set "Ymist" (VNum ymist) kwargs in
  ysf <- Checks.check_ul "Ysf" Ysf 0 1 ;;
  let kwargs := dict_set "Ysf" (VNum ysf) kwargs in
  ys <- resolve_Ys Ys kwargs ;;
  let kwargs := dict_set "Ys" (VNum ys) kwargs in
  b' <- Checks.check_ul "b" b 0 7.9 ;;
  let kwargs := dict_set "b" (VNum b') kwargs in
  h' <- Checks.check_ul "h" h 0 24 ;;
  let kwargs := dict_set "h" (VNum h') kwargs in
  finish self_route "EPA-OPPT UV Roll Coating" self_scenario "I"
    set_Cm_KCk_Ys kwargs.

(** *** User-defined inhalation *)

Definition user_defined_inhalation (Cv MW h : Q) (scen : string)
  (Cm : option Q) (Vm Ys b : Q) (c : common) : result model :=
  kwargs <- inhalation_model_init c ;;
  let self_route := "inhalation" in
  let self_scenario := normalize scen in
  _ <- check_scenario globals scen self_scenario user_only ;;
  let kwargs := dict_set "route" (VStr self_route) kwargs in
  let kwargs := dict_set "Cv" (VNum Cv) kwargs in
  let kwargs := dict_set "MW" (VNum MW) kwargs in
  vm <- Checks.check_l "Vm" Vm 0 ;;
  let kwargs := dict_set "Vm" (VNum vm) kwargs in
  ys <- Checks.check_ul "Ys" Ys 0 1 ;;
  let kwargs := dict_set "Ys" (VNum ys) kwargs in
  cm <- match Cm with
        | None =>
            ratio <- pydiv (Cv * MW) Vm ;;
            Checks.check_l "Cm" (ratio * Ys) 0
        | Some cm => Checks.check_l "Cm" cm 0
        end ;;
  let kwargs := dict_set "Cm" (VNum cm) kwargs in
  b' <- Checks.check_ul "b" b 0 7.9 ;;
  let kwargs := dict_set "b" (VNum b') kwargs in
  h' <- Checks.check_ul "h" h 0 24 ;;
  let kwargs := dict_set "h" (VNum h') kwargs in
  finish self_route "User-defined Inhalation" self_scenario "I" no_extra
    kwargs.

End Inhalation.

(** ** The catalog: every model type with its constructor arguments *)

Inductive call : Type :=
| OneHandLiquidContact (Yderm : Q) (scen : string) (S Qu FT : Q) (c : common)
| TwoHandLiquidContact (Yderm : Q) (scen : string) (S Qu FT : Q) (c : common)
| TwoHandLiquidImmersion (Yderm : Q) (scen : string) (S Qu FT : Q)
    (c : common)
| TwoHandSolidsContact (Yderm : Q) (scen : string) (SQu FT : Q) (c : common)
| TwoHandContainerSurfaceContact (Yderm : Q) (scen : string) (SQu FT : Q)
    (c : common)
| UserDefinedDermal (Yderm : Q) (scen : string) (S Qu FT : Q) (c : common)
| SmallVolumeSolidsHandling (Ys : Q) (scen : string) (EF AH Sd : Q)
    (c : common)
| MassBalance (G MW VP X : Q) (scen : string) (T Qvent k Vm b h vz : Q)
    (c : common)
| PelLimitingParticulates (Ys : Q) (scen : string) (KCk Ypel b h : Q)
    (c : common)
| PelLimitingVapors (Cvk VP Ys MW VPpel Ypel MWpel X : Q) (scen : string)
    (Vm b h : Q) (c : common)
| TotalPnorPelLimiting (Ys : Q) (scen : string) (KCk b h : Q) (c : common)
| RespirablePnorPelLimiting (Ys : Q) (scen : string) (KCk b h : Q)
    (c : common)
| AutomobileOemSprayCoating (Ymist : Q) (scen : string) (KCk : Q)
    (Ys : option Q) (Ysf b h : Q) (c : common)
| AutomobileRefinishSprayCoating (Ymist : Q) (scen : string)
    (Ys : option Q) (KCk Ysf b h : Q) (c : common)
| AutomobileSprayCoating (scen : string) (KCk b h : Q) (c : common)
| UvRollCoating (Ymist : Q) (scen : string) (KCk : Q) (Ys : option Q)
    (Ysf b h : Q) (c : common)
| UserDefinedInhalation (Cv MW h : Q) (scen : string) (Cm : option Q)
    (Vm Ys b : Q) (c : common).

Definition construct (m : call) : result model :=
  match m with
  | OneHandLiquidContact y s a q f c =>
      Dermal.one_hand_liquid_contact y s a q f c
  | TwoHandLiquidContact y s a q f c =>
      Dermal.two_hand_liquid_contact y s a q f c
  | TwoHandLiquidImmersion y s a q f c =>
      Dermal.two_hand_liquid_immersion y s a q f c
  | TwoHandSolidsContact y s q f c => Dermal.two_hand_solids_contact y s q f c
  | TwoHandContainerSurfaceContact y s q f c =>
      Dermal.two_hand_container_surface_contact y s q f c
  | UserDefinedDermal y s a q f c => Dermal.user_defined_dermal y s a q f c
  | SmallVolumeSolidsHandling y s ef ah sd c =>
      Inhalation.small_volume_solids_handling y s ef ah sd c
  | MassBalance g mw vp x s t q k vm b h vz c =>
      Inhalation.mass_balance g mw vp x s t q k vm b h vz c
  | PelLimitingParticulates y s kck yp b h c =>
      Inhalation.pel_limiting_particulates y s kck yp b h c
  | PelLimitingVapors cvk vp y mw vpp yp mwp x s vm b h c =>
      Inhalation.pel_limiting_vapors cvk vp y mw vpp yp mwp x s vm b h c
  | TotalPnorPelLimiting y s kck b h c =>
      Inhalation.total_pnor_pel_limiting y s kck b h c
  | RespirablePnorPelLimiting y s kck b h c =>
      Inhalation.respirable_pnor_pel_limiting y s kck b h c
  | AutomobileOemSprayCoating ym s kck ys ysf b h c =>
      Inhalation.automobile_oem_spray_coating ym s kck ys ysf b h c
  | AutomobileRefinishSprayCoating ym s ys kck ysf b h c =>
      Inhalation.automobile_refinish_spray_coating ym s ys kck ysf b h c
  | AutomobileSprayCoating s kck b h c =>
      Inhalation.automobile_spray_coating s kck b h c
  | UvRollCoating ym s kck ys ysf b h c =>
      Inhalation.uv_roll_coating ym s kck ys ysf b h c
  | UserDefinedInhalation cv mw h s cm vm ys b c =>
      Inhalation.user_defined_inhalation cv mw h s cm vm ys b c
  end.

(** [get_scenarios()] of the model type. *)
Definition get_scenarios (m : call) : list string :=
  match m with
  | OneHandLiquidContact _ _ _ _ _ _ | TwoHandLiquidContact _ _ _ _ _ _
  | TwoHandLiquidImmersion _ _ _ _ _ _ | UserDefinedDermal _ _ _ _ _ _ =>
      Dermal.liquid_scenarios
  | TwoHandSolidsContact _ _ _ _ _
  | TwoHandContainerSurfaceContact _ _ _ _ _ => Dermal.solids_scenarios
  | SmallVolumeSolidsHandling _ _ _ _ _ _ => Inhalation.small_volume_scenarios
  | MassBalance _ _ _ _ _ _ _ _ _ _ _ _ _ => Inhalation.mass_balance_scenarios
  | PelLimitingParticulates _ _ _ _ _ _ _
  | PelLimitingVapors _ _ _ _ _ _ _ _ _ _ _ _ _
  | TotalPnorPelLimiting _ _ _ _ _ _ | RespirablePnorPelLimiting _ _ _ _ _ _
  | UserDefinedInhalation _ _ _ _ _ _ _ _ _ => Inhalation.user_only
  | AutomobileOemSprayCoating _ _ _ _ _ _ _ _
  | AutomobileRefinishSprayCoating _ _ _ _ _ _ _ _ =>
      Inhalation.spray_scenarios
  | AutomobileSprayCoating _ _ _ _ _ => Inhalation.automobile_spray_scenarios
  | UvRollCoating _ _ _ _ _ _ _ _ => Inhalation.uv_roll_scenarios
  end.

(** The [scenario] argument of a call. *)
Definition scenario_of (m : call) : string :=
  match m with
  | OneHandLiquidContact _ s _ _ _ _ | TwoHandLiquidContact _ s _ _ _ _
  | TwoHandLiquidImmersion _ s _ _ _ _ | UserDefinedDermal _ s _ _ _ _
  | TwoHandSolidsContact _ s _ _ _ | TwoHandContainerSurfaceContact _ s _ _ _
  | SmallVolumeSolidsHandling _ s _ _ _ _
  | MassBalance _ _ _ _ s _ _ _ _ _ _ _ _
  | PelLimitingParticulates _ s _ _ _ _ _
  | PelLimitingVapors _ _ _ _ _ _ _ _ s _ _ _ _
  | TotalPnorPelLimiting _ s _ _ _ _ | RespirablePnorPelLimiting _ s _ _ _ _
  | AutomobileOemSprayCoating _ s _ _ _ _ _ _
  | AutomobileRefinishSprayCoating _ s _ _ _ _ _ _
  | AutomobileSprayCoating s _ _ _ _ | UvRollCoating _ s _ _ _ _ _ _
  | UserDefinedInhalation _ _ _ s _ _ _ _ _ => s
  end.

(** The family-common arguments of a call. *)
Definition common_of (m : call) : common :=
  match m with
  | OneHandLiquidContact _ _ _ _ _ c | TwoHandLiquidContact _ _ _ _ _ c
  | TwoHandLiquidImmersion _ _ _ _ _ c | UserDefinedDermal _ _ _ _ _ c
  | TwoHandSolidsContact _ _ _ _ c | TwoHandContainerSurfaceContact _ _ _ _ c
  | SmallVolumeSolidsHandling _ _ _ _ _ c
  | MassBalance _ _ _ _ _ _ _ _ _ _ _ _ c
  | PelLimitingParticulates _ _ _ _ _ _ c
  | PelLimitingVapors _ _ _ _ _ _ _ _ _ _ _ _ c
  | TotalPnorPelLimiting _ _ _ _ _ c | RespirablePnorPelLimiting _ _ _ _ _ c
  | AutomobileOemSprayCoating _ _ _ _ _ _ _ c
  | AutomobileRefinishSprayCoating _ _ _ _ _ _ _ c
  | AutomobileSprayCoating _ _ _ _ c | UvRollCoating _ _ _ _ _ _ _ c
  | UserDefinedInhalation _ _ _ _ _ _ _ _ c => c
  end.

(** The same call with other family-common arguments. *)
Definition with_common (c : common) (m : call) : call :=
  match m with
  | OneHandLiquidContact y s a q f _ => OneHandLiquidContact y s a q f c
  | TwoHandLiquidContact y s a q f _ => TwoHandLiquidContact y s a q f c
  | TwoHandLiquidImmersion y s a q f _ => TwoHandLiquidImmersion y s a q f c
  | TwoHandSolidsContact y s q f _ => TwoHandSolidsContact y s q f c
  | TwoHandContainerSurfaceContact y s q f _ =>
      TwoHandContainerSurfaceContact y s q f c
  | UserDefinedDermal y s a q f _ => UserDefinedDermal y s a q f c
  | SmallVolumeSolidsHandling y s ef ah sd _ =>
      SmallVolumeSolidsHandling y s ef ah sd c
  | MassBalance g mw vp x s t q k vm b h vz _ =>
      MassBalance g mw vp x s t q k vm b h vz c
  | PelLimitingParticulates y s kck yp b h _ =>
      PelLimitingParticulates y s kck yp b h c
  | PelLimitingVapors cvk vp y mw vpp yp mwp x s vm b h _ =>
      PelLimitingVapors cvk vp y mw vpp yp mwp x s vm b h c
  | TotalPnorPelLimiting y s kck b h _ => TotalPnorPelLimiting y s kck b h c
  | RespirablePnorPelLimiting y s kck b h _ =>
      RespirablePnorPelLimiting y s kck b h c
  | AutomobileOemSprayCoating ym s kck ys ysf b h _ =>
      AutomobileOemSprayCoating ym s kck ys ysf b h c
  | AutomobileRefinishSprayCoating ym s ys kck ysf b h _ =>
      AutomobileRefinishSprayCoating ym s ys kck ysf b h c
  | AutomobileSprayCoating s kck b h _ => AutomobileSprayCoating s kck b h c
  | UvRollCoating ym s kck ys ysf b h _ => UvRollCoating ym s kck ys ysf b h c
  | UserDefinedInhalation cv mw h s cm vm ys b _ =>
      UserDefinedInhalation cv mw h s cm vm ys b c
  end.

Definition is_dermal (m : call) : bool :=
  match m with
  | OneHandLiquidContact _ _ _ _ _ _ | TwoHandLiquidContact _ _ _ _ _ _
  | TwoHandLiquidImmersion _ _ _ _ _ _ | UserDefinedDermal _ _ _ _ _ _
  | TwoHandSolidsContact _ _ _ _ _
  | TwoHandContainerSurfaceContact _ _ _ _ _ => true
  | _ => false
  end.

Definition set_AT (t : Q) (c : common) : common :=
  {| ED := ED c; NWexp := NWexp c; NS := NS c; EY := EY c; BW := BW c;
     ATc := ATc c; AT := t |}.

(** ** The calls of the repository's test script

    [tests/tests.py] constructs every model type once per scenario of its
    [get_scenarios()], with these arguments and the defaults of the
    signatures for the others. *)
Definition test_calls : list (string -> call) :=
  [ (fun s => OneHandLiquidContact 0.1 s 535 2.1 1 (common_defaults 1));
    (fun s => TwoHandLiquidContact 0.2 s 1070 2.1 1 (common_defaults 1));
    (fun s => TwoHandLiquidImmersion 0.3 s 1070 10.3 1 (common_defaults 1));
    (fun s => TwoHandSolidsContact 0.4 s 3100 1 (common_defaults 1));
    (fun s => TwoHandContainerSurfaceContact 0.5 s 1100 1
                (common_defaults 1));
    (fun s => UserDefinedDermal 0.6 s 1070 2.1 1 (common_defaults 1));
    (fun s => SmallVolumeSolidsHandling 0.1 s 0.0477 1 1 (common_defaults 1));
    (fun s => MassBalance 1 92.141 28.4 0.2 s 298 3000 0.5 24.45 1.25 8 440
                (common_defaults 1));
    (fun s => PelLimitingParticulates 0.3 s 15 1 1.25 8 (common_defaults 1));
    (fun s => PelLimitingVapors 500 23.7564 0.4 18.015 28.4 0.6 92.141 0.5 s
                24.45 1.25 8 (common_defaults 1));
    (fun s => TotalPnorPelLimiting 0.5 s 15 1.25 8 (common_defaults 1));
    (fun s => RespirablePnorPelLimiting 0.6 s 5 1.25 8 (common_defaults 1));
    (fun s => AutomobileOemSprayCoating 0.7 s 2.3 None 0.25 1.25 8
                (common_defaults 17));
    (fun s => AutomobileRefinishSprayCoating 0.8 s None 15 0.25 1.25 8
                (common_defaults 3));
    (fun s => AutomobileSprayCoating s 18.4 1.25 8 (common_defaults 3));
    (fun s => UvRollCoating 0.9 s 0.26 None 0.25 1.25 8 (common_defaults 1));
    (fun s => UserDefinedInhalation 500 92.141 8 s None 24.45 1 1.25
                (common_defaults 1)) ].

(** [s.upper()], to spell a scenario in another letter case. *)
Definition upper_ascii (c : ascii) : ascii :=
  let n := nat_of_ascii c in
  if Nat.leb 97 n && Nat.leb n 122 then ascii_of_nat (n - 32) else c.

Fixpoint upper (s : string) : string :=
  match s with
  | EmptyString => EmptyString
  | String c rest => String (upper_ascii c) (upper rest)
  end.

(** ** Notions used to state the properties *)

(** Whether the constructor tests the raw [scenario] argument instead of
    the normalised [self.scenario]. *)
Definition tests_raw (m : call) : bool :=
  match m with
  | PelLimitingParticulates _ _ _ _ _ _ _
  | PelLimitingVapors _ _ _ _ _ _ _ _ _ _ _ _ _
  | TotalPnorPelLimiting _ _ _ _ _ _ | RespirablePnorPelLimiting _ _ _ _ _ _
  | UserDefinedInhalation _ _ _ _ _ _ _ _ _ => true
  | _ => false
  end.

(** The string that the membership test of the constructor reads. *)
Definition tested_scenario (m : call) : string :=
  if tests_raw m then scenario_of m else normalize (scenario_of m).

(** The call [mk s] is built under every scenario [s] that its model type
    lists, storing [s]; and, unless the model tests the raw argument, also
    under the upper-case spelling of [s]. *)
Definition accepts_listed (mk : string -> call) : Prop :=
  Forall (fun s : string =>
            (exists inst : model,
                construct (mk s) = Ok inst /\ scenario inst = s) /\
            (tests_raw (mk s) = false ->
             exists inst : model,
               construct (mk (upper s)) = Ok inst /\ scenario inst = s))
    (get_scenarios (mk "")).

(** The constructor call of the golden-value example:
    [one_hand_liquid_contact(Yderm=..., scenario=...)], every other
    parameter at the default of the signature. *)
Definition one_hand_liquid_contact_defaults (Yderm : Q) (scen : string)
  : result model :=
  Dermal.one_hand_liquid_contact Yderm scen 535 2.1 1 (common_defaults 1).

(** The family-common bounds that the base constructor checks. *)
Definition common_in_bounds (c : common) : Prop :=
  0 <= ED c <= 365 /\ 0 <= EY c /\ 0 <= BW c /\ 0 <= ATc c.

(** The averaging time behind [ADD]: the instance reports [t] as its input
    [AT], and its output [ADD] is [daily_dose] of the reported dose rate
    with averaging time [t]. *)
Definition ADD_uses (display : string) (t : Q) (c : common) (inst : model)
  : Prop :=
  dict_get "AT" (inputs inst) = Some (VNum t) /\
  exists pdr add : Q,
    dict_get display (outputs inst) = Some (VNum pdr) /\
    dict_get "ADD" (outputs inst) = Some (VNum add) /\
    Exposures.daily_dose pdr (ED c) (EY c) (BW c) t = Ok add.

(** A constructor argument with the bounds it is checked against:
    name, value, lower bound and, for [check_ul], upper bound. *)
Definition range : Type := (string * Q * Q * option Q)%type.

Definition in_range (r : range) : Prop :=
  match r with
  | (_, v, lo, Some hi) => lo <= v <= hi
  | (_, v, lo, None) => lo <= v
  end.

Definition opt_range (name : string) (v : option Q) (lo : Q)
  (hi : option Q) : list range :=
  match v with
  | Some x => [(name, x, lo, hi)]
  | None => []
  end.

(** The model-specific arguments that the constructor passes through
    [checks.check_ul] or [checks.check_l], read off the source. *)
Definition checked_inputs (m : call) : list range :=
  match m with
  | OneHandLiquidContact y _ _ _ f _ | TwoHandLiquidContact y _ _ _ f _
  | TwoHandLiquidImmersion y _ _ _ f _ | UserDefinedDermal y _ _ _ f _
  | TwoHandSolidsContact y _ _ f _
  | TwoHandContainerSurfaceContact y _ _ f _ =>
      [("FT", f, 0, None); ("Yderm", y, 0, Some 1)]
  | SmallVolumeSolidsHandling ys _ _ ah sd _ =>
      [("AH", ah, 0, Some 54); ("Ys", ys, 0, Some 1); ("Sd", sd, 0, Some 3)]
  | MassBalance _ _ _ _ _ _ _ _ _ _ _ _ _ => []
  | PelLimitingParticulates ys _ _ yp b h _ =>
      [("Ys", ys, 0, Some 1); ("Ypel", yp, 0, Some 1);
       ("b", b, 0, Some 7.9); ("h", h, 0, Some 24)]
  | PelLimitingVapors _ _ ys _ _ _ _ x _ vm b h _ =>
      [("Ys", ys, 0, Some 1); ("X", x, 0, Some 1); ("Vm", vm, 0, None);
       ("b", b, 0, Some 7.9); ("h", h, 0, Some 24)]
  | TotalPnorPelLimiting ys _ _ b h _
  | RespirablePnorPelLimiting ys _ _ b h _ =>
      [("Ys", ys, 0, Some 1); ("b", b, 0, Some 7.9); ("h", h, 0, Some 24)]
  | AutomobileOemSprayCoating ym _ _ ys ysf b h _
  | AutomobileRefinishSprayCoating ym _ ys _ ysf b h _
  | UvRollCoating ym _ _ ys ysf b h _ =>
      [("Ymist", ym, 0, Some 1); ("Ysf", ysf, 0, Some 1)]
      ++ opt_range "Ys" ys 0 (Some 1)
      ++ [("b", b, 0, Some 7.9); ("h", h, 0, Some 24)]
  | AutomobileSprayCoating _ _ _ _ _ => []
  | UserDefinedInhalation _ _ h _ cm vm ys b _ =>
      [("Vm", vm, 0, None); ("Ys", ys, 0, Some 1)]
      ++ opt_range "Cm" cm 0 None
      ++ [("b", b, 0, Some 7.9); ("h", h, 0, Some 24)]
  end.

(** What every successful construction establishes. *)
Definition built (display : string) (scens : list string) (t : Q)
  (scen : string) (c : common) (checked : list range) (inst : model)
  : Prop :=
  scenario inst = normalize scen /\
  In (scenario inst) scens /\
  ADD_uses display t c inst /\
  common_in_bounds c /\
  Forall in_range checked.

(** The mass-balance scenario table as the specification words it:
    ventilation rate and mixing factor per scenario. *)
Definition mass_balance_table (scen : string) (Qvent k vz : Q)
  : option (Q * Q) :=
  if String.eqb scen "indoor,typical" then Some (3000, 0.5)
  else if String.eqb scen "indoor,worst-case" then Some (500, 0.1)
  else if String.eqb scen "outdoor,typical" then Some (237600, 0.5)
  else if String.eqb scen "outdoor,worst-case"
       then Some (26400 * (60 * vz / 5280) ^ 3, 0.1)
  else if String.eqb scen "user" then Some (Qvent, k)
  else None.

(** The two exception classes that no module but [checks] can name. *)
Definition scenario_or_route (e : exn) : bool :=
  match e with
  | ScenarioException _ | RouteException _ => true
  | _ => false
  end.

(** Every exception that [c] can raise satisfies [P]. *)
Definition raises_only {A : Type} (P : exn -> Prop) (c : result A) : Prop :=
  forall e : exn, c = Raise e -> P e.

(** ** Module [reports]: the unit table *)

Module Reports.

(** The dictionary literal of [__units], entry by entry (["ADD"] is written
    twice in the source; the later entry is the one a lookup finds, and
    both are the same). *)
Definition units : list (string * string) :=
  [("ADD", "mg/kg-day"); ("I", "mg/day"); ("Dexp", "mg/day");
   ("NW", "workers"); ("LADD", "mg/kg-day"); ("APDR", "mg/kg-day");
   ("NS", "sites"); ("Sd", "shift/workder-day"); ("EF", "mg/kg");
   ("AH", "kg/worker-shift"); ("Ys", "dimensionless");
   ("NWexp", "worker/site"); ("ED", "days/site-yr"); ("EY", "years");
   ("BW", "kg"); ("ATc", "years"); ("AT", "years"); ("S", "cm^2");
   ("Qu", "mg/cm^2-event"); ("Yderm", "dimensionless");
   ("FT", "events/workers-day"); ("Cv", "ppm"); ("Cm", "mg/m^3");
   ("T", "K"); ("G", "g/s"); ("MW", "g/mol"); ("Q", "ft^3/min");
   ("k", "dimensionless"); ("X", "dimensionless"); ("VP", "torr");
   ("Vm", "L/mol"); ("b", "m^3/hr"); ("h", "hrs/day"); ("KCk", "mg/m^3");
   ("Ypel", "dimensionless"); ("Cvk", "ppm"); ("VPpel", "torr");
   ("MWpel", "g/mol"); ("Ymist", "dimensionless");
   ("Ysf", "dimensionless")].

Fixpoint assoc (k : string) (l : list (string * string)) : option string :=
  match l with
  | [] => None
  | (k', v) :: l' => if String.eqb k k' then Some v else assoc k l'
  end.

(** [__units(key)]: [units[key]] *)
Definition __units (key : string) : result string :=
  match assoc key units with
  | Some u => Ok u
  | None => Raise (KeyError key)
  end.

End Reports.

(** ** Further notions used to state properties *)

(** The name under which the other family reports its dose rate. *)
Definition other_display (display : string) : string :=
  if String.eqb display "Dexp" then "I" else "Dexp".

Definition display_of (m : call) : string :=
  if is_dermal m then "Dexp" else "I".

(** The averaging time that the constructor stores under ['AT']. *)
Definition stored_AT (m : call) : Q :=
  if is_dermal m then EY (common_of m) else AT (common_of m).

Definition is_solids (m : call) : bool :=
  match m with
  | TwoHandSolidsContact _ _ _ _ _
  | TwoHandContainerSurfaceContact _ _ _ _ _ => true
  | _ => false
  end.

(** No key occurs twice. *)
Fixpoint no_dup (l : list string) : bool :=
  match l with
  | [] => true
  | k :: l' => negb (bound_in l' k) && no_dup l'
  end.

(** The last five keys of [outputs], in order. *)
Definition output_tail (display : string) : list string :=
  ["NW"; "LADD"; "ADD"; "APDR"; display].

(** The family-common entries of [inputs], [t] being what is stored under
    ['AT']. *)
Definition common_inputs (t : Q) (c : common) : dict :=
  [("ED", VNum (ED c)); ("NWexp", VNum (NWexp c)); ("NS", VNum (NS c));
   ("EY", VNum (EY c)); ("BW", VNum (BW c)); ("ATc", VNum (ATc c));
   ("AT", VNum t)].

(** The entries of [outputs] that come from the shared arithmetic. *)
Definition exposure_results (display : string) (c : common)
  (pdr ladd add apdr : Q) : dict :=
  [("NW", VNum (Exposures.workers_exposed (NWexp c) (NS c)));
   ("LADD", VNum ladd); ("ADD", VNum add); ("APDR", VNum apdr);
   (display, VNum pdr)].

(** [ladd], [add] and [apdr] are what the shared arithmetic returns for the
    dose rate [pdr] and the averaging time [t]. *)
Definition doses (pdr t : Q) (c : common) (ladd add apdr : Q) : Prop :=
  Exposures.daily_dose pdr (ED c) (EY c) (BW c) (ATc c) = Ok ladd /\
  Exposures.daily_dose pdr (ED c) (EY c) (BW c) t = Ok add /\
  Exposures.acute_potential_dose_rate pdr (BW c) = Ok apdr.

(** The solids fraction that the spray and roll coating models store. *)
Definition resolved_Ys (Ys : option Q) (Ymist Ysf ys : Q) : Prop :=
  match Ys with
  | Some y => ys = y
  | None => ys = pymin (Ymist / Ysf) 1 /\ ~ Ysf == 0
  end.

(** The same call with another [scenario] argument. *)
Definition with_scenario (s : string) (m : call) : call :=
  match m with
  | OneHandLiquidContact y _ a q f c => OneHandLiquidContact y s a q f c
  | TwoHandLiquidContact y _ a q f c => TwoHandLiquidContact y s a q f c
  | TwoHandLiquidImmersion y _ a q f c => TwoHandLiquidImmersion y s a q f c
  | TwoHandSolidsContact y _ q f c => TwoHandSolidsContact y s q f c
  | TwoHandContainerSurfaceContact y _ q f c =>
      TwoHandContainerSurfaceContact y s q f c
  | UserDefinedDermal y _ a q f c => UserDefinedDermal y s a q f c
  | SmallVolumeSolidsHandling y _ ef ah sd c =>
      SmallVolumeSolidsHandling y s ef ah sd c
  | MassBalance g mw vp x _ t q k vm b h vz c =>
      MassBalance g mw vp x s t q k vm b h vz c
  | PelLimitingParticulates y _ kck yp b h c =>
      PelLimitingParticulates y s kck yp b h c
  | PelLimitingVapors cvk vp y mw vpp yp mwp x _ vm b h c =>
      PelLimitingVapors cvk vp y mw vpp yp mwp x s vm b h c
  | TotalPnorPelLimiting y _ kck b h c => TotalPnorPelLimiting y s kck b h c
  | RespirablePnorPelLimiting y _ kck b h c =>
      RespirablePnorPelLimiting y s kck b h c
  | AutomobileOemSprayCoating ym _ kck ys ysf b h c =>
      AutomobileOemSprayCoating ym s kck ys ysf b h c
  | AutomobileRefinishSprayCoating ym _ ys kck ysf b h c =>
      AutomobileRefinishSprayCoating ym s ys kck ysf b h c
  | AutomobileSprayCoating _ kck b h c => AutomobileSprayCoating s kck b h c
  | UvRollCoating ym _ kck ys ysf b h c => UvRollCoating ym s kck ys ysf b h c
  | UserDefinedInhalation cv mw h _ cm vm ys b c =>
      UserDefinedInhalation cv mw h s cm vm ys b c
  end.

(** The keys of the model's own inputs, in the order in which the
    constructor assigns them. *)
Definition own_input_keys (m : call) : list string :=
  match m with
  | OneHandLiquidContact _ _ _ _ _ _ | TwoHandLiquidContact _ _ _ _ _ _
  | TwoHandLiquidImmersion _ _ _ _ _ _ | UserDefinedDermal _ _ _ _ _ _ =>
      ["S"; "Qu"; "FT"; "Yderm"]
  | TwoHandSolidsContact _ _ _ _ _
  | TwoHandContainerSurfaceContact _ _ _ _ _ => ["SQu"; "FT"; "Yderm"]
  | SmallVolumeSolidsHandling _ _ _ _ _ _ => ["AH"; "Ys"; "Sd"; "EF"]
  | MassBalance _ _ _ _ _ _ _ _ _ _ _ _ _ =>
      ["T"; "G"; "MW"; "X"; "VP"; "Vm"; "b"; "h"; "Q"; "k"]
  | PelLimitingParticulates _ _ _ _ _ _ _ =>
      ["KCk"; "Ys"; "Ypel"; "b"; "h"]
  | PelLimitingVapors _ _ _ _ _ _ _ _ _ _ _ _ _ =>
      ["Cvk"; "VP"; "Ys"; "MW"; "VPpel"; "Ypel"; "MWpel"; "X"; "Vm"; "b";
       "h"]
  | TotalPnorPelLimiting _ _ _ _ _ _ | RespirablePnorPelLimiting _ _ _ _ _ _ =>
      ["KCk"; "Ys"; "b"; "h"]
  | AutomobileOemSprayCoating _ _ _ _ _ _ _ _
  | AutomobileRefinishSprayCoating _ _ _ _ _ _ _ _
  | UvRollCoating _ _ _ _ _ _ _ _ =>
      ["KCk"; "Ymist"; "Ysf"; "Ys"; "b"; "h"]
  | AutomobileSprayCoating _ _ _ _ _ => ["KCk"; "b"; "h"]
  | UserDefinedInhalation _ _ _ _ _ _ _ _ _ =>
      ["Cv"; "MW"; "Vm"; "Ys"; "Cm"; "b"; "h"]
  end.

(** The keys of the intermediate quantities that the constructor computes
    after it has frozen [inputs]. *)
Definition intermediate_keys (m : call) : list string :=
  match m with
  | MassBalance _ _ _ _ _ _ _ _ _ _ _ _ _
  | PelLimitingVapors _ _ _ _ _ _ _ _ _ _ _ _ _ => ["Cv"; "Cm"]
  | PelLimitingParticulates _ _ _ _ _ _ _
  | TotalPnorPelLimiting _ _ _ _ _ _ | RespirablePnorPelLimiting _ _ _ _ _ _
  | AutomobileOemSprayCoating _ _ _ _ _ _ _ _
  | AutomobileRefinishSprayCoating _ _ _ _ _ _ _ _
  | AutomobileSprayCoating _ _ _ _ _ | UvRollCoating _ _ _ _ _ _ _ _ =>
      ["Cm"]
  | _ => []
  end.

Definition common_keys : list string :=
  ["ED"; "NWexp"; "NS"; "EY"; "BW"; "ATc"; "AT"].

(** The form of every built instance: [inputs] starts with the
    family-common entries and goes on with the model's own keys; [outputs]
    starts with the keys of the intermediate quantities and ends with the
    results of the shared arithmetic for the dose rate [pdr]. *)
Definition instance_form (m : call) (inst : model) (pdr ladd add apdr : Q)
  : Prop :=
  route inst = (if is_dermal m then "dermal" else "inhalation") /\
  scenario inst = normalize (scenario_of m) /\
  firstn 7 (inputs inst) = common_inputs (stored_AT m) (common_of m) /\
  dict_keys (inputs inst) = (common_keys ++ own_input_keys m)%list /\
  skipn (length (intermediate_keys m)) (outputs inst)
  = exposure_results (display_of m) (common_of m) pdr ladd add apdr /\
  dict_keys (outputs inst)
  = (intermediate_keys m ++ output_tail (display_of m))%list /\
  doses pdr (stored_AT m) (common_of m) ladd add apdr.

(** The argument that a constructor resolves from its scenario: the key it
    is stored under, the preset per scenario, and the caller's value, used
    under ['user'] where the model lists that scenario. *)
Definition scenario_parameter (m : call)
  : option (string * list (string * Q) * option Q) :=
  match m with
  | OneHandLiquidContact _ _ _ q _ _ | TwoHandLiquidContact _ _ _ q _ _ =>
      Some ("Qu", [("low", 0.7); ("high", 2.1)], Some q)
  | TwoHandLiquidImmersion _ _ _ q _ _ =>
      Some ("Qu", [("low", 1.3); ("high", 10.3)], Some q)
  | TwoHandSolidsContact _ _ q _ _ => Some ("SQu", [("high", 3100)], Some q)
  | TwoHandContainerSurfaceContact _ _ q _ _ =>
      Some ("SQu", [("high", 1100)], Some q)
  | SmallVolumeSolidsHandling _ _ ef _ _ _ =>
      Some ("EF", [("typical", 0.0477); ("worst-case", 0.161)], Some ef)
  | AutomobileOemSprayCoating _ _ kck _ _ _ _ _
  | AutomobileRefinishSprayCoating _ _ _ kck _ _ _ _ =>
      Some ("KCk",
            [("conventional,downdraft", 2.3); ("conventional,crossdraft", 15);
             ("hvlp,downdraft", 1.9); ("hvlp,crossdraft", 15)],
            Some kck)
  | AutomobileSprayCoating _ _ _ _ _ =>
      Some ("KCk",
            [("low,conventional,crossdraft", 0.05);
             ("high,conventional,crossdraft", 18.4);
             ("low,conventional,downdraft", 0.01);
             ("high,conventional,downdraft", 3.7);
             ("low,hvlp,crossdraft", 1.0); ("high,hvlp,crossdraft", 5.2);
             ("low,hvlp,downdraft", 0.6); ("high,hvlp,downdraft", 1.4)],
            None)
  | UvRollCoating _ _ _ _ _ _ _ _ =>
      Some ("KCk", [("low end of range", 0.04); ("high end of range", 0.26)],
            None)
  | _ => None
  end.

Fixpoint preset (k : string) (l : list (string * Q)) : option Q :=
  match l with
  | [] => None
  | (k', v) :: l' => if String.eqb k k' then Some v else preset k l'
  end.

(** The keys whose values [potential_dose_rate] multiplies for the model,
    in the order of the product. *)
Definition factors (m : call) : list string :=
  if is_solids m then ["SQu"; "Yderm"; "FT"]
  else if is_dermal m then ["S"; "Qu"; "Yderm"; "FT"]
  else match m with
       | SmallVolumeSolidsHandling _ _ _ _ _ _ => ["EF"; "AH"; "Ys"; "Sd"]
       | _ => ["Cm"; "b"; "h"]
       end.

(** What an instance reports under [k], among its inputs or else its
    outputs. *)
Definition reported (k : string) (inst : model) : option value :=
  match dict_get k (inputs inst) with
  | Some v => Some v
  | None => dict_get k (outputs inst)
  end.

(** The numbers reported under the keys [ks], if all of them are. *)
Fixpoint numbers (l : list (option value)) : option (list Q) :=
  match l with
  | [] => Some []
  | Some (VNum q) :: l' => option_map (cons q) (numbers l')
  | _ => None
  end.

Definition reported_numbers (ks : list string) (inst : model)
  : option (list Q) :=
  numbers (map (fun k => reported k inst) ks).

(** The arguments [Ymist], [Ys] and [Ysf] of the three coating models that
    take them; [Ys] is [None] where the caller leaves it out. *)
Definition coating_args (m : call) : option (Q * option Q * Q) :=
  match m with
  | AutomobileOemSprayCoating ym _ _ ys ysf _ _ _
  | AutomobileRefinishSprayCoating ym _ ys _ ysf _ _ _
  | UvRollCoating ym _ _ ys ysf _ _ _ => Some (ym, ys, ysf)
  | _ => None
  end.

(** The keys that [potential_dose_rate] reads on the route, in the order in
    which it reads them. *)
Definition needed_keys (route : string) (kwargs : dict) : list string :=
  if String.eqb route "dermal" then
    if dict_mem "SQu" kwargs then ["SQu"; "Yderm"; "FT"]
    else ["S"; "Qu"; "Yderm"; "FT"]
  else
    if dict_mem "Cm" kwargs then ["Cm"; "b"; "h"]
    else ["EF"; "AH"; "Ys"; "Sd"].

(** Every value of the dictionary is a number. *)
Definition all_numbers (d : dict) : Prop :=
  forall (k : string) (v : value),
    dict_get k d = Some v -> exists q : Q, v = VNum q.

(** ** [checks.checkfile]

    What [checkfile] reads of the file system, through the functions of
    module [os] that it calls.  The file system does not change during the
    call, and the directory can be listed. *)
Record os : Type := {
  getcwd : string;
  path_join : string -> string -> string;
  path_exists : string -> bool;
  path_splitext : string -> string * string;
  path_expanduser : string -> string;
  path_dirname : string -> string;
  path_basename : string -> string;
  listdir : string -> list string
}.

(** [str(n)] of a natural number: its decimal digits. *)
Definition str_of_nat (n : nat) : string :=
  NilEmpty.string_of_uint (Nat.to_uint n).

(** ["{}_{}{}".format(fname, index, ext)] *)
Definition numbered (fname : string) (index : nat) (ext : string) : string :=
  fname ++ "_" ++ str_of_nat index ++ ext.

(** The loop [while candidate in ls: candidate = ...; index += 1], run for
    at most [fuel] tests; the candidate it ends with. *)
Fixpoint checkfile_loop (fuel : nat) (ls : list string) (fname ext : string)
  (candidate : string) (index : nat) : option string :=
  match fuel with
  | O => None
  | S fuel' =>
      if bound_in ls candidate
      then checkfile_loop fuel' ls fname ext (numbered fname index ext)
             (S index)
      else Some candidate
  end.

Definition checkfile (sys : os) (fuel : nat) (file_name : string)
  : option string :=
  let cwd := getcwd sys in
  let cwf := path_join sys cwd file_name in
  if negb (path_exists sys cwf) then Some cwf
  else
    let (root, ext) := path_splitext sys (path_expanduser sys cwf) in
    let dir := path_dirname sys root in
    let fname := path_basename sys root in
    let candidate := fname ++ ext in
    let index := 1%nat in
    let ls := listdir sys dir in
    match checkfile_loop fuel ls fname ext candidate index with
    | Some candidate => Some (path_join sys dir candidate)
    | None => None
    end.

(** The name that [checkfile] settles on in the directory listing [ls]:
    [fname + ext], or the numbered name with the least index from 1 on
    that is not listed. *)
Definition first_unused (ls : list string) (fname ext candidate : string)
  : Prop :=
  ~ In candidate ls /\
  (candidate = fname ++ ext \/
   In (fname ++ ext) ls /\
   exists i : nat,
     (1 <= i)%nat /\ candidate = numbered fname i ext /\
     forall j : nat, (1 <= j < i)%nat -> In (numbered fname j ext) ls).


(** ** The bounds checks on Python floats

    A Python number as the comparisons of the checks see it: a finite
    number (an [int], or a [float] that is neither NaN nor infinite; these
    compare by their exact values), NaN, or one of the two infinities.
    Every comparison with NaN is false. *)

Module PyFloat.

Inductive number : Type :=
| Fin (q : Q)
| NaN
| PosInf
| NegInf.

(** [a < b] *)
Definition lt (a b : number) : bool :=
  match a, b with
  | NaN, _ | _, NaN => false
  | Fin x, Fin y => Qltb x y
  | Fin _, PosInf => true
  | Fin _, NegInf => false
  | PosInf, _ => false
  | NegInf, NegInf => false
  | NegInf, _ => true
  end.

(** [a > b] *)
Definition gt (a b : number) : bool := lt b a.

(** [a <= b] *)
Definition le (a b : number) : bool :=
  match a, b with
  | NaN, _ | _, NaN => false
  | Fin x, Fin y => Qle_bool x y
  | Fin _, PosInf => true
  | Fin _, NegInf => false
  | PosInf, PosInf => true
  | PosInf, _ => false
  | NegInf, _ => true
  end.

(** [str(n)], as the message of a [BoundsException] shows a bound. *)
Definition str (n : number) : value :=
  match n with
  | Fin q => VNum q
  | NaN => VStr "nan"
  | PosInf => VStr "inf"
  | NegInf => VStr "-inf"
  end.

(** [check_ul], line for line as [Checks.check_ul], on these numbers. *)
Definition check_ul (name : string) (value min_val max_val : number)
  : result number :=
  if lt value min_val || gt value max_val then
    Checks.raise_bounds [("name", VStr name); ("value", str value);
                         ("min_val", str min_val); ("max_val", str max_val)]
  else Ok value.

(** [check_l], line for line as [Checks.check_l], on these numbers. *)
Definition check_l (name : string) (value min_val : number)
  : result number :=
  if lt value min_val then
    Checks.raise_bounds [("name", VStr name); ("value", str value);
                         ("min_val", str min_val)]
  else Ok value.

(** A result on the rationals, read as a result on these numbers. *)
Definition finite (r : result Q) : result number :=
  match r with
  | Ok q => Ok (Fin q)
  | Raise e => Raise e
  end.

End PyFloat.

(** * Properties *)

(** ** Numbers and the bounds checks *)

Lemma Qltb_lt (x y : Q) : Qltb x y = true <-> x < y.
Proof.
  unfold Qltb. rewrite negb_true_iff, <- not_true_iff_false, Qle_bool_iff.
  split; [apply Qnot_le_lt | apply Qlt_not_le].
Qed.

Lemma Qltb_ge (x y : Q) : Qltb x y = false <-> y <= x.
Proof.
  unfold Qltb. rewrite negb_false_iff. apply Qle_bool_iff.
Qed.

Lemma check_ul_in_range (name : string) (v lo hi : Q) :
  lo <= v <= hi -> Checks.check_ul name v lo hi = Ok v.
Proof.
  intros [Hlo Hhi]. unfold Checks.check_ul, Qgtb.
  apply Qltb_ge in Hlo, Hhi. now rewrite Hlo, Hhi.
Qed.

Lemma check_ul_out_of_range (name : string) (v lo hi : Q) :
  ~ (lo <= v <= hi) ->
  Checks.check_ul name v lo hi =
    Raise (BoundsException
             (Checks.bounds_msg (VStr name) (VNum lo) (VNum hi))).
Proof.
  intros Hout. unfold Checks.check_ul, Qgtb.
  destruct (Qltb v lo) eqn:Hlo; [reflexivity |].
  destruct (Qltb hi v) eqn:Hhi; [reflexivity |].
  apply Qltb_ge in Hlo, Hhi. tauto.
Qed.

Lemma check_ul_ok (name : string) (v lo hi r : Q) :
  Checks.check_ul name v lo hi = Ok r -> r = v /\ lo <= v <= hi.
Proof.
  unfold Checks.check_ul, Qgtb.
  destruct (Qltb v lo) eqn:Hlo; [discriminate |].
  destruct (Qltb hi v) eqn:Hhi; [discriminate |].
  apply Qltb_ge in Hlo, Hhi. intros [= <-]. auto.
Qed.

Lemma check_l_above (name : string) (v lo : Q) :
  lo <= v -> Checks.check_l name v lo = Ok v.
Proof.
  intros Hlo. unfold Checks.check_l. apply Qltb_ge in Hlo. now rewrite Hlo.
Qed.

Lemma check_l_below (name : string) (v lo : Q) :
  v < lo -> Checks.check_l name v lo = Raise (NameError "max_val").
Proof.
  intros Hlo. unfold Checks.check_l. apply Qltb_lt in Hlo. now rewrite Hlo.
Qed.

Lemma check_l_ok (name : string) (v lo r : Q) :
  Checks.check_l name v lo = Ok r -> r = v /\ lo <= v.
Proof.
  unfold Checks.check_l.
  destruct (Qltb v lo) eqn:Hlo; [discriminate |].
  apply Qltb_ge in Hlo. intros [= <-]. auto.
Qed.

(** On finite numbers the checks of [PyFloat] are those of [Checks]. *)
Lemma check_ul_finite (name : string) (v lo hi : Q) :
  PyFloat.check_ul name (PyFloat.Fin v) (PyFloat.Fin lo) (PyFloat.Fin hi)
  = PyFloat.finite (Checks.check_ul name v lo hi).
Proof.
  unfold PyFloat.check_ul, Checks.check_ul, PyFloat.gt, Qgtb. cbn.
  destruct (Qltb v lo || Qltb hi v); reflexivity.
Qed.

Lemma check_l_finite (name : string) (v lo : Q) :
  PyFloat.check_l name (PyFloat.Fin v) (PyFloat.Fin lo)
  = PyFloat.finite (Checks.check_l name v lo).
Proof.
  unfold PyFloat.check_l, Checks.check_l. cbn.
  destruct (Qltb v lo); reflexivity.
Qed.

(** Among numbers that are not NaN, [a <= b] holds exactly when [b < a]
    does not. *)
Lemma le_not_lt (a b : PyFloat.number) :
  a <> PyFloat.NaN -> b <> PyFloat.NaN ->
  PyFloat.le a b = negb (PyFloat.lt b a).
Proof.
  intros Ha Hb. destruct a, b; try congruence; try reflexivity.
  cbn. unfold Qltb. now rewrite negb_involutive.
Qed.

Lemma le_NaN (a b : PyFloat.number) :
  PyFloat.le a b = true -> a <> PyFloat.NaN /\ b <> PyFloat.NaN.
Proof. destruct a, b; cbn; intros H; split; congruence. Qed.

(** C7: [check_ul] returns the value unchanged when it lies in
    [[min_val, max_val]], both ends included; [Yderm = 0] and [Yderm = 1]
    pass, [Yderm = -0.01] and [Yderm = 1.01] are refused with a
    [BoundsException] whose message names the parameter and both bounds,
    also as arguments of a model constructor; the default bounds are 0 and
    1.  A value outside the range is refused in this way when the value and
    the bounds are numbers other than NaN.  But the test of the code is
    [(value < min_val) or (value > max_val)], which is false of NaN: for
    the value NaN, which lies in no range, the code raises nothing and
    returns NaN, whatever the bounds. *)
Theorem C7_check_ul_bounded_range (name : string)
  (v lo hi : PyFloat.number) :
  (PyFloat.le lo v = true /\ PyFloat.le v hi = true ->
   PyFloat.check_ul name v lo hi = Ok v) /\
  (v <> PyFloat.NaN -> lo <> PyFloat.NaN -> hi <> PyFloat.NaN ->
   ~ (PyFloat.le lo v = true /\ PyFloat.le v hi = true) ->
   exists msg : message,
     PyFloat.check_ul name v lo hi = Raise (BoundsException msg) /\
     In (VStr name) msg /\ In (PyFloat.str lo) msg /\
     In (PyFloat.str hi) msg) /\
  (PyFloat.le lo PyFloat.NaN = false /\
   PyFloat.le PyFloat.NaN hi = false /\
   PyFloat.check_ul name PyFloat.NaN lo hi = Ok PyFloat.NaN) /\
  (forall q ql qh : Q,
      PyFloat.check_ul name (PyFloat.Fin q) (PyFloat.Fin ql) (PyFloat.Fin qh)
      = PyFloat.finite (Checks.check_ul name q ql qh)) /\
  Checks.check_ul "Yderm" 0 0 1 = Ok 0 /\
  Checks.check_ul "Yderm" 1 0 1 = Ok 1 /\
  (exists msg, Checks.check_ul "Yderm" (-0.01) 0 1
               = Raise (BoundsException msg)) /\
  (exists msg, Checks.check_ul "Yderm" 1.01 0 1
               = Raise (BoundsException msg)) /\
  (exists i0 i1, one_hand_liquid_contact_defaults 0 "high" = Ok i0 /\
                 one_hand_liquid_contact_defaults 1 "high" = Ok i1) /\
  (exists msg, one_hand_liquid_contact_defaults (-0.01) "high"
               = Raise (BoundsException msg)) /\
  (exists msg, one_hand_liquid_contact_defaults 1.01 "high"
               = Raise (BoundsException msg)) /\
  (forall q : Q,
      Checks.check_ul_call name q None None = Checks.check_ul name q 0 1) /\
  Checks.check_ul_call "Yderm" 1 None None = Ok 1 /\
  (exists msg, Checks.check_ul_call "Yderm" 1.01 None None
               = Raise (BoundsException msg)).
Proof.
  split.
  { intros [Hlo Hhi].
    destruct (le_NaN _ _ Hlo) as [Hl Hv], (le_NaN _ _ Hhi) as [_ Hh].
    rewrite le_not_lt in Hlo, Hhi by assumption.
    apply negb_true_iff in Hlo, Hhi.
    unfold PyFloat.check_ul, PyFloat.gt. now rewrite Hlo, Hhi. }
  split.
  { intros Hv Hl Hh Hout. rewrite !le_not_lt in Hout by assumption.
    unfold PyFloat.check_ul, PyFloat.gt.
    destruct (PyFloat.lt v lo) eqn:E1; cbn [orb].
    - eexists. split; [reflexivity |]. cbn. auto 10.
    - destruct (PyFloat.lt hi v) eqn:E2.
      + eexists. split; [reflexivity |]. cbn. auto 10.
      + exfalso. apply Hout. split; reflexivity. }
  split.
  { split; [now destruct lo |]. split; [reflexivity |].
    unfold PyFloat.check_ul, PyFloat.gt.
    now destruct lo, hi. }
  split; [intros q ql qh; apply check_ul_finite |].
  repeat split; try reflexivity; try (eexists; reflexivity).
  do 2 eexists. split; reflexivity.
Qed.

Lemma C7_check_ul_witness :
  PyFloat.check_ul "b" (PyFloat.Fin 7.9) (PyFloat.Fin 0) (PyFloat.Fin 7.9)
  = Ok (PyFloat.Fin 7.9) /\
  (exists msg : message,
      PyFloat.check_ul "h" (PyFloat.Fin 25) (PyFloat.Fin 0) (PyFloat.Fin 24)
      = Raise (BoundsException msg) /\
      In (VStr "h") msg /\ In (VNum 0) msg /\ In (VNum 24) msg) /\
  PyFloat.le (PyFloat.Fin 0) PyFloat.NaN = false /\
  PyFloat.check_ul "Yderm" PyFloat.NaN (PyFloat.Fin 0) (PyFloat.Fin 1)
  = Ok PyFloat.NaN.
Proof.
  split; [| split].
  - apply (proj1 (C7_check_ul_bounded_range "b" (PyFloat.Fin 7.9)
                    (PyFloat.Fin 0) (PyFloat.Fin 7.9))).
    split; reflexivity.
  - apply (proj1 (proj2 (C7_check_ul_bounded_range "h" (PyFloat.Fin 25)
                           (PyFloat.Fin 0) (PyFloat.Fin 24))));
      try discriminate.
    intros [_ Hhi]. discriminate Hhi.
  - destruct (proj1 (proj2 (proj2 (C7_check_ul_bounded_range "Yderm"
                                     PyFloat.NaN (PyFloat.Fin 0)
                                     (PyFloat.Fin 1)))))
      as (Hle & _ & Hnan).
    split; [exact Hle | exact Hnan].
Defined.

(** C6: [check_l] returns the value when it is at least [min_val]
    (default 0); below [min_val] the code does not raise the
    [BoundsException] it spells out: building the message evaluates the
    unbound name [max_val], so a [NameError] is raised, as for [FT = -1]. *)
Theorem C6_check_l_lower_bound :
  (forall (name : string) (v lo : Q),
      lo <= v -> Checks.check_l name v lo = Ok v) /\
  (forall (name : string) (v lo : Q),
      v < lo -> Checks.check_l name v lo = Raise (NameError "max_val")) /\
  Checks.check_l "FT" (-1) 0 = Raise (NameError "max_val") /\
  (forall (name : string) (v : Q),
      Checks.check_l_call name v None = Checks.check_l name v 0) /\
  Checks.check_l_call "FT" 0 None = Ok 0 /\
  Checks.check_l_call "FT" (-1) None = Raise (NameError "max_val").
Proof.
  split; [exact check_l_above |].
  split; [exact check_l_below |].
  repeat split.
Qed.

Lemma C6_check_l_witness :
  Checks.check_l "EY" 40 0 = Ok 40 /\
  Checks.check_l "BW" (-70) 0 = Raise (NameError "max_val").
Proof.
  split.
  - apply (proj1 C6_check_l_lower_bound). discriminate.
  - apply (proj1 (proj2 C6_check_l_lower_bound)). reflexivity.
Defined.

Lemma bound_in_In (l : list string) (s : string) :
  bound_in l s = true <-> In s l.
Proof.
  unfold bound_in. rewrite existsb_exists. split.
  - intros (x & Hx & He). apply String.eqb_eq in He. now subst.
  - intros Hin. exists s. split; [assumption | apply String.eqb_refl].
Qed.

(** ** Which exceptions can be raised

    [raises_only P] is preserved by sequencing, so it is proved of a
    constructor by following its text.  The section fixes a property [P] of
    exceptions that holds of everything the checks and the arithmetic
    raise; whether the scenario test stays inside [P] is left to the
    caller. *)

Lemma raises_ok {A : Type} (P : exn -> Prop) (a : A) : raises_only P (Ok a).
Proof. intros e H. discriminate. Qed.

Lemma raises_raise {A : Type} (P : exn -> Prop) (e : exn) :
  P e -> raises_only P (@Raise A e).
Proof. intros He e' [= <-]. exact He. Qed.

Lemma raises_bind {A B : Type} (P : exn -> Prop) (c : result A)
  (k : A -> result B) :
  raises_only P c -> (forall a, raises_only P (k a)) ->
  raises_only P (bind c k).
Proof.
  intros Hc Hk e. destruct c as [a | e']; cbn.
  - apply Hk.
  - intros [= <-]. now apply Hc.
Qed.

(** A module that does not bind the name [ScenarioException] cannot raise
    that exception. *)
Lemma raise_scenario_unbound {A : Type} (g : list string) (shown : string)
  (l : list string) :
  bound_in (g ++ builtins) "ScenarioException" = false ->
  @raise_scenario A g shown l = Raise (NameError "ScenarioException").
Proof.
  intros Hg. unfold raise_scenario, lookup. cbn [dict_get].
  now rewrite Hg.
Qed.

Lemma potential_dose_rate_unknown_route (route : value) (kwargs : dict) :
  is_str route "dermal" = false -> is_str route "inhalation" = false ->
  Exposures.potential_dose_rate route kwargs
  = Raise (NameError "RouteException").
Proof.
  intros Hd Hi. unfold Exposures.potential_dose_rate. now rewrite Hd, Hi.
Qed.

Create HintDb raises discriminated.

Ltac raises_step :=
  first
    [ apply raises_ok
    | apply raises_raise; solve [ auto with raises ]
    | solve [ auto with raises ]
    | apply raises_bind; [ | intros ? ]
    | match goal with
      | |- raises_only _ (if ?b then _ else _) => destruct b
      | |- raises_only _ (match ?x with _ => _ end) => destruct x
      end ].

Ltac raises := repeat raises_step.

Section RaisesOnly.

Variable P : exn -> Prop.

Hypothesis P_bounds : forall msg : message, P (BoundsException msg).
Hypothesis P_max_val : P (NameError "max_val").
Hypothesis P_route : P (NameError "RouteException").
Hypothesis P_key : forall k : string, P (KeyError k).
Hypothesis P_type : forall w : string, P (TypeError w).
Hypothesis P_zero : P ZeroDivisionError.

#[local] Hint Resolve P_bounds P_max_val P_route P_key P_type P_zero
  : raises.

Lemma raises_getitem (k : string) (d : dict) : raises_only P (getitem k d).
Proof. unfold getitem. raises. Qed.

Lemma raises_as_num (v : value) : raises_only P (as_num v).
Proof. unfold as_num. raises. Qed.

Lemma raises_as_list (v : value) : raises_only P (as_list v).
Proof. unfold as_list. raises. Qed.

#[local] Hint Resolve raises_getitem raises_as_num raises_as_list : raises.

Lemma raises_getnum (k : string) (d : dict) : raises_only P (getnum k d).
Proof. unfold getnum. raises. Qed.

Lemma raises_kwarg (p : string) (kw : dict) : raises_only P (kwarg p kw).
Proof. unfold kwarg. raises. Qed.

Lemma raises_pymul (a b : value) : raises_only P (pymul a b).
Proof. unfold pymul. raises. Qed.

Lemma raises_pydiv (a b : Q) : raises_only P (pydiv a b).
Proof. unfold pydiv. raises. Qed.

#[local] Hint Resolve raises_getnum raises_kwarg raises_pymul raises_pydiv
  : raises.

Lemma raises_kwnum (p : string) (kw : dict) : raises_only P (kwnum p kw).
Proof. unfold kwnum. raises. Qed.

Lemma raises_check_ul (name : string) (v lo hi : Q) :
  raises_only P (Checks.check_ul name v lo hi).
Proof. unfold Checks.check_ul. raises. Qed.

Lemma raises_check_l (name : string) (v lo : Q) :
  raises_only P (Checks.check_l name v lo).
Proof. unfold Checks.check_l. raises. Qed.

#[local] Hint Resolve raises_kwnum raises_check_ul raises_check_l : raises.

Lemma raises_potential_dose_rate (route : value) (kwargs : dict) :
  raises_only P (Exposures.potential_dose_rate route kwargs).
Proof.
  destruct (is_str route "dermal") eqn:Hd.
  - unfold Exposures.potential_dose_rate. rewrite Hd. raises.
  - destruct (is_str route "inhalation") eqn:Hi.
    + unfold Exposures.potential_dose_rate. rewrite Hd, Hi. raises.
    + rewrite potential_dose_rate_unknown_route by assumption. raises.
Qed.

#[local] Hint Resolve raises_potential_dose_rate : raises.

Lemma raises_exposure_outputs (kwargs : dict) :
  raises_only P (exposure_outputs kwargs).
Proof.
  unfold exposure_outputs, call_potential_dose_rate, call_workers_exposed,
    call_daily_dose, call_acute_potential_dose_rate, Exposures.daily_dose,
    Exposures.acute_potential_dose_rate.
  raises.
Qed.

Lemma raises_model_args (kwargs : dict) : raises_only P (model_args kwargs).
Proof. unfold model_args. raises. Qed.

Lemma raises_extend_skips (kwargs : dict) :
  raises_only P (extend_skips kwargs).
Proof. unfold extend_skips. raises. Qed.

#[local] Hint Resolve raises_exposure_outputs raises_model_args
  raises_extend_skips : raises.

Lemma raises_freeze_outputs (display : string) (kwargs : dict) :
  raises_only P (freeze_outputs display kwargs).
Proof. unfold freeze_outputs, dict_pop. raises. Qed.

#[local] Hint Resolve raises_freeze_outputs : raises.

Lemma raises_finish (r n s display : string) (extra : dict -> result dict)
  (kwargs : dict) :
  (forall kw, raises_only P (extra kw)) ->
  raises_only P (finish r n s display extra kwargs).
Proof. intros Hextra. unfold finish. raises. Qed.

Lemma raises_dermal_init (c : common) :
  raises_only P (Dermal.dermal_model_init c).
Proof. unfold Dermal.dermal_model_init. raises. Qed.

Lemma raises_inhalation_init (c : common) :
  raises_only P (Inhalation.inhalation_model_init c).
Proof. unfold Inhalation.inhalation_model_init. raises. Qed.

#[local] Hint Resolve raises_dermal_init raises_inhalation_init : raises.

Lemma raises_no_extra (kw : dict) : raises_only P (no_extra kw).
Proof. unfold no_extra. raises. Qed.

Lemma raises_set_Cm_of_Cv (kw : dict) :
  raises_only P (Inhalation.set_Cm_of_Cv kw).
Proof. unfold Inhalation.set_Cm_of_Cv, Inhalation.Cm_of_Cv. raises. Qed.

Lemma raises_set_mass_balance_Cv (kw : dict) :
  raises_only P (Inhalation.set_mass_balance_Cv kw).
Proof.
  unfold Inhalation.set_mass_balance_Cv, Inhalation.mass_balance_Cv. raises.
Qed.

Lemma raises_set_pel_vapors_Cv (kw : dict) :
  raises_only P (Inhalation.set_pel_vapors_Cv kw).
Proof.
  unfold Inhalation.set_pel_vapors_Cv, Inhalation.pel_vapors_Cv. raises.
Qed.

Lemma raises_set_Cm_particulates (kw : dict) :
  raises_only P (Inhalation.set_Cm_particulates kw).
Proof. unfold Inhalation.set_Cm_particulates. raises. Qed.

Lemma raises_set_Cm_KCk_Ys (kw : dict) :
  raises_only P (Inhalation.set_Cm_KCk_Ys kw).
Proof. unfold Inhalation.set_Cm_KCk_Ys. raises. Qed.

Lemma raises_set_Cm_KCk (kw : dict) :
  raises_only P (Inhalation.set_Cm_KCk kw).
Proof. unfold Inhalation.set_Cm_KCk. raises. Qed.

Lemma raises_resolve_Ys (Ys : option Q) (kw : dict) :
  raises_only P (Inhalation.resolve_Ys Ys kw).
Proof. unfold Inhalation.resolve_Ys. raises. Qed.

#[local] Hint Resolve raises_no_extra raises_set_Cm_of_Cv
  raises_set_mass_balance_Cv raises_set_pel_vapors_Cv
  raises_set_Cm_particulates raises_set_Cm_KCk_Ys raises_set_Cm_KCk
  raises_resolve_Ys : raises.

(** The scenario test: it raises nothing when the tested string is listed,
    and a [NameError] otherwise. *)
Lemma raises_check_scenario (g : list string) (tested shown : string)
  (l : list string) :
  bound_in (g ++ builtins) "ScenarioException" = false ->
  P (NameError "ScenarioException") \/ In tested l ->
  raises_only P (check_scenario g tested shown l).
Proof.
  intros Hg Hor. unfold check_scenario.
  rewrite (raise_scenario_unbound g shown l Hg).
  destruct (bound_in l tested) eqn:Hb; cbn [negb]; [raises |].
  destruct Hor as [Hp | Hin]; [now apply raises_raise |].
  apply bound_in_In in Hin. congruence.
Qed.

Lemma raises_construct (m : call) :
  P (NameError "ScenarioException") \/
  In (tested_scenario m) (get_scenarios m) ->
  raises_only P (construct m).
Proof.
  destruct m; cbn [construct tested_scenario get_scenarios]; intros Hor;
    unfold Dermal.one_hand_liquid_contact, Dermal.two_hand_liquid_contact,
      Dermal.two_hand_liquid_immersion, Dermal.two_hand_solids_contact,
      Dermal.two_hand_container_surface_contact, Dermal.liquid_model,
      Dermal.solids_model, Dermal.user_defined_dermal,
      Inhalation.small_volume_solids_handling, Inhalation.mass_balance,
      Inhalation.pel_limiting_particulates, Inhalation.pel_limiting_vapors,
      Inhalation.total_pnor_pel_limiting,
      Inhalation.respirable_pnor_pel_limiting, Inhalation.pnor_model,
      Inhalation.automobile_oem_spray_coating,
      Inhalation.automobile_refinish_spray_coating, Inhalation.spray_model,
      Inhalation.automobile_spray_coating, Inhalation.uv_roll_coating,
      Inhalation.user_defined_inhalation;
    cbv zeta;
    repeat first
      [ apply raises_finish; intros ?
      | apply raises_check_scenario; [ reflexivity | exact Hor ]
      | raises_step ].
Qed.

End RaisesOnly.

(** No construction raises [ScenarioException] or [RouteException]. *)
Lemma plain_construct (m : call) :
  raises_only (fun e => scenario_or_route e = false) (construct m).
Proof. apply raises_construct; try reflexivity. now left. Qed.

Lemma plain_potential_dose_rate (route : value) (kwargs : dict) :
  raises_only (fun e => scenario_or_route e = false)
    (Exposures.potential_dose_rate route kwargs).
Proof. apply raises_potential_dose_rate; reflexivity. Qed.

(** A construction whose tested scenario string is listed does not fail in
    the scenario test. *)
Lemma listed_scenario_not_refused (m : call) :
  In (tested_scenario m) (get_scenarios m) ->
  construct m <> Raise (NameError "ScenarioException").
Proof.
  intros Hin H.
  apply (raises_construct (fun e => e <> NameError "ScenarioException"))
    in H; try discriminate; [| now right].
  now apply H.
Qed.

(** ** The shared arithmetic *)

Lemma getitem_some (k : string) (d : dict) (v : value) :
  dict_get k d = Some v -> getitem k d = Ok v.
Proof. intros H. unfold getitem. now rewrite H. Qed.

(** C4: [potential_dose_rate] computes [SQu*Yderm*FT] or [S*Qu*Yderm*FT] on
    the dermal route (with and without an entry [SQu]) and [Cm*b*h] or
    [EF*AH*Ys*Sd] on the inhalation route (with and without an entry [Cm]);
    for any other route value it fails, but not with the [RouteException]
    the source spells out: [exposures.py] does not bind that name, so the
    failure is a [NameError], and no call at all raises [RouteException]. *)
Theorem C4_potential_dose_rate_routes :
  (forall (kwargs : dict) (SQu Yderm FT : Q),
      dict_get "SQu" kwargs = Some (VNum SQu) ->
      dict_get "Yderm" kwargs = Some (VNum Yderm) ->
      dict_get "FT" kwargs = Some (VNum FT) ->
      Exposures.potential_dose_rate (VStr "dermal") kwargs
      = Ok (VNum (SQu * Yderm * FT))) /\
  (forall (kwargs : dict) (S Qu Yderm FT : Q),
      dict_get "SQu" kwargs = None ->
      dict_get "S" kwargs = Some (VNum S) ->
      dict_get "Qu" kwargs = Some (VNum Qu) ->
      dict_get "Yderm" kwargs = Some (VNum Yderm) ->
      dict_get "FT" kwargs = Some (VNum FT) ->
      Exposures.potential_dose_rate (VStr "dermal") kwargs
      = Ok (VNum (S * Qu * Yderm * FT))) /\
  (forall (kwargs : dict) (Cm b h : Q),
      dict_get "Cm" kwargs = Some (VNum Cm) ->
      dict_get "b" kwargs = Some (VNum b) ->
      dict_get "h" kwargs = Some (VNum h) ->
      Exposures.potential_dose_rate (VStr "inhalation") kwargs
      = Ok (VNum (Cm * b * h))) /\
  (forall (kwargs : dict) (EF AH Ys Sd : Q),
      dict_get "Cm" kwargs = None ->
      dict_get "EF" kwargs = Some (VNum EF) ->
      dict_get "AH" kwargs = Some (VNum AH) ->
      dict_get "Ys" kwargs = Some (VNum Ys) ->
      dict_get "Sd" kwargs = Some (VNum Sd) ->
      Exposures.potential_dose_rate (VStr "inhalation") kwargs
      = Ok (VNum (EF * AH * Ys * Sd))) /\
  (forall (route : value) (kwargs : dict),
      is_str route "dermal" = false -> is_str route "inhalation" = false ->
      Exposures.potential_dose_rate route kwargs
      = Raise (NameError "RouteException")) /\
  (forall (route : value) (kwargs : dict) (msg : message),
      Exposures.potential_dose_rate route kwargs
      <> Raise (RouteException msg)) /\
  Exposures.potential_dose_rate (VStr "oral")
    [("S", VNum 535); ("Qu", VNum 2.1); ("Yderm", VNum 0.1); ("FT", VNum 1)]
  = Raise (NameError "RouteException").
Proof.
  repeat split.
  - intros kwargs SQu Yderm FT H1 H2 H3.
    unfold Exposures.potential_dose_rate, dict_mem.
    replace (is_str (VStr "dermal") "dermal") with true by reflexivity.
    rewrite H1.
    now rewrite (getitem_some _ _ _ H1), (getitem_some _ _ _ H2),
      (getitem_some _ _ _ H3).
  - intros kwargs S Qu Yderm FT H0 H1 H2 H3 H4.
    unfold Exposures.potential_dose_rate, dict_mem.
    replace (is_str (VStr "dermal") "dermal") with true by reflexivity.
    rewrite H0.
    now rewrite (getitem_some _ _ _ H1), (getitem_some _ _ _ H2),
      (getitem_some _ _ _ H3), (getitem_some _ _ _ H4).
  - intros kwargs Cm b h H1 H2 H3.
    unfold Exposures.potential_dose_rate, dict_mem.
    replace (is_str (VStr "inhalation") "dermal") with false by reflexivity.
    replace (is_str (VStr "inhalation") "inhalation") with true
      by reflexivity.
    rewrite H1.
    now rewrite (getitem_some _ _ _ H1), (getitem_some _ _ _ H2),
      (getitem_some _ _ _ H3).
  - intros kwargs EF AH Ys Sd H0 H1 H2 H3 H4.
    unfold Exposures.potential_dose_rate, dict_mem.
    replace (is_str (VStr "inhalation") "dermal") with false by reflexivity.
    replace (is_str (VStr "inhalation") "inhalation") with true
      by reflexivity.
    rewrite H0.
    now rewrite (getitem_some _ _ _ H1), (getitem_some _ _ _ H2),
      (getitem_some _ _ _ H3), (getitem_some _ _ _ H4).
  - exact potential_dose_rate_unknown_route.
  - intros route kwargs msg H.
    apply plain_potential_dose_rate in H. discriminate.
Qed.

Lemma C4_potential_dose_rate_witness :
  Exposures.potential_dose_rate (VStr "dermal")
    [("SQu", VNum 3100); ("Yderm", VNum 0.4); ("FT", VNum 2)]
  = Ok (VNum (3100 * 0.4 * 2)) /\
  Exposures.potential_dose_rate (VStr "inhalation")
    [("EF", VNum 0.161); ("AH", VNum 54); ("Ys", VNum 0.1); ("Sd", VNum 3)]
  = Ok (VNum (0.161 * 54 * 0.1 * 3)) /\
  Exposures.potential_dose_rate (VNum 7) []
  = Raise (NameError "RouteException").
Proof.
  destruct C4_potential_dose_rate_routes
    as (Hsolid & _ & _ & Hdefault & Hother & _).
  split; [| split].
  - apply Hsolid; reflexivity.
  - apply Hdefault; reflexivity.
  - apply Hother; reflexivity.
Defined.

(** ** Golden values of the one-hand liquid-contact model *)

(** The claim C1 as worded gives [LADD] as about 0.02514.  The construction
    succeeds and its [LADD] is [4494/1788500], below 0.00252: a tenth of the
    stated value, and further than 0.02 away from it. *)
Lemma C1_golden_LADD_counterexample :
  exists (inst : model) (ladd : Q),
    one_hand_liquid_contact_defaults 0.1 "high" = Ok inst /\
    dict_get "LADD" (outputs inst) = Some (VNum ladd) /\
    ladd == 4494 # 1788500 /\
    ladd < 0.00252 /\
    0.02 < 0.02514 - ladd.
Proof.
  do 2 eexists. split; [reflexivity |]. split; [reflexivity |].
  repeat split.
Qed.

(** C1, amended: [one_hand_liquid_contact(Yderm=0.1, scenario="high")] with
    the default arguments resolves [Qu = 2.1] and yields
    [Dexp = 535*2.1*0.1*1], [NW = 1], [APDR = Dexp/70] and
    [LADD = (Dexp*1*40)/(70*70*365)].  The decimal figures of the claim are
    read to the digits it gives them with: [Dexp] is 112.35, [APDR] about
    1.605 and [LADD] about 0.002513; numbers being exact here, each is
    proved with a margin that the rounding of the code's floats stays far
    inside. *)
Theorem C1_golden_values :
  exists (inst : model) (qu dexp nw apdr ladd : Q),
    one_hand_liquid_contact_defaults 0.1 "high" = Ok inst /\
    dict_get "Qu" (inputs inst) = Some (VNum qu) /\ qu == 2.1 /\
    dict_get "Dexp" (outputs inst) = Some (VNum dexp) /\
    dexp = 535 * 2.1 * 0.1 * 1 /\
    112.349999999 < dexp /\ dexp < 112.350000001 /\
    dict_get "NW" (outputs inst) = Some (VNum nw) /\ nw == 1 /\
    dict_get "APDR" (outputs inst) = Some (VNum apdr) /\
    apdr = dexp / 70 /\
    1.6045 < apdr /\ apdr < 1.6055 /\
    dict_get "LADD" (outputs inst) = Some (VNum ladd) /\
    ladd = (dexp * 1 * 40) / (70 * 70 * 365) /\
    0.0025125 < ladd /\ ladd < 0.0025135.
Proof.
  do 6 eexists. split; [reflexivity |].
  repeat (split; [reflexivity |]). reflexivity.
Qed.

(** ** Inversion of a successful construction *)

Lemma bind_ok {A B : Type} (c : result A) (k : A -> result B) (b : B) :
  bind c k = Ok b -> exists a, c = Ok a /\ k a = Ok b.
Proof. destruct c; cbn; [eauto | discriminate]. Qed.

Lemma check_scenario_ok (g : list string) (tested shown : string)
  (l : list string) (u : unit) :
  check_scenario g tested shown l = Ok u -> In tested l.
Proof.
  unfold check_scenario. destruct (bound_in l tested) eqn:Hb.
  - intros _. now apply bound_in_In.
  - unfold raise_scenario, raising. cbn [negb].
    destruct (_ <- lookup [] g "ScenarioException" ;; _); discriminate.
Qed.

Lemma check_scenario_member (g : list string) (tested shown : string)
  (l : list string) :
  In tested l -> check_scenario g tested shown l = Ok tt.
Proof.
  intros Hin. unfold check_scenario.
  apply bound_in_In in Hin. now rewrite Hin.
Qed.

Lemma pydiv_ok (a b r : Q) : pydiv a b = Ok r -> r = a / b /\ ~ b == 0.
Proof.
  unfold pydiv. destruct (Qeq_bool b 0) eqn:Hb; [discriminate |].
  intros [= <-]. split; [reflexivity |].
  intros Hz. apply Qeq_bool_iff in Hz. congruence.
Qed.

Lemma pydiv_nonzero (a b : Q) : ~ b == 0 -> pydiv a b = Ok (a / b).
Proof.
  intros Hb. unfold pydiv. destruct (Qeq_bool b 0) eqn:Hz; [| reflexivity].
  apply Qeq_bool_iff in Hz. contradiction.
Qed.

(** One inversion step on a hypothesis [_ = Ok _]. *)
Ltac inv_step :=
  match goal with
  | H : bind _ _ = Ok _ |- _ =>
      let a := fresh "a" in
      let Ha := fresh "Ha" in
      apply bind_ok in H; destruct H as (a & Ha & H); cbv beta in H
  | H : Checks.check_ul _ _ _ _ = Ok _ |- _ =>
      apply check_ul_ok in H; destruct H as [-> ?]
  | H : Checks.check_l _ _ _ = Ok _ |- _ =>
      apply check_l_ok in H; destruct H as [-> ?]
  | H : check_scenario _ _ _ _ = Ok _ |- _ =>
      apply check_scenario_ok in H
  | H : Ok _ = Ok _ |- _ => injection H as H; try subst
  | H : no_extra _ = Ok _ |- _ => unfold no_extra in H
  | H : _ = Ok _ |- _ => progress cbn in H
  end.

(** Case split on the scenario that was accepted. *)
Ltac split_scenario H :=
  cbn [In] in H;
  repeat (destruct H as [H | H];
          [ first [ rewrite <- H in * | subst ] | ]);
  [ .. | contradiction ].

Ltac invert_construction H :=
  unfold built, ADD_uses, common_in_bounds, opt_range;
  repeat inv_step;
  match goal with
  | Hs : In _ _ |- _ => split_scenario Hs
  end;
  unfold finish in H;
  repeat inv_step.

Ltac solve_built :=
  split; [ reflexivity
         | split; [ cbn; tauto
                  | split; [ split; [ reflexivity | cbn; eauto 10 ]
                           | split; [ tauto
                                    | repeat (constructor;
                                              [ cbn; assumption | ]);
                                      constructor ] ] ] ].

Lemma liquid_model_built (name : string) (ql qh Yderm : Q) (scen : string)
  (S Qu FT : Q) (c : common) (inst : model) :
  Dermal.liquid_model name ql qh Yderm scen S Qu FT c = Ok inst ->
  built "Dexp" Dermal.liquid_scenarios (EY c) scen c
    [("FT", FT, 0, None); ("Yderm", Yderm, 0, Some 1)] inst.
Proof.
  unfold Dermal.liquid_model, Dermal.dermal_model_init,
    Dermal.liquid_scenarios.
  intros H. invert_construction H; solve_built.
Qed.

Lemma solids_model_built (name : string) (sq Yderm : Q) (scen : string)
  (SQu FT : Q) (c : common) (inst : model) :
  Dermal.solids_model name sq Yderm scen SQu FT c = Ok inst ->
  built "Dexp" Dermal.solids_scenarios (EY c) scen c
    [("FT", FT, 0, None); ("Yderm", Yderm, 0, Some 1)] inst.
Proof.
  unfold Dermal.solids_model, Dermal.dermal_model_init,
    Dermal.solids_scenarios.
  intros H. invert_construction H; solve_built.
Qed.

Lemma user_defined_dermal_built (Yderm : Q) (scen : string) (S Qu FT : Q)
  (c : common) (inst : model) :
  Dermal.user_defined_dermal Yderm scen S Qu FT c = Ok inst ->
  built "Dexp" Dermal.liquid_scenarios (EY c) scen c
    [("FT", FT, 0, None); ("Yderm", Yderm, 0, Some 1)] inst.
Proof.
  unfold Dermal.user_defined_dermal, Dermal.dermal_model_init,
    Dermal.liquid_scenarios.
  intros H. invert_construction H; solve_built.
Qed.

Lemma small_volume_built (Ys : Q) (scen : string) (EF AH Sd : Q)
  (c : common) (inst : model) :
  Inhalation.small_volume_solids_handling Ys scen EF AH Sd c = Ok inst ->
  built "I" Inhalation.small_volume_scenarios (AT c) scen c
    [("AH", AH, 0, Some 54); ("Ys", Ys, 0, Some 1); ("Sd", Sd, 0, Some 3)]
    inst.
Proof.
  unfold Inhalation.small_volume_solids_handling,
    Inhalation.inhalation_model_init, Inhalation.small_volume_scenarios.
  intros H. invert_construction H; solve_built.
Qed.

Lemma mass_balance_built (G MW VP X : Q) (scen : string)
  (T Qvent k Vm b h vz : Q) (c : common) (inst : model) :
  Inhalation.mass_balance G MW VP X scen T Qvent k Vm b h vz c = Ok inst ->
  built "I" Inhalation.mass_balance_scenarios (AT c) scen c [] inst.
Proof.
  unfold Inhalation.mass_balance, Inhalation.inhalation_model_init,
    Inhalation.mass_balance_scenarios.
  intros H. invert_construction H; solve_built.
Qed.

Lemma pel_particulates_built (Ys : Q) (scen : string) (KCk Ypel b h : Q)
  (c : common) (inst : model) :
  Inhalation.pel_limiting_particulates Ys scen KCk Ypel b h c = Ok inst ->
  built "I" Inhalation.user_only (AT c) scen c
    [("Ys", Ys, 0, Some 1); ("Ypel", Ypel, 0, Some 1);
     ("b", b, 0, Some 7.9); ("h", h, 0, Some 24)] inst.
Proof.
  unfold Inhalation.pel_limiting_particulates,
    Inhalation.inhalation_model_init, Inhalation.user_only.
  intros H. invert_construction H; solve_built.
Qed.

Lemma pel_vapors_built (Cvk VP Ys MW VPpel Ypel MWpel X : Q) (scen : string)
  (Vm b h : Q) (c : common) (inst : model) :
  Inhalation.pel_limiting_vapors Cvk VP Ys MW VPpel Ypel MWpel X scen Vm b h c
  = Ok inst ->
  built "I" Inhalation.user_only (AT c) scen c
    [("Ys", Ys, 0, Some 1); ("X", X, 0, Some 1); ("Vm", Vm, 0, None);
     ("b", b, 0, Some 7.9); ("h", h, 0, Some 24)] inst.
Proof.
  unfold Inhalation.pel_limiting_vapors, Inhalation.inhalation_model_init,
    Inhalation.user_only.
  intros H. invert_construction H; solve_built.
Qed.

Lemma pnor_model_built (name : string) (Ys : Q) (scen : string)
  (KCk b h : Q) (c : common) (inst : model) :
  Inhalation.pnor_model name Ys scen KCk b h c = Ok inst ->
  built "I" Inhalation.user_only (AT c) scen c
    [("Ys", Ys, 0, Some 1); ("b", b, 0, Some 7.9); ("h", h, 0, Some 24)]
    inst.
Proof.
  unfold Inhalation.pnor_model, Inhalation.inhalation_model_init,
    Inhalation.user_only.
  intros H. invert_construction H; solve_built.
Qed.

Lemma spray_model_built (name : string) (Ymist : Q) (scen : string)
  (KCk : Q) (Ys : option Q) (Ysf b h : Q) (c : common) (inst : model) :
  Inhalation.spray_model name Ymist scen KCk Ys Ysf b h c = Ok inst ->
  built "I" Inhalation.spray_scenarios (AT c) scen c
    ([("Ymist", Ymist, 0, Some 1); ("Ysf", Ysf, 0, Some 1)]
     ++ opt_range "Ys" Ys 0 (Some 1)
     ++ [("b", b, 0, Some 7.9); ("h", h, 0, Some 24)]) inst.
Proof.
  unfold Inhalation.spray_model, Inhalation.inhalation_model_init,
    Inhalation.spray_scenarios, Inhalation.resolve_Ys.
  intros H. destruct Ys; invert_construction H; solve_built.
Qed.

Lemma automobile_spray_built (scen : string) (KCk b h : Q) (c : common)
  (inst : model) :
  Inhalation.automobile_spray_coating scen KCk b h c = Ok inst ->
  built "I" Inhalation.automobile_spray_scenarios (AT c) scen c [] inst.
Proof.
  unfold Inhalation.automobile_spray_coating,
    Inhalation.inhalation_model_init, Inhalation.automobile_spray_scenarios.
  intros H. invert_construction H; solve_built.
Qed.

Lemma uv_roll_built (Ymist : Q) (scen : string) (KCk : Q) (Ys : option Q)
  (Ysf b h : Q) (c : common) (inst : model) :
  Inhalation.uv_roll_coating Ymist scen KCk Ys Ysf b h c = Ok inst ->
  built "I" Inhalation.uv_roll_scenarios (AT c) scen c
    ([("Ymist", Ymist, 0, Some 1); ("Ysf", Ysf, 0, Some 1)]
     ++ opt_range "Ys" Ys 0 (Some 1)
     ++ [("b", b, 0, Some 7.9); ("h", h, 0, Some 24)]) inst.
Proof.
  unfold Inhalation.uv_roll_coating, Inhalation.inhalation_model_init,
    Inhalation.uv_roll_scenarios, Inhalation.resolve_Ys.
  intros H. destruct Ys; invert_construction H; solve_built.
Qed.

Lemma user_defined_inhalation_built (Cv MW h : Q) (scen : string)
  (Cm : option Q) (Vm Ys b : Q) (c : common) (inst : model) :
  Inhalation.user_defined_inhalation Cv MW h scen Cm Vm Ys b c = Ok inst ->
  built "I" Inhalation.user_only (AT c) scen c
    ([("Vm", Vm, 0, None); ("Ys", Ys, 0, Some 1)]
     ++ opt_range "Cm" Cm 0 None
     ++ [("b", b, 0, Some 7.9); ("h", h, 0, Some 24)]) inst.
Proof.
  unfold Inhalation.user_defined_inhalation,
    Inhalation.inhalation_model_init, Inhalation.user_only.
  intros H. destruct Cm; invert_construction H; solve_built.
Qed.

(** Every successful construction, whatever the model type. *)
Lemma construct_built (m : call) (inst : model) :
  construct m = Ok inst ->
  built (if is_dermal m then "Dexp" else "I") (get_scenarios m)
    (if is_dermal m then EY (common_of m) else AT (common_of m))
    (scenario_of m) (common_of m) (checked_inputs m) inst.
Proof.
  destruct m;
    cbn [construct is_dermal get_scenarios scenario_of common_of
           checked_inputs].
  - apply liquid_model_built.
  - apply liquid_model_built.
  - apply liquid_model_built.
  - apply solids_model_built.
  - apply solids_model_built.
  - apply user_defined_dermal_built.
  - apply small_volume_built.
  - apply mass_balance_built.
  - apply pel_particulates_built.
  - apply pel_vapors_built.
  - apply pnor_model_built.
  - apply pnor_model_built.
  - apply spray_model_built.
  - apply spray_model_built.
  - apply automobile_spray_built.
  - apply uv_roll_built.
  - apply user_defined_inhalation_built.
Qed.

(** ** Averaging time *)

Lemma dermal_ignores_AT (m : call) (t : Q) :
  is_dermal m = true ->
  construct (with_common (set_AT t (common_of m)) m) = construct m.
Proof.
  destruct m; intros Hd; try discriminate Hd; reflexivity.
Qed.

(** C8: in every dermal model the averaging time behind [ADD] is the
    supplied [EY], and the caller's [AT] changes nothing; in every
    inhalation model it is the caller's [AT]. *)
Theorem C8_averaging_time (m : call) (inst : model) :
  construct m = Ok inst ->
  (is_dermal m = true ->
   ADD_uses "Dexp" (EY (common_of m)) (common_of m) inst /\
   forall t : Q,
     construct (with_common (set_AT t (common_of m)) m) = Ok inst) /\
  (is_dermal m = false ->
   ADD_uses "I" (AT (common_of m)) (common_of m) inst).
Proof.
  intros H. pose proof (construct_built m inst H) as (_ & _ & Hadd & _).
  split; intros Hd; rewrite Hd in Hadd.
  - split; [exact Hadd |].
    intros t. now rewrite dermal_ignores_AT.
  - exact Hadd.
Qed.

Lemma C8_averaging_time_witness :
  (exists inst : model,
      construct (TwoHandSolidsContact 0.4 "high" 3100 1
                   (set_AT 25 (common_defaults 1))) = Ok inst /\
      ADD_uses "Dexp" 40 (set_AT 25 (common_defaults 1)) inst) /\
  (exists inst : model,
      construct (TotalPnorPelLimiting 0.5 "user" 15 1.25 8
                   (set_AT 25 (common_defaults 1))) = Ok inst /\
      ADD_uses "I" 25 (set_AT 25 (common_defaults 1)) inst).
Proof.
  split.
  - eexists. split; [vm_compute; reflexivity |].
    refine (proj1 (proj1 (C8_averaging_time
                            (TwoHandSolidsContact 0.4 "high" 3100 1
                               (set_AT 25 (common_defaults 1))) _ _)
                     eq_refl)).
    vm_compute. reflexivity.
  - eexists. split; [vm_compute; reflexivity |].
    refine (proj2 (C8_averaging_time
                     (TotalPnorPelLimiting 0.5 "user" 15 1.25 8
                        (set_AT 25 (common_defaults 1))) _ _)
              eq_refl).
    vm_compute. reflexivity.
Defined.

(** ** Scenario validation *)

Lemma check_scenario_rejects (g : list string) (tested shown : string)
  (l : list string) :
  bound_in (g ++ builtins) "ScenarioException" = false ->
  bound_in l tested = false ->
  check_scenario g tested shown l = Raise (NameError "ScenarioException").
Proof.
  intros Hg Hb. unfold check_scenario. rewrite Hb. cbn [negb].
  now apply raise_scenario_unbound.
Qed.

Lemma not_In_bound_in (l : list string) (s : string) :
  ~ In s l -> bound_in l s = false.
Proof.
  intros Hn. destruct (bound_in l s) eqn:Hb; [| reflexivity].
  apply bound_in_In in Hb. contradiction.
Qed.

(** The four models that test the raw argument accept ["user"] only, and
    normalisation leaves that string alone. *)
Lemma raw_user_only (scen : string) :
  ~ In (normalize scen) Inhalation.user_only ->
  bound_in Inhalation.user_only scen = false.
Proof.
  intros Hn. apply not_In_bound_in. intros [<- | []].
  apply Hn. cbn. auto.
Qed.

Lemma dermal_init_in_bounds (c : common) :
  common_in_bounds c ->
  Dermal.dermal_model_init c
  = Ok [("ED", VNum (ED c)); ("NWexp", VNum (NWexp c)); ("NS", VNum (NS c));
        ("EY", VNum (EY c)); ("BW", VNum (BW c)); ("ATc", VNum (ATc c));
        ("AT", VNum (EY c)); ("skips", VList skip0)].
Proof.
  intros (Hed & Hey & Hbw & Hatc). unfold Dermal.dermal_model_init.
  now rewrite check_ul_in_range, !check_l_above.
Qed.

Lemma inhalation_init_in_bounds (c : common) :
  common_in_bounds c ->
  Inhalation.inhalation_model_init c
  = Ok [("ED", VNum (ED c)); ("NWexp", VNum (NWexp c)); ("NS", VNum (NS c));
        ("EY", VNum (EY c)); ("BW", VNum (BW c)); ("ATc", VNum (ATc c));
        ("AT", VNum (AT c)); ("skips", VList skip0)].
Proof.
  intros (Hed & Hey & Hbw & Hatc). unfold Inhalation.inhalation_model_init.
  now rewrite check_ul_in_range, !check_l_above.
Qed.

Ltac reject_scenario :=
  cbn [bind];
  rewrite check_scenario_rejects;
  [ reflexivity | reflexivity
  | first [ now apply not_In_bound_in | now apply raw_user_only ] ].

Lemma construct_rejects (m : call) :
  common_in_bounds (common_of m) ->
  ~ In (normalize (scenario_of m)) (get_scenarios m) ->
  construct m = Raise (NameError "ScenarioException").
Proof.
  destruct m; cbn [construct scenario_of get_scenarios common_of];
    intros Hc Hn;
    unfold Dermal.one_hand_liquid_contact, Dermal.two_hand_liquid_contact,
      Dermal.two_hand_liquid_immersion, Dermal.two_hand_solids_contact,
      Dermal.two_hand_container_surface_contact, Dermal.liquid_model,
      Dermal.solids_model, Dermal.user_defined_dermal,
      Inhalation.small_volume_solids_handling, Inhalation.mass_balance,
      Inhalation.pel_limiting_particulates, Inhalation.pel_limiting_vapors,
      Inhalation.total_pnor_pel_limiting,
      Inhalation.respirable_pnor_pel_limiting, Inhalation.pnor_model,
      Inhalation.automobile_oem_spray_coating,
      Inhalation.automobile_refinish_spray_coating, Inhalation.spray_model,
      Inhalation.automobile_spray_coating, Inhalation.uv_roll_coating,
      Inhalation.user_defined_inhalation;
    first [ rewrite (dermal_init_in_bounds _ Hc)
          | rewrite (inhalation_init_in_bounds _ Hc) ];
    reject_scenario.
Qed.

(** With the arguments of the test script every model type is built under
    each scenario it lists, and the twelve model types that normalise
    before testing are built under the upper-case spelling as well. *)
Lemma test_calls_construct : Forall accepts_listed test_calls.
Proof.
  repeat constructor;
    try (eexists; split; vm_compute; reflexivity);
    discriminate.
Qed.

(** C3: a construction that succeeds stores the normalised scenario, a
    member of [get_scenarios()]; a model that normalises before testing
    never refuses a scenario whose normalised form is listed, and with the
    arguments of the test script every listed scenario is built.  But a
    scenario outside the list is not refused with a [ScenarioException]:
    neither [dermal.py] nor [inhalation.py] binds that name, so the [raise]
    statement fails with a [NameError], and no construction at all raises
    [ScenarioException].  Moreover the PEL-limiting and user-defined
    inhalation models test the raw argument, so ["USER"], whose normalised
    form is listed, is refused. *)
Theorem C3_scenario_closure :
  (forall (m : call) (inst : model),
      construct m = Ok inst ->
      scenario inst = normalize (scenario_of m) /\
      In (scenario inst) (get_scenarios m)) /\
  (forall m : call,
      common_in_bounds (common_of m) ->
      ~ In (normalize (scenario_of m)) (get_scenarios m) ->
      construct m = Raise (NameError "ScenarioException")) /\
  (forall (m : call) (msg : message),
      construct m <> Raise (ScenarioException msg)) /\
  (forall m : call,
      tests_raw m = false ->
      In (normalize (scenario_of m)) (get_scenarios m) ->
      construct m <> Raise (NameError "ScenarioException")) /\
  Forall accepts_listed test_calls /\
  one_hand_liquid_contact_defaults 0.1 "medium"
  = Raise (NameError "ScenarioException") /\
  (In (normalize "USER")
      (get_scenarios (PelLimitingParticulates 0.3 "USER" 15 1 1.25 8
                        (common_defaults 1))) /\
   construct (PelLimitingParticulates 0.3 "USER" 15 1 1.25 8
                (common_defaults 1))
   = Raise (NameError "ScenarioException")).
Proof.
  split; [| split; [| split; [| split; [| split; [| split; [| split]]]]]].
  - intros m inst H. pose proof (construct_built m inst H) as (Hs & Hin & _).
    auto.
  - exact construct_rejects.
  - intros m msg H. apply plain_construct in H. discriminate.
  - intros m Hraw Hin. apply listed_scenario_not_refused.
    unfold tested_scenario. now rewrite Hraw.
  - exact test_calls_construct.
  - reflexivity.
  - cbn. auto.
  - reflexivity.
Qed.

Lemma C3_scenario_closure_witness :
  (exists inst : model,
      construct (MassBalance 1 92.141 28.4 0.2 "Outdoor, Worst-Case" 298 3000
                   0.5 24.45 1.25 8 440 (common_defaults 1)) = Ok inst /\
      scenario inst = "outdoor,worst-case") /\
  construct (UvRollCoating 0.9 "user" 0.26 None 0.25 1.25 8
               (common_defaults 1))
  = Raise (NameError "ScenarioException").
Proof.
  destruct C3_scenario_closure as (Hok & Hrej & _ & _ & _).
  split.
  - eexists. split; [vm_compute; reflexivity |].
    refine (proj1 (Hok (MassBalance 1 92.141 28.4 0.2 "Outdoor, Worst-Case"
                          298 3000 0.5 24.45 1.25 8 440 (common_defaults 1))
                     _ _)).
    vm_compute. reflexivity.
  - apply Hrej.
    + cbn. repeat split; discriminate.
    + cbn. intros [H | [H | []]]; discriminate H.
Defined.

(** ** Mass balance *)

Lemma pymin_Qmin (a b : Q) : pymin a b == Qmin a b.
Proof.
  unfold pymin. destruct (Qltb b a) eqn:Hlt.
  - apply Qltb_lt in Hlt. symmetry. apply Q.min_r. now apply Qlt_le_weak.
  - apply Qltb_ge in Hlt. symmetry. now apply Q.min_l.
Qed.

Lemma mass_balance_Cv_ok (T G MW Qvent k X VP cv : Q) :
  Inhalation.mass_balance_Cv T G MW Qvent k X VP = Ok cv ->
  cv == Qmin (170000 * T * G / (MW * Qvent * k)) (1000000 * X * VP / 760).
Proof.
  unfold Inhalation.mass_balance_Cv. intros H.
  apply bind_ok in H. destruct H as (gen & Hgen & H).
  apply pydiv_ok in Hgen. destruct Hgen as [-> _].
  injection H as <-. apply pymin_Qmin.
Qed.

Lemma Cm_of_Cv_ok (Cv MW Vm cm : Q) :
  Inhalation.Cm_of_Cv Cv MW Vm = Ok cm -> cm = Cv * MW / Vm.
Proof.
  unfold Inhalation.Cm_of_Cv. intros H. now apply pydiv_ok in H.
Qed.

Lemma outdoor_worst_Q_440 : Inhalation.outdoor_worst_Q 440 == 3300000.
Proof. reflexivity. Qed.

(** C5: a successful [mass_balance] construction reports
    [Cv = min(170000*T*G/(MW*Q*k), 1000000*X*VP/760)] and [Cm = Cv*MW/Vm],
    with [Q] and [k] read off the five-way scenario table; in the outdoor
    worst case [Q = 26400*(60*vz/5280)^3], which is 3,300,000 for
    [vz = 440]. *)
Theorem C5_mass_balance_concentrations (G MW VP X : Q) (scen : string)
  (T Qvent k Vm b h vz : Q) (c : common) (inst : model) :
  Inhalation.mass_balance G MW VP X scen T Qvent k Vm b h vz c = Ok inst ->
  (exists Qr kr cv cm : Q,
      mass_balance_table (scenario inst) Qvent k vz = Some (Qr, kr) /\
      dict_get "Q" (inputs inst) = Some (VNum Qr) /\
      dict_get "k" (inputs inst) = Some (VNum kr) /\
      dict_get "Cv" (outputs inst) = Some (VNum cv) /\
      cv == Qmin (170000 * T * G / (MW * Qr * kr))
              (1000000 * X * VP / 760) /\
      dict_get "Cm" (outputs inst) = Some (VNum cm) /\
      cm == cv * MW / Vm) /\
  (scenario inst = "outdoor,worst-case" ->
   dict_get "Q" (inputs inst)
   = Some (VNum (26400 * (60 * vz / 5280) ^ 3))) /\
  26400 * (60 * 440 / 5280) ^ 3 == 26400 * 5 ^ 3 /\
  26400 * 5 ^ 3 == 3300000.
Proof.
  unfold Inhalation.mass_balance, Inhalation.inhalation_model_init,
    Inhalation.mass_balance_scenarios.
  intros H. invert_construction H;
    (split;
     [ do 4 eexists;
       repeat (split; [ reflexivity | ]);
       split; [ eapply mass_balance_Cv_ok; eassumption | ];
       split; [ reflexivity | ];
       match goal with
       | Hcm : Inhalation.Cm_of_Cv _ _ _ = Ok _ |- _ =>
           apply Cm_of_Cv_ok in Hcm; rewrite Hcm; reflexivity
       end
     | split; [ cbn; first [ discriminate | reflexivity ]
              | split; reflexivity ] ]).
Qed.

Lemma C5_mass_balance_witness :
  exists (inst : model) (cv cm : Q),
    Inhalation.mass_balance 1 92.141 28.4 0.2 "outdoor,worst-case" 298 3000
      0.5 24.45 1.25 8 440 (common_defaults 1) = Ok inst /\
    dict_get "Q" (inputs inst)
    = Some (VNum (26400 * (60 * 440 / 5280) ^ 3)) /\
    dict_get "Cv" (outputs inst) = Some (VNum cv) /\
    cv == Qmin (170000 * 298 * 1
                / (92.141 * (26400 * (60 * 440 / 5280) ^ 3) * 0.1))
            (1000000 * 0.2 * 28.4 / 760) /\
    dict_get "Cm" (outputs inst) = Some (VNum cm) /\
    cm == cv * 92.141 / 24.45.
Proof.
  destruct (Inhalation.mass_balance 1 92.141 28.4 0.2 "outdoor,worst-case"
              298 3000 0.5 24.45 1.25 8 440 (common_defaults 1))
    as [inst | e] eqn:E; [| vm_compute in E; discriminate E].
  destruct (C5_mass_balance_concentrations _ _ _ _ _ _ _ _ _ _ _ _ _ _ E)
    as ((Qr & kr & cv & cm & Ht & HQ & Hk & Hcv & Hcve & Hcm & Hcme)
        & Hout & _).
  assert (Hs : scenario inst = "outdoor,worst-case").
  { vm_compute in E. injection E as <-. reflexivity. }
  rewrite Hs in Ht. cbn in Ht. injection Ht as <- <-.
  exists inst, cv, cm. auto 10.
Defined.

(** ** PEL-limiting vapors *)

Lemma pel_vapors_Cv_ok (Cvk VP Ys MW VPpel Ypel MWpel X cv : Q) :
  Inhalation.pel_vapors_Cv Cvk VP Ys MW VPpel Ypel MWpel X = Ok cv ->
  cv == Qmin (Cvk * (VP * Ys / MW) / (VPpel * Ypel / MWpel))
          (1000000 * X * VP / 760).
Proof.
  unfold Inhalation.pel_vapors_Cv. intros H.
  apply bind_ok in H. destruct H as (num & Hnum & H).
  apply bind_ok in H. destruct H as (den & Hden & H).
  apply bind_ok in H. destruct H as (ratio & Hratio & H).
  apply pydiv_ok in Hnum, Hden, Hratio.
  destruct Hnum as [-> _], Hden as [-> _], Hratio as [-> _].
  injection H as <-. apply pymin_Qmin.
Qed.

(** C9: whatever [Ypel] the caller passes to [pel_limiting_vapors], the
    instance reports [Ypel = 1 - Ys] and computes [Cv] with it; the same
    call with any other [Ypel] builds the same instance. *)
Theorem C9_pel_vapors_Ypel_overwritten
  (Cvk VP Ys MW VPpel Ypel MWpel X : Q) (scen : string) (Vm b h : Q)
  (c : common) (inst : model) :
  Inhalation.pel_limiting_vapors Cvk VP Ys MW VPpel Ypel MWpel X scen Vm b h c
  = Ok inst ->
  dict_get "Ypel" (inputs inst) = Some (VNum (1 - Ys)) /\
  (exists cv : Q,
      dict_get "Cv" (outputs inst) = Some (VNum cv) /\
      cv == Qmin (Cvk * (VP * Ys / MW) / (VPpel * (1 - Ys) / MWpel))
              (1000000 * X * VP / 760)) /\
  (forall Ypel' : Q,
      Inhalation.pel_limiting_vapors Cvk VP Ys MW VPpel Ypel' MWpel X scen Vm
        b h c = Ok inst).
Proof.
  intros H. split; [| split]; [| | intros Ypel'; exact H].
  - revert H.
    unfold Inhalation.pel_limiting_vapors, Inhalation.inhalation_model_init,
      Inhalation.user_only.
    intros H. invert_construction H. reflexivity.
  - revert H.
    unfold Inhalation.pel_limiting_vapors, Inhalation.inhalation_model_init,
      Inhalation.user_only.
    intros H. invert_construction H.
    eexists. split; [reflexivity |].
    eapply pel_vapors_Cv_ok; eassumption.
Qed.

(** The caller's [Ypel] is not read at all: also a failing call fails the
    same way. *)
Lemma pel_vapors_ignores_Ypel (Cvk VP Ys MW VPpel MWpel X : Q)
  (scen : string) (Vm b h : Q) (c : common) (Ypel Ypel' : Q) :
  Inhalation.pel_limiting_vapors Cvk VP Ys MW VPpel Ypel MWpel X scen Vm b h c
  = Inhalation.pel_limiting_vapors Cvk VP Ys MW VPpel Ypel' MWpel X scen Vm
      b h c.
Proof. reflexivity. Qed.

Lemma C9_pel_vapors_witness :
  exists inst : model,
    Inhalation.pel_limiting_vapors 500 23.7564 0.4 18.015 28.4 0.9 92.141 0.5
      "user" 24.45 1.25 8 (common_defaults 1) = Ok inst /\
    dict_get "Ypel" (inputs inst) = Some (VNum (1 - 0.4)) /\
    Inhalation.pel_limiting_vapors 500 23.7564 0.4 18.015 28.4 0.6 92.141 0.5
      "user" 24.45 1.25 8 (common_defaults 1) = Ok inst.
Proof.
  destruct (Inhalation.pel_limiting_vapors 500 23.7564 0.4 18.015 28.4 0.9
              92.141 0.5 "user" 24.45 1.25 8 (common_defaults 1))
    as [inst | e] eqn:E; [| vm_compute in E; discriminate E].
  destruct (C9_pel_vapors_Ypel_overwritten _ _ _ _ _ _ _ _ _ _ _ _ _ _ E)
    as (Hin & _ & Hany).
  exists inst. split; [reflexivity |]. split; [exact Hin | apply Hany].
Defined.

(** ** Models without a ["user"] scenario *)

Lemma automobile_spray_ignores_KCk (scen : string) (KCk KCk' b h : Q)
  (c : common) :
  Inhalation.automobile_spray_coating scen KCk b h c
  = Inhalation.automobile_spray_coating scen KCk' b h c.
Proof.
  unfold Inhalation.automobile_spray_coating.
  destruct (Inhalation.inhalation_model_init c) as [kwargs | e];
    cbn [bind]; [| reflexivity].
  unfold check_scenario.
  destruct (bound_in Inhalation.automobile_spray_scenarios (normalize scen))
    eqn:Hb; cbn [negb].
  - apply bound_in_In in Hb. unfold Inhalation.automobile_spray_scenarios in Hb.
    split_scenario Hb; reflexivity.
  - rewrite raise_scenario_unbound by reflexivity. reflexivity.
Qed.

Lemma uv_roll_ignores_KCk (Ymist : Q) (scen : string) (KCk KCk' : Q)
  (Ys : option Q) (Ysf b h : Q) (c : common) :
  Inhalation.uv_roll_coating Ymist scen KCk Ys Ysf b h c
  = Inhalation.uv_roll_coating Ymist scen KCk' Ys Ysf b h c.
Proof.
  unfold Inhalation.uv_roll_coating.
  destruct (Inhalation.inhalation_model_init c) as [kwargs | e];
    cbn [bind]; [| reflexivity].
  unfold check_scenario.
  destruct (bound_in Inhalation.uv_roll_scenarios (normalize scen))
    eqn:Hb; cbn [negb].
  - apply bound_in_In in Hb. unfold Inhalation.uv_roll_scenarios in Hb.
    split_scenario Hb; reflexivity.
  - rewrite raise_scenario_unbound by reflexivity. reflexivity.
Qed.

(** C10: ["user"] is no scenario of [automobile_spray_coating] nor of
    [uv_roll_coating], so a construction whose scenario normalises to
    ["user"] fails, and the [KCk] argument has no effect: two calls that
    differ in [KCk] only give the same result for every scenario. *)
Theorem C10_KCk_without_effect :
  bound_in Inhalation.automobile_spray_scenarios "user" = false /\
  bound_in Inhalation.uv_roll_scenarios "user" = false /\
  (forall (scen : string) (KCk b h : Q) (c : common),
      normalize scen = "user" ->
      exists e : exn,
        Inhalation.automobile_spray_coating scen KCk b h c = Raise e) /\
  (forall (Ymist : Q) (scen : string) (KCk : Q) (Ys : option Q)
          (Ysf b h : Q) (c : common),
      normalize scen = "user" ->
      exists e : exn,
        Inhalation.uv_roll_coating Ymist scen KCk Ys Ysf b h c = Raise e) /\
  (forall (scen : string) (KCk KCk' b h : Q) (c : common),
      Inhalation.automobile_spray_coating scen KCk b h c
      = Inhalation.automobile_spray_coating scen KCk' b h c) /\
  (forall (Ymist : Q) (scen : string) (KCk KCk' : Q) (Ys : option Q)
          (Ysf b h : Q) (c : common),
      Inhalation.uv_roll_coating Ymist scen KCk Ys Ysf b h c
      = Inhalation.uv_roll_coating Ymist scen KCk' Ys Ysf b h c).
Proof.
  split; [reflexivity |]. split; [reflexivity |].
  split; [| split; [| split]].
  - intros scen KCk b h c Hu.
    destruct (Inhalation.automobile_spray_coating scen KCk b h c)
      as [inst | e] eqn:E; [| eauto].
    apply automobile_spray_built in E. destruct E as (Hs & Hin & _).
    rewrite Hs, Hu in Hin. cbn in Hin.
    exfalso. repeat (destruct Hin as [Hin | Hin]; [discriminate Hin |]).
    exact Hin.
  - intros Ymist scen KCk Ys Ysf b h c Hu.
    destruct (Inhalation.uv_roll_coating Ymist scen KCk Ys Ysf b h c)
      as [inst | e] eqn:E; [| eauto].
    apply uv_roll_built in E. destruct E as (Hs & Hin & _).
    rewrite Hs, Hu in Hin. cbn in Hin.
    exfalso. repeat (destruct Hin as [Hin | Hin]; [discriminate Hin |]).
    exact Hin.
  - exact automobile_spray_ignores_KCk.
  - intros. apply uv_roll_ignores_KCk.
Qed.

Lemma C10_KCk_witness :
  (exists e : exn,
      Inhalation.automobile_spray_coating "User" 18.4 1.25 8
        (common_defaults 3) = Raise e) /\
  (exists e : exn,
      Inhalation.uv_roll_coating 0.9 "USER" 0.26 None 0.25 1.25 8
        (common_defaults 1) = Raise e) /\
  Inhalation.automobile_spray_coating "low,hvlp,downdraft" 18.4 1.25 8
    (common_defaults 3)
  = Inhalation.automobile_spray_coating "low,hvlp,downdraft" 1000 1.25 8
      (common_defaults 3).
Proof.
  destruct C10_KCk_without_effect as (_ & _ & Hauto & Huv & Hk & _).
  split; [| split].
  - apply Hauto. reflexivity.
  - apply Huv. reflexivity.
  - apply Hk.
Defined.

(** ** Bounds that are declared but not checked *)

(** C2: the family-common bounds hold of every instance that was built,
    but the declared ranges of the model's own inputs are not all enforced:
    [mass_balance] stores [b], [h], [Q] and [k] and
    [automobile_spray_coating] stores [b] and [h] without any check, so
    values outside the documented ranges ([0 <= b <= 7.9], [0 <= h <= 24],
    [0 < Q], [0 <= k <= 1]) give a complete instance. *)
Theorem C2_declared_bounds_not_all_checked :
  (forall (m : call) (inst : model),
      construct m = Ok inst ->
      common_in_bounds (common_of m) /\ Forall in_range (checked_inputs m)) /\
  (forall b h : Q,
      exists inst : model,
        Inhalation.mass_balance 1 92.141 28.4 0.2 "indoor,typical" 298 3000
          0.5 24.45 b h 440 (common_defaults 1) = Ok inst /\
        dict_get "b" (inputs inst) = Some (VNum b) /\
        dict_get "h" (inputs inst) = Some (VNum h) /\
        dict_keys (outputs inst)
        = ["Cv"; "Cm"; "NW"; "LADD"; "ADD"; "APDR"; "I"]) /\
  (forall b h : Q,
      exists inst : model,
        Inhalation.automobile_spray_coating "high,conventional,crossdraft"
          18.4 b h (common_defaults 3) = Ok inst /\
        dict_get "b" (inputs inst) = Some (VNum b) /\
        dict_get "h" (inputs inst) = Some (VNum h) /\
        dict_keys (outputs inst)
        = ["Cm"; "NW"; "LADD"; "ADD"; "APDR"; "I"]) /\
  (exists inst : model,
      Inhalation.mass_balance 1 92.141 28.4 0.2 "user" 298 (-5) 2 24.45 10
        30 440 (common_defaults 1) = Ok inst /\
      dict_get "b" (inputs inst) = Some (VNum 10) /\ 7.9 < 10 /\
      dict_get "h" (inputs inst) = Some (VNum 30) /\ 24 < 30 /\
      dict_get "Q" (inputs inst) = Some (VNum (-5)) /\ -5 < 0 /\
      dict_get "k" (inputs inst) = Some (VNum 2) /\ 1 < 2).
Proof.
  split; [| split; [| split]].
  - intros m inst H.
    pose proof (construct_built m inst H) as (_ & _ & _ & Hc & Hr). auto.
  - intros b h. eexists. split; [cbv; reflexivity |].
    repeat split; reflexivity.
  - intros b h. eexists. split; [cbv; reflexivity |].
    repeat split; reflexivity.
  - eexists. split; [cbv; reflexivity |]. repeat split; reflexivity.
Qed.

Lemma C2_declared_bounds_witness :
  common_in_bounds (common_defaults 17) /\
  exists inst : model,
    Inhalation.automobile_spray_coating "high,conventional,crossdraft" 18.4
      100 (-3) (common_defaults 3) = Ok inst /\
    dict_get "b" (inputs inst) = Some (VNum 100) /\
    dict_get "h" (inputs inst) = Some (VNum (-3)).
Proof.
  destruct C2_declared_bounds_not_all_checked as (Hcommon & _ & Hauto & _).
  split.
  - refine (proj1 (Hcommon (AutomobileOemSprayCoating 0.7 "hvlp,downdraft"
                              2.3 None 0.25 1.25 8 (common_defaults 17))
                     _ _)).
    vm_compute. reflexivity.
  - destruct (Hauto 100 (-3)) as (inst & H & Hb & Hh & _).
    exists inst. auto.
Defined.

(** ** The instance that a successful construction returns *)

Ltac invert_ok H :=
  repeat inv_step;
  match goal with
  | Hs : In _ _ |- _ => split_scenario Hs
  end;
  unfold finish in H;
  repeat inv_step.

Ltac pydiv_facts :=
  repeat match goal with
    | H : pydiv _ _ = Ok _ |- _ =>
        apply pydiv_ok in H; destruct H as [-> ?]
    end.

Ltac give_instance :=
  repeat eexists;
  first [ reflexivity | eassumption | cbn; tauto | idtac ].

Lemma liquid_model_inv (name : string) (ql qh Yderm : Q) (scen : string)
  (S Qu FT : Q) (c : common) (inst : model) :
  Dermal.liquid_model name ql qh Yderm scen S Qu FT c = Ok inst ->
  exists qu ladd add apdr : Q,
    In (normalize scen, qu) [("low", ql); ("high", qh); ("user", Qu)] /\
    doses (S * qu * Yderm * FT) (EY c) c ladd add apdr /\
    inst = {| route := "dermal"; model_name := name;
              scenario := normalize scen;
              inputs := (common_inputs (EY c) c
                         ++ [("S", VNum S); ("Qu", VNum qu);
                             ("FT", VNum FT); ("Yderm", VNum Yderm)])%list;
              outputs := exposure_results "Dexp" c (S * qu * Yderm * FT)
                           ladd add apdr |}.
Proof.
  unfold Dermal.liquid_model, Dermal.dermal_model_init,
    Dermal.liquid_scenarios, doses.
  intros H. invert_ok H; give_instance.
Qed.

Lemma solids_model_inv (name : string) (sq Yderm : Q) (scen : string)
  (SQu FT : Q) (c : common) (inst : model) :
  Dermal.solids_model name sq Yderm scen SQu FT c = Ok inst ->
  exists squ ladd add apdr : Q,
    In (normalize scen, squ) [("high", sq); ("user", SQu)] /\
    doses (squ * Yderm * FT) (EY c) c ladd add apdr /\
    inst = {| route := "dermal"; model_name := name;
              scenario := normalize scen;
              inputs := (common_inputs (EY c) c
                         ++ [("SQu", VNum squ); ("FT", VNum FT);
                             ("Yderm", VNum Yderm)])%list;
              outputs := exposure_results "Dexp" c (squ * Yderm * FT)
                           ladd add apdr |}.
Proof.
  unfold Dermal.solids_model, Dermal.dermal_model_init,
    Dermal.solids_scenarios, doses.
  intros H. invert_ok H; give_instance.
Qed.

Lemma user_defined_dermal_inv (Yderm : Q) (scen : string) (S Qu FT : Q)
  (c : common) (inst : model) :
  Dermal.user_defined_dermal Yderm scen S Qu FT c = Ok inst ->
  exists s qu ladd add apdr : Q,
    In (normalize scen, (s, qu))
      [("low", (535, 0.7)); ("high", (1070, 2.1)); ("user", (S, Qu))] /\
    doses (s * qu * Yderm * FT) (EY c) c ladd add apdr /\
    inst = {| route := "dermal"; model_name := "User-defined Dermal";
              scenario := normalize scen;
              inputs := (common_inputs (EY c) c
                         ++ [("S", VNum s); ("Qu", VNum qu);
                             ("FT", VNum FT); ("Yderm", VNum Yderm)])%list;
              outputs := exposure_results "Dexp" c (s * qu * Yderm * FT)
                           ladd add apdr |}.
Proof.
  unfold Dermal.user_defined_dermal, Dermal.dermal_model_init,
    Dermal.liquid_scenarios, doses.
  intros H. invert_ok H; give_instance.
Qed.

Lemma small_volume_inv (Ys : Q) (scen : string) (EF AH Sd : Q)
  (c : common) (inst : model) :
  Inhalation.small_volume_solids_handling Ys scen EF AH Sd c = Ok inst ->
  exists ef ladd add apdr : Q,
    In (normalize scen, ef)
      [("typical", 0.0477); ("worst-case", 0.161); ("user", EF)] /\
    doses (ef * AH * Ys * Sd) (AT c) c ladd add apdr /\
    inst = {| route := "inhalation";
              model_name := "EPA-OPPT Small Volume Solids Handling";
              scenario := normalize scen;
              inputs := (common_inputs (AT c) c
                         ++ [("AH", VNum AH); ("Ys", VNum Ys);
                             ("Sd", VNum Sd); ("EF", VNum ef)])%list;
              outputs := exposure_results "I" c (ef * AH * Ys * Sd)
                           ladd add apdr |}.
Proof.
  unfold Inhalation.small_volume_solids_handling,
    Inhalation.inhalation_model_init, Inhalation.small_volume_scenarios,
    doses.
  intros H. invert_ok H; give_instance.
Qed.

Lemma mass_balance_inv (G MW VP X : Q) (scen : string)
  (T Qvent k Vm b h vz : Q) (c : common) (inst : model) :
  Inhalation.mass_balance G MW VP X scen T Qvent k Vm b h vz c = Ok inst ->
  exists qv kv cv cm ladd add apdr : Q,
    mass_balance_table (normalize scen) Qvent k vz = Some (qv, kv) /\
    Inhalation.mass_balance_Cv T G MW qv kv X VP = Ok cv /\
    Inhalation.Cm_of_Cv cv MW Vm = Ok cm /\
    doses (cm * b * h) (AT c) c ladd add apdr /\
    inst = {| route := "inhalation"; model_name := "EPA-OPPT Mass Balance";
              scenario := normalize scen;
              inputs := (common_inputs (AT c) c
                         ++ [("T", VNum T); ("G", VNum G); ("MW", VNum MW);
                             ("X", VNum X); ("VP", VNum VP);
                             ("Vm", VNum Vm); ("b", VNum b); ("h", VNum h);
                             ("Q", VNum qv); ("k", VNum kv)])%list;
              outputs := (("Cv", VNum cv) :: ("Cm", VNum cm)
                          :: exposure_results "I" c (cm * b * h)
                               ladd add apdr)%list |}.
Proof.
  unfold Inhalation.mass_balance, Inhalation.inhalation_model_init,
    Inhalation.mass_balance_scenarios, doses.
  intros H. invert_ok H; give_instance.
Qed.

Lemma pel_particulates_inv (Ys : Q) (scen : string) (KCk Ypel b h : Q)
  (c : common) (inst : model) :
  Inhalation.pel_limiting_particulates Ys scen KCk Ypel b h c = Ok inst ->
  scen = "user" /\
  exists cm ladd add apdr : Q,
    pydiv (KCk * Ys) Ypel = Ok cm /\
    doses (cm * b * h) (AT c) c ladd add apdr /\
    inst = {| route := "inhalation";
              model_name :=
                "OSHA PEL-limiting Model for Substance-specific Particulates";
              scenario := "user";
              inputs := (common_inputs (AT c) c
                         ++ [("KCk", VNum KCk); ("Ys", VNum Ys);
                             ("Ypel", VNum Ypel); ("b", VNum b);
                             ("h", VNum h)])%list;
              outputs := (("Cm", VNum cm)
                          :: exposure_results "I" c (cm * b * h)
                               ladd add apdr)%list |}.
Proof.
  unfold Inhalation.pel_limiting_particulates,
    Inhalation.inhalation_model_init, Inhalation.user_only, doses.
  intros H. invert_ok H; give_instance.
Qed.

Lemma pel_vapors_inv (Cvk VP Ys MW VPpel Ypel MWpel X : Q) (scen : string)
  (Vm b h : Q) (c : common) (inst : model) :
  Inhalation.pel_limiting_vapors Cvk VP Ys MW VPpel Ypel MWpel X scen Vm b h c
  = Ok inst ->
  scen = "user" /\
  exists cv cm ladd add apdr : Q,
    Inhalation.pel_vapors_Cv Cvk VP Ys MW VPpel (1 - Ys) MWpel X = Ok cv /\
    Inhalation.Cm_of_Cv cv MW Vm = Ok cm /\
    doses (cm * b * h) (AT c) c ladd add apdr /\
    inst = {| route := "inhalation";
              model_name :=
                "OSHA PEL-limiting Model for Substance-specific Vapors";
              scenario := "user";
              inputs := (common_inputs (AT c) c
                         ++ [("Cvk", VNum Cvk); ("VP", VNum VP);
                             ("Ys", VNum Ys); ("MW", VNum MW);
                             ("VPpel", VNum VPpel);
                             ("Ypel", VNum (1 - Ys));
                             ("MWpel", VNum MWpel); ("X", VNum X);
                             ("Vm", VNum Vm); ("b", VNum b);
                             ("h", VNum h)])%list;
              outputs := (("Cv", VNum cv) :: ("Cm", VNum cm)
                          :: exposure_results "I" c (cm * b * h)
                               ladd add apdr)%list |}.
Proof.
  unfold Inhalation.pel_limiting_vapors, Inhalation.inhalation_model_init,
    Inhalation.user_only, doses.
  intros H. invert_ok H; give_instance.
Qed.

Lemma pnor_model_inv (name : string) (Ys : Q) (scen : string)
  (KCk b h : Q) (c : common) (inst : model) :
  Inhalation.pnor_model name Ys scen KCk b h c = Ok inst ->
  scen = "user" /\
  exists ladd add apdr : Q,
    doses (KCk * Ys * b * h) (AT c) c ladd add apdr /\
    inst = {| route := "inhalation"; model_name := name;
              scenario := "user";
              inputs := (common_inputs (AT c) c
                         ++ [("KCk", VNum KCk); ("Ys", VNum Ys);
                             ("b", VNum b); ("h", VNum h)])%list;
              outputs := (("Cm", VNum (KCk * Ys))
                          :: exposure_results "I" c (KCk * Ys * b * h)
                               ladd add apdr)%list |}.
Proof.
  unfold Inhalation.pnor_model, Inhalation.inhalation_model_init,
    Inhalation.user_only, doses.
  intros H. invert_ok H; give_instance.
Qed.

Lemma spray_model_inv (name : string) (Ymist : Q) (scen : string)
  (KCk : Q) (Ys : option Q) (Ysf b h : Q) (c : common) (inst : model) :
  Inhalation.spray_model name Ymist scen KCk Ys Ysf b h c = Ok inst ->
  exists kck ys ladd add apdr : Q,
    In (normalize scen, kck)
      [("conventional,downdraft", 2.3); ("conventional,crossdraft", 15);
       ("hvlp,downdraft", 1.9); ("hvlp,crossdraft", 15); ("user", KCk)] /\
    resolved_Ys Ys Ymist Ysf ys /\
    doses (kck * ys * b * h) (AT c) c ladd add apdr /\
    inst = {| route := "inhalation"; model_name := name;
              scenario := normalize scen;
              inputs := (common_inputs (AT c) c
                         ++ [("KCk", VNum kck); ("Ymist", VNum Ymist);
                             ("Ysf", VNum Ysf); ("Ys", VNum ys);
                             ("b", VNum b); ("h", VNum h)])%list;
              outputs := (("Cm", VNum (kck * ys))
                          :: exposure_results "I" c (kck * ys * b * h)
                               ladd add apdr)%list |}.
Proof.
  unfold Inhalation.spray_model, Inhalation.inhalation_model_init,
    Inhalation.spray_scenarios, Inhalation.resolve_Ys, doses, resolved_Ys.
  intros H. destruct Ys; invert_ok H; pydiv_facts; give_instance.
Qed.

Lemma automobile_spray_inv (scen : string) (KCk b h : Q) (c : common)
  (inst : model) :
  Inhalation.automobile_spray_coating scen KCk b h c = Ok inst ->
  exists kck ladd add apdr : Q,
    In (normalize scen, kck)
      [("low,conventional,crossdraft", 0.05);
       ("high,conventional,crossdraft", 18.4);
       ("low,conventional,downdraft", 0.01);
       ("high,conventional,downdraft", 3.7);
       ("low,hvlp,crossdraft", 1.0); ("high,hvlp,crossdraft", 5.2);
       ("low,hvlp,downdraft", 0.6); ("high,hvlp,downdraft", 1.4)] /\
    doses (kck * b * h) (AT c) c ladd add apdr /\
    inst = {| route := "inhalation";
              model_name := "EPA-OPPT Automobile Spray Coating";
              scenario := normalize scen;
              inputs := (common_inputs (AT c) c
                         ++ [("KCk", VNum kck); ("b", VNum b);
                             ("h", VNum h)])%list;
              outputs := (("Cm", VNum kck)
                          :: exposure_results "I" c (kck * b * h)
                               ladd add apdr)%list |}.
Proof.
  unfold Inhalation.automobile_spray_coating,
    Inhalation.inhalation_model_init, Inhalation.automobile_spray_scenarios,
    doses.
  intros H. invert_ok H; give_instance.
Qed.

Lemma uv_roll_inv (Ymist : Q) (scen : string) (KCk : Q) (Ys : option Q)
  (Ysf b h : Q) (c : common) (inst : model) :
  Inhalation.uv_roll_coating Ymist scen KCk Ys Ysf b h c = Ok inst ->
  exists kck ys ladd add apdr : Q,
    In (normalize scen, kck)
      [("low end of range", 0.04); ("high end of range", 0.26)] /\
    resolved_Ys Ys Ymist Ysf ys /\
    doses (kck * ys * b * h) (AT c) c ladd add apdr /\
    inst = {| route := "inhalation";
              model_name := "EPA-OPPT UV Roll Coating";
              scenario := normalize scen;
              inputs := (common_inputs (AT c) c
                         ++ [("KCk", VNum kck); ("Ymist", VNum Ymist);
                             ("Ysf", VNum Ysf); ("Ys", VNum ys);
                             ("b", VNum b); ("h", VNum h)])%list;
              outputs := (("Cm", VNum (kck * ys))
                          :: exposure_results "I" c (kck * ys * b * h)
                               ladd add apdr)%list |}.
Proof.
  unfold Inhalation.uv_roll_coating, Inhalation.inhalation_model_init,
    Inhalation.uv_roll_scenarios, Inhalation.resolve_Ys, doses, resolved_Ys.
  intros H. destruct Ys; invert_ok H; pydiv_facts; give_instance.
Qed.

Lemma user_defined_inhalation_inv (Cv MW h : Q) (scen : string)
  (Cm : option Q) (Vm Ys b : Q) (c : common) (inst : model) :
  Inhalation.user_defined_inhalation Cv MW h scen Cm Vm Ys b c = Ok inst ->
  scen = "user" /\
  exists cm ladd add apdr : Q,
    match Cm with
    | Some x => cm = x
    | None => cm = Cv * MW / Vm * Ys /\ ~ Vm == 0
    end /\
    0 <= cm /\
    doses (cm * b * h) (AT c) c ladd add apdr /\
    inst = {| route := "inhalation"; model_name := "User-defined Inhalation";
              scenario := "user";
              inputs := (common_inputs (AT c) c
                         ++ [("Cv", VNum Cv); ("MW", VNum MW);
                             ("Vm", VNum Vm); ("Ys", VNum Ys);
                             ("Cm", VNum cm); ("b", VNum b);
                             ("h", VNum h)])%list;
              outputs := exposure_results "I" c (cm * b * h) ladd add apdr |}.
Proof.
  unfold Inhalation.user_defined_inhalation,
    Inhalation.inhalation_model_init, Inhalation.user_only, doses.
  intros H. destruct Cm; invert_ok H; pydiv_facts; give_instance.
Qed.

(** ** Properties of every built instance *)

(** From a successful call of the catalog to the instance it returns. *)
Ltac use_inv H :=
  first
    [ apply liquid_model_inv in H | apply solids_model_inv in H
    | apply user_defined_dermal_inv in H | apply small_volume_inv in H
    | apply mass_balance_inv in H | apply pel_particulates_inv in H
    | apply pel_vapors_inv in H | apply pnor_model_inv in H
    | apply spray_model_inv in H | apply automobile_spray_inv in H
    | apply uv_roll_inv in H | apply user_defined_inhalation_inv in H ];
  repeat match goal with
    | H' : exists _, _ |- _ => destruct H' as [? H']
    | H' : _ /\ _ |- _ => destruct H' as [? H']
    end;
  subst.

Lemma construct_instance (m : call) (inst : model) :
  construct m = Ok inst ->
  exists pdr ladd add apdr : Q, instance_form m inst pdr ladd add apdr.
Proof.
  intros H. unfold instance_form.
  destruct m;
    cbn [construct display_of is_dermal stored_AT common_of scenario_of
           own_input_keys intermediate_keys] in *;
    use_inv H; do 4 eexists; repeat (split; [reflexivity |]); assumption.
Qed.

Lemma bound_in_false (l : list string) (s : string) :
  bound_in l s = false <-> ~ In s l.
Proof.
  rewrite <- bound_in_In. destruct (bound_in l s); split; congruence.
Qed.

Lemma no_dup_NoDup (l : list string) : no_dup l = true -> NoDup l.
Proof.
  induction l as [| k l IH]; cbn; [constructor |].
  rewrite andb_true_iff, negb_true_iff, bound_in_false.
  intros [Hk Hl]. constructor; auto.
Qed.

Lemma dict_get_None (k : string) (d : dict) :
  dict_get k d = None <-> ~ In k (dict_keys d).
Proof.
  induction d as [| [k' v] d IH]; cbn; [tauto |].
  destruct (String.eqb k k') eqn:E.
  - apply String.eqb_eq in E. subst. split; [discriminate | tauto].
  - apply String.eqb_neq in E. rewrite IH. split; [| tauto].
    intros Hn [He | Hin]; [congruence | tauto].
Qed.

Lemma dict_get_app (k : string) (d1 d2 : dict) :
  dict_get k (d1 ++ d2)%list
  = match dict_get k d1 with
    | Some v => Some v
    | None => dict_get k d2
    end.
Proof.
  induction d1 as [| [k' v] d1 IH]; cbn; [reflexivity |].
  destruct (String.eqb k k'); [reflexivity | exact IH].
Qed.

Lemma dict_keys_firstn (n : nat) (d : dict) :
  dict_keys (firstn n d) = firstn n (dict_keys d).
Proof. unfold dict_keys. symmetry. apply firstn_map. Qed.

Lemma firstn_length_app {A : Type} (l1 l2 : list A) :
  firstn (length l1) (l1 ++ l2) = l1.
Proof. induction l1 as [| a l1 IH]; cbn; [reflexivity | now rewrite IH]. Qed.

(** Lookup in [outputs] of a key that is no intermediate quantity. *)
Lemma outputs_lookup (m : call) (inst : model) (pdr ladd add apdr : Q)
  (k : string) :
  instance_form m inst pdr ladd add apdr ->
  ~ In k (intermediate_keys m) ->
  dict_get k (outputs inst)
  = dict_get k (exposure_results (display_of m) (common_of m) pdr ladd add
                  apdr).
Proof.
  intros (_ & _ & _ & _ & Hskip & Hkeys & _) Hk.
  rewrite <- (firstn_skipn (length (intermediate_keys m)) (outputs inst)).
  rewrite dict_get_app, Hskip.
  assert (Hn : dict_get k (firstn (length (intermediate_keys m))
                             (outputs inst)) = None).
  { apply dict_get_None. rewrite dict_keys_firstn, Hkeys.
    now rewrite firstn_length_app. }
  now rewrite Hn.
Qed.

(** Lookup in [inputs] of a family-common key. *)
Lemma inputs_lookup (m : call) (inst : model) (pdr ladd add apdr : Q)
  (k : string) (v : value) :
  instance_form m inst pdr ladd add apdr ->
  dict_get k (common_inputs (stored_AT m) (common_of m)) = Some v ->
  dict_get k (inputs inst) = Some v.
Proof.
  intros (_ & _ & Hfirst & _) Hk.
  rewrite <- (firstn_skipn 7 (inputs inst)), dict_get_app, Hfirst.
  now rewrite Hk.
Qed.

Lemma display_not_intermediate (m : call) (k : string) :
  In k (output_tail (display_of m)) -> ~ In k (intermediate_keys m).
Proof.
  destruct m; cbn; intuition (subst; discriminate).
Qed.

(** X1 (output naming): the outputs of every built instance are the
    intermediate quantities of the model ([Cv], [Cm], or none) followed by
    [NW], [LADD], [ADD], [APDR] and the dose rate under its display name,
    [Dexp] for a dermal and [I] for an inhalation model; the internal name
    [PDR] and the display name of the other family are no keys. *)
Theorem outputs_named_by_family (m : call) (inst : model) :
  construct m = Ok inst ->
  dict_keys (outputs inst)
  = (intermediate_keys m ++ output_tail (display_of m))%list /\
  incl (intermediate_keys m) ["Cv"; "Cm"] /\
  dict_get "PDR" (outputs inst) = None /\
  dict_get (other_display (display_of m)) (outputs inst) = None /\
  route inst = (if is_dermal m then "dermal" else "inhalation").
Proof.
  intros H. destruct (construct_instance m inst H)
    as (pdr & ladd & add & apdr & Hr & _ & _ & _ & _ & Hkeys & _).
  split; [exact Hkeys |].
  split; [destruct m; cbn; intros x Hx; cbn in *; tauto |].
  split; [| split; [| exact Hr]].
  - apply dict_get_None. rewrite Hkeys.
    destruct m; cbn; intuition discriminate.
  - apply dict_get_None. rewrite Hkeys.
    destruct m; cbn; intuition discriminate.
Qed.

Lemma outputs_named_witness :
  exists inst : model,
    construct (MassBalance 1 92.141 28.4 0.2 "user" 298 3000 0.5 24.45 1.25 8
                 440 (common_defaults 1)) = Ok inst /\
    dict_keys (outputs inst) = ["Cv"; "Cm"; "NW"; "LADD"; "ADD"; "APDR"; "I"]
    /\ dict_get "PDR" (outputs inst) = None.
Proof.
  destruct (construct (MassBalance 1 92.141 28.4 0.2 "user" 298 3000 0.5
                         24.45 1.25 8 440 (common_defaults 1)))
    as [inst | e] eqn:E; [| vm_compute in E; discriminate E].
  destruct (outputs_named_by_family _ _ E) as (Hkeys & _ & Hpdr & _).
  exists inst. auto.
Defined.

(** X2 (separation of the two mappings): in every built instance the
    inputs are the seven family-common keys followed by the model's own,
    no key occurs twice or in both mappings, and none of the bookkeeping
    names ([self], [model_name], [equations], [scenario], [route],
    [skips]) is a key of either. *)
Theorem inputs_outputs_separate (m : call) (inst : model) :
  construct m = Ok inst ->
  dict_keys (inputs inst) = (common_keys ++ own_input_keys m)%list /\
  NoDup (dict_keys (inputs inst) ++ dict_keys (outputs inst))%list /\
  (forall k : string,
      dict_get k (inputs inst) <> None -> dict_get k (outputs inst) = None) /\
  (forall k : string,
      In k skip0 ->
      dict_get k (inputs inst) = None /\ dict_get k (outputs inst) = None).
Proof.
  intros H. destruct (construct_instance m inst H)
    as (pdr & ladd & add & apdr & _ & _ & _ & Hin & _ & Hout & _).
  split; [exact Hin |].
  assert (Hnd : NoDup (dict_keys (inputs inst) ++ dict_keys (outputs inst))%list).
  { rewrite Hin, Hout. apply no_dup_NoDup. destruct m; reflexivity. }
  split; [exact Hnd |]. split.
  - intros k Hk. apply dict_get_None. intros Hko.
    apply Hk. apply dict_get_None. intros Hki.
    revert Hnd Hki Hko.
    generalize (dict_keys (inputs inst)) (dict_keys (outputs inst)).
    intros l1 l2 Hnd H1 H2. induction l1 as [| a l1 IH]; [destruct H1 |].
    cbn in Hnd. inversion Hnd as [| ? ? Hna Hnd']; subst.
    destruct H1 as [-> | H1]; [| auto].
    apply Hna. apply in_or_app. now right.
  - intros k Hk.
    assert (Hs : forallb
                   (fun k => negb (bound_in (dict_keys (inputs inst)
                                             ++ dict_keys (outputs inst))%list k))
                   skip0 = true).
    { rewrite Hin, Hout. destruct m; reflexivity. }
    rewrite forallb_forall in Hs.
    specialize (Hs k Hk). apply negb_true_iff, bound_in_false in Hs.
    split; apply dict_get_None; intros Hx; apply Hs, in_or_app; auto.
Qed.

Lemma inputs_outputs_separate_witness :
  exists inst : model,
    construct (UserDefinedInhalation 500 92.141 8 "user" None 24.45 1 1.25
                 (common_defaults 1)) = Ok inst /\
    dict_get "Cm" (inputs inst) <> None /\
    dict_get "Cm" (outputs inst) = None /\
    dict_get "route" (inputs inst) = None.
Proof.
  destruct (construct (UserDefinedInhalation 500 92.141 8 "user" None 24.45
                         1 1.25 (common_defaults 1)))
    as [inst | e] eqn:E; [| vm_compute in E; discriminate E].
  destruct (inputs_outputs_separate _ _ E) as (_ & _ & Hsep & Hskip).
  assert (Hcm : dict_get "Cm" (inputs inst) <> None).
  { vm_compute in E. injection E as <-. discriminate. }
  exists inst. split; [reflexivity |]. split; [exact Hcm |].
  split; [now apply Hsep |].
  apply (Hskip "route"). cbn. tauto.
Defined.

(** ** The results of the shared arithmetic *)

Lemma daily_dose_ok (PDR ED EY BW t r : Q) :
  Exposures.daily_dose PDR ED EY BW t = Ok r ->
  r = PDR * ED * EY / (BW * t * 365) /\ ~ BW == 0 /\ ~ t == 0.
Proof.
  unfold Exposures.daily_dose, Exposures.days_per_year. intros H.
  apply pydiv_ok in H. destruct H as [-> Hnz].
  split; [reflexivity |].
  split; intros Hz; apply Hnz; rewrite Hz; ring.
Qed.

Lemma acute_ok (PDR BW r : Q) :
  Exposures.acute_potential_dose_rate PDR BW = Ok r ->
  r = PDR / BW /\ ~ BW == 0.
Proof. unfold Exposures.acute_potential_dose_rate. apply pydiv_ok. Qed.

(** X3 (shared results): every built instance reports, for its dose rate
    [pdr], [NW = NWexp * NS], [LADD = pdr*ED*EY / (BW*ATc*365)],
    [ADD = pdr*ED*EY / (BW*AT*365)] with the stored averaging time, and
    [APDR = pdr / BW]; and it reports the family-common arguments among its
    inputs as they were passed. *)
Theorem shared_results_reported (m : call) (inst : model) :
  construct m = Ok inst ->
  let c := common_of m in
  (exists pdr : Q,
      dict_get (display_of m) (outputs inst) = Some (VNum pdr) /\
      dict_get "NW" (outputs inst) = Some (VNum (NWexp c * NS c)) /\
      dict_get "LADD" (outputs inst)
      = Some (VNum (pdr * ED c * EY c / (BW c * ATc c * 365))) /\
      dict_get "ADD" (outputs inst)
      = Some (VNum (pdr * ED c * EY c / (BW c * stored_AT m * 365))) /\
      dict_get "APDR" (outputs inst) = Some (VNum (pdr / BW c))) /\
  dict_get "ED" (inputs inst) = Some (VNum (ED c)) /\
  dict_get "NWexp" (inputs inst) = Some (VNum (NWexp c)) /\
  dict_get "NS" (inputs inst) = Some (VNum (NS c)) /\
  dict_get "EY" (inputs inst) = Some (VNum (EY c)) /\
  dict_get "BW" (inputs inst) = Some (VNum (BW c)) /\
  dict_get "ATc" (inputs inst) = Some (VNum (ATc c)).
Proof.
  intros H c. destruct (construct_instance m inst H)
    as (pdr & ladd & add & apdr & Hform).
  pose proof Hform as (_ & _ & _ & _ & _ & _ & Hl & Ha & Hp).
  apply daily_dose_ok in Hl, Ha. apply acute_ok in Hp.
  destruct Hl as [-> _], Ha as [-> _], Hp as [-> _].
  split.
  - exists pdr.
    repeat split;
      (rewrite (outputs_lookup _ _ _ _ _ _ _ Hform);
       [ unfold display_of; destruct (is_dermal m); reflexivity
       | apply display_not_intermediate; unfold display_of;
         destruct (is_dermal m); cbn; tauto ]).
  - repeat split; apply (inputs_lookup _ _ _ _ _ _ _ _ Hform); reflexivity.
Qed.

Lemma shared_results_witness :
  exists (inst : model) (pdr : Q),
    construct (AutomobileSprayCoating "low,hvlp,downdraft" 18.4 1.25 8
                 (common_defaults 3)) = Ok inst /\
    dict_get "I" (outputs inst) = Some (VNum pdr) /\
    dict_get "NW" (outputs inst) = Some (VNum (3 * 1)) /\
    dict_get "APDR" (outputs inst) = Some (VNum (pdr / 70)).
Proof.
  destruct (construct (AutomobileSprayCoating "low,hvlp,downdraft" 18.4 1.25
                         8 (common_defaults 3)))
    as [inst | e] eqn:E; [| vm_compute in E; discriminate E].
  destruct (shared_results_reported _ _ E)
    as ((pdr & Hd & Hnw & _ & _ & Hap) & _).
  exists inst, pdr. auto.
Defined.

(** X4 (a body weight of zero): the lower-bound check on [BW] admits 0,
    yet from a body weight of zero no instance is built, whatever the
    model type and the other arguments: the construction fails. *)
Theorem zero_body_weight_never_builds (m : call) :
  BW (common_of m) == 0 ->
  Checks.check_l "BW" (BW (common_of m)) 0 = Ok (BW (common_of m)) /\
  exists e : exn, construct m = Raise e.
Proof.
  intros Hz. split.
  - apply check_l_above. rewrite Hz. apply Qle_refl.
  - destruct (construct m) as [inst | e] eqn:E; [| eauto].
    exfalso. destruct (construct_instance m inst E)
      as (pdr & ladd & add & apdr & _ & _ & _ & _ & _ & _ & Hl & _).
    apply daily_dose_ok in Hl. destruct Hl as (_ & Hbw & _). tauto.
Qed.

Lemma zero_body_weight_witness :
  Checks.check_l "BW" 0 0 = Ok 0 /\
  exists e : exn,
    construct (TotalPnorPelLimiting 0.5 "user" 15 1.25 8
                 {| ED := 1; NWexp := 1; NS := 1; EY := 40; BW := 0;
                    ATc := 70; AT := 40 |}) = Raise e.
Proof.
  apply (zero_body_weight_never_builds
           (TotalPnorPelLimiting 0.5 "user" 15 1.25 8
              {| ED := 1; NWexp := 1; NS := 1; EY := 40; BW := 0;
                 ATc := 70; AT := 40 |})).
  reflexivity.
Defined.

(** X23 (an averaging time of zero): with a finite body weight, a lifetime
    averaging time [ATc] of zero, or a stored averaging time of zero (the
    [EY] of a dermal call, the [AT] of an inhalation call), builds no
    instance: the divisor [BW * t * 365] of [daily_dose] is then zero.
    The numbers of the embedding are finite; an infinite [BW], which a
    caller of the code can pass, is outside this statement. *)
Theorem zero_averaging_time_never_builds (m : call) :
  ATc (common_of m) == 0 \/ stored_AT m == 0 ->
  exists e : exn, construct m = Raise e.
Proof.
  intros Hz. destruct (construct m) as [inst | e] eqn:E; [| eauto].
  exfalso. destruct (construct_instance m inst E)
    as (pdr & ladd & add & apdr & _ & _ & _ & _ & _ & _ & Hl & Ha & _).
  apply daily_dose_ok in Hl, Ha.
  destruct Hl as (_ & _ & Hatc), Ha as (_ & _ & Ht). tauto.
Qed.

Lemma zero_averaging_time_witness :
  (exists e : exn,
      construct (OneHandLiquidContact 0.1 "high" 535 2.1 1
                   {| ED := 1; NWexp := 1; NS := 1; EY := 0; BW := 70;
                      ATc := 70; AT := 40 |}) = Raise e) /\
  Checks.check_l "EY" 0 0 = Ok 0.
Proof.
  split; [| reflexivity].
  apply zero_averaging_time_never_builds. right. reflexivity.
Defined.

(** ** Spelling of the scenario *)

Lemma check_scenario_shown (g : list string) (tested s1 s2 : string)
  (l : list string) :
  bound_in (g ++ builtins) "ScenarioException" = false ->
  check_scenario g tested s1 l = check_scenario g tested s2 l.
Proof.
  intros Hg. unfold check_scenario.
  destruct (negb (bound_in l tested)); [| reflexivity].
  now rewrite !raise_scenario_unbound.
Qed.

Ltac same_scenario Hn :=
  rewrite Hn;
  try match goal with
  | |- ?lhs = ?rhs =>
      match lhs with
      | context [check_scenario ?g ?t ?s1 ?l] =>
          match rhs with
          | context [check_scenario g t ?s2 l] =>
              rewrite (check_scenario_shown g t s1 s2 l) by reflexivity
          end
      end
  end;
  reflexivity.

(** X6 (spelling of the scenario): a model that normalises before testing
    reads its [scenario] argument through the normal form only.  Two calls
    that differ in the spelling of the scenario, with the same normal form
    (lower case, [", "] for [","]), give the same result, instance or
    exception alike. *)
Theorem scenario_spelling_irrelevant (m : call) (s1 s2 : string) :
  tests_raw m = false ->
  normalize s1 = normalize s2 ->
  construct (with_scenario s1 m) = construct (with_scenario s2 m).
Proof.
  intros Hraw Hn.
  destruct m; try discriminate Hraw; cbn [with_scenario construct];
    unfold Dermal.one_hand_liquid_contact, Dermal.two_hand_liquid_contact,
      Dermal.two_hand_liquid_immersion, Dermal.two_hand_solids_contact,
      Dermal.two_hand_container_surface_contact, Dermal.liquid_model,
      Dermal.solids_model, Dermal.user_defined_dermal,
      Inhalation.small_volume_solids_handling, Inhalation.mass_balance,
      Inhalation.automobile_oem_spray_coating,
      Inhalation.automobile_refinish_spray_coating, Inhalation.spray_model,
      Inhalation.automobile_spray_coating, Inhalation.uv_roll_coating;
    same_scenario Hn.
Qed.

Lemma scenario_spelling_witness :
  construct (AutomobileSprayCoating "High, HVLP, Downdraft" 1 1.25 8
               (common_defaults 1))
  = construct (AutomobileSprayCoating "high,hvlp,downdraft" 1 1.25 8
                 (common_defaults 1)).
Proof.
  apply (scenario_spelling_irrelevant
           (AutomobileSprayCoating "" 1 1.25 8 (common_defaults 1))
           "High, HVLP, Downdraft" "high,hvlp,downdraft");
    reflexivity.
Defined.

(** ** Units of the reported keys *)

(** X7 (units): the unit table of [reports] has an entry for every key
    under which a built instance stores an input or an output, with one
    exception: [SQu], which the two solids models, and only they, store
    among their inputs; for it the lookup fails with a [KeyError]. *)
Theorem units_cover_all_but_SQu (m : call) (inst : model) :
  construct m = Ok inst ->
  (forall k : string,
      In k (dict_keys (inputs inst) ++ dict_keys (outputs inst))%list ->
      k <> "SQu" -> exists u : string, Reports.__units k = Ok u) /\
  (In "SQu" (dict_keys (inputs inst) ++ dict_keys (outputs inst))%list
   <-> is_solids m = true) /\
  Reports.__units "SQu" = Raise (KeyError "SQu").
Proof.
  intros H. destruct (construct_instance m inst H)
    as (pdr & ladd & add & apdr & _ & _ & _ & Hin & _ & Hout & _).
  rewrite Hin, Hout. split; [| split; [| reflexivity]].
  - intros k Hk Hne.
    assert (Hall : forallb
                     (fun k => String.eqb k "SQu"
                               || match Reports.assoc k Reports.units with
                                  | Some _ => true
                                  | None => false
                                  end)
                     ((common_keys ++ own_input_keys m)
                      ++ intermediate_keys m ++ output_tail (display_of m))
                   = true).
    { destruct m; reflexivity. }
    rewrite forallb_forall in Hall. specialize (Hall k Hk).
    apply orb_true_iff in Hall. destruct Hall as [He | Hu].
    + apply String.eqb_eq in He. contradiction.
    + unfold Reports.__units.
      destruct (Reports.assoc k Reports.units); [eauto | discriminate].
  - rewrite <- bound_in_In. destruct m; cbn; split; congruence.
Qed.

Lemma units_witness :
  exists inst : model,
    construct (TwoHandSolidsContact 0.1 "high" 3100 1 (common_defaults 1))
    = Ok inst /\
    In "SQu" (dict_keys (inputs inst) ++ dict_keys (outputs inst))%list /\
    Reports.__units "SQu" = Raise (KeyError "SQu") /\
    exists u : string, Reports.__units "Yderm" = Ok u.
Proof.
  destruct (construct (TwoHandSolidsContact 0.1 "high" 3100 1
                         (common_defaults 1)))
    as [inst | e] eqn:E; [| vm_compute in E; discriminate E].
  destruct (units_cover_all_but_SQu _ _ E) as (Hall & Hs & Hk).
  exists inst. split; [reflexivity |].
  split; [now apply Hs |]. split; [exact Hk |].
  apply Hall; [| discriminate].
  vm_compute in E. injection E as <-. cbn. tauto.
Defined.

(** ** Presets of the scenarios *)

Ltac pick_preset H :=
  cbn [In] in H;
  repeat (destruct H as [H | H];
          [ injection H as H ? | ]);
  [ .. | contradiction ].

(** X8 (scenario presets): where a constructor resolves an argument from
    the scenario, the instance stores among its inputs the preset of the
    stored scenario, whatever the caller passed for that argument; the
    caller's value is stored only under the scenario ['user'], which the
    automobile spray and the UV roll coating models do not list. *)
Theorem scenario_preset_stored (m : call) (inst : model) (key : string)
  (table : list (string * Q)) (user : option Q) :
  construct m = Ok inst ->
  scenario_parameter m = Some (key, table, user) ->
  exists v : Q,
    dict_get key (inputs inst) = Some (VNum v) /\
    match preset (scenario inst) table with
    | Some p => v = p
    | None => scenario inst = "user" /\ user = Some v
    end.
Proof.
  intros H Hp.
  destruct m; cbn [scenario_parameter] in Hp; try discriminate Hp;
    injection Hp as <- <- <-; cbn [construct] in H; use_inv H;
    match goal with
    | Hin : In _ _ |- _ => pick_preset Hin
    end;
    subst; eexists; cbn [scenario inputs];
    match goal with
    | Hs : _ = normalize _ |- _ => rewrite <- Hs
    end;
    (split; [reflexivity | cbn; auto]).
Qed.

Lemma scenario_preset_witness :
  exists (inst : model) (v : Q),
    construct (TwoHandLiquidImmersion 0.1 "High" 1070 99 1
                 (common_defaults 1)) = Ok inst /\
    dict_get "Qu" (inputs inst) = Some (VNum v) /\
    v = 10.3.
Proof.
  destruct (construct (TwoHandLiquidImmersion 0.1 "High" 1070 99 1
                         (common_defaults 1)))
    as [inst | e] eqn:E; [| vm_compute in E; discriminate E].
  destruct (scenario_preset_stored _ _ _ _ _ E eq_refl) as (v & Hv & Hp).
  exists inst, v. split; [reflexivity |]. split; [exact Hv |].
  assert (Hs : scenario inst = "high").
  { vm_compute in E. injection E as <-. reflexivity. }
  rewrite Hs in Hp. exact Hp.
Defined.

(** X9 (the dose rate is the product of what is reported): the dose rate
    among the outputs of a built instance is the product of the values the
    instance itself reports under the keys that [potential_dose_rate]
    multiplies: [S], [Qu], [Yderm], [FT], or [SQu], [Yderm], [FT] for the
    solids models, [EF], [AH], [Ys], [Sd] for small volume solids handling,
    [Cm], [b], [h] else. *)
Theorem dose_rate_from_report (m : call) (inst : model) :
  construct m = Ok inst ->
  exists (x : Q) (xs : list Q),
    reported_numbers (factors m) inst = Some (x :: xs) /\
    dict_get (display_of m) (outputs inst)
    = Some (VNum (fold_left Qmult xs x)).
Proof.
  intros H.
  destruct m; cbn [construct] in H; use_inv H;
    unfold reported_numbers, factors, reported;
    cbn [is_solids is_dermal inputs outputs display_of];
    eexists; eexists; (split; [cbn; reflexivity |]); reflexivity.
Qed.

Lemma dose_rate_from_report_witness :
  exists (inst : model) (x : Q) (xs : list Q),
    construct (RespirablePnorPelLimiting 0.5 "user" 5 1.25 8
                 (common_defaults 1)) = Ok inst /\
    reported_numbers ["Cm"; "b"; "h"] inst = Some (x :: xs) /\
    dict_get "I" (outputs inst) = Some (VNum (fold_left Qmult xs x)).
Proof.
  destruct (construct (RespirablePnorPelLimiting 0.5 "user" 5 1.25 8
                         (common_defaults 1)))
    as [inst | e] eqn:E; [| vm_compute in E; discriminate E].
  destruct (dose_rate_from_report _ _ E) as (x & xs & Hm & Hd).
  exists inst, x, xs. auto.
Defined.

(** ** The models one by one *)

(** X10 ([user_defined_dermal]): the surface area and the quantity on skin
    are resolved together from the scenario, [S = 535], [Qu = 0.7] under
    ['low'] and [S = 1070], [Qu = 2.1] under ['high'], the caller's pair
    under ['user'] only; the instance reports the resolved pair and
    [Dexp = S * Qu * Yderm * FT] of it. *)
Theorem user_defined_dermal_presets (Yderm : Q) (scen : string)
  (S Qu FT : Q) (c : common) (inst : model) :
  Dermal.user_defined_dermal Yderm scen S Qu FT c = Ok inst ->
  exists s qu : Q,
    dict_get "S" (inputs inst) = Some (VNum s) /\
    dict_get "Qu" (inputs inst) = Some (VNum qu) /\
    dict_get "Dexp" (outputs inst) = Some (VNum (s * qu * Yderm * FT)) /\
    (scenario inst = "low" /\ s = 535 /\ qu = 0.7 \/
     scenario inst = "high" /\ s = 1070 /\ qu = 2.1 \/
     scenario inst = "user" /\ s = S /\ qu = Qu).
Proof.
  intros H. apply user_defined_dermal_inv in H.
  destruct H as (s & qu & ladd & add & apdr & Hin & _ & ->).
  exists s, qu. repeat (split; [reflexivity |]).
  cbn [scenario In] in *.
  destruct Hin as [Hin | [Hin | [Hin | []]]]; injection Hin as <- <- <-; auto.
Qed.

Lemma user_defined_dermal_witness :
  exists (inst : model) (s qu : Q),
    Dermal.user_defined_dermal 0.1 "low" 1070 2.1 1 (common_defaults 1)
    = Ok inst /\
    dict_get "S" (inputs inst) = Some (VNum s) /\
    dict_get "Qu" (inputs inst) = Some (VNum qu) /\
    s = 535 /\ qu = 0.7.
Proof.
  destruct (Dermal.user_defined_dermal 0.1 "low" 1070 2.1 1
              (common_defaults 1)) as [inst | e] eqn:E;
    [| vm_compute in E; discriminate E].
  destruct (user_defined_dermal_presets _ _ _ _ _ _ _ E)
    as (s & qu & Hs & Hq & _ & Hcase).
  exists inst, s, qu. split; [reflexivity |].
  split; [exact Hs |]. split; [exact Hq |].
  assert (Hscen : scenario inst = "low").
  { vm_compute in E. injection E as <-. reflexivity. }
  rewrite Hscen in Hcase.
  destruct Hcase as [(_ & -> & ->) | [(Hd & _) | (Hd & _)]];
    [auto | discriminate Hd | discriminate Hd].
Defined.

(** X11 ([pel_limiting_particulates]): a built instance reports
    [Cm = KCk * Ys / Ypel] and [I = Cm * b * h], and its [Ypel] is not
    zero: with [Ypel = 0], which the bounds check on [Ypel] lets through,
    no instance is built. *)
Theorem pel_particulates_concentration (Ys : Q) (scen : string)
  (KCk Ypel b h : Q) (c : common) (inst : model) :
  Inhalation.pel_limiting_particulates Ys scen KCk Ypel b h c = Ok inst ->
  ~ Ypel == 0 /\
  Checks.check_ul "Ypel" 0 0 1 = Ok 0 /\
  dict_get "Cm" (outputs inst) = Some (VNum (KCk * Ys / Ypel)) /\
  dict_get "I" (outputs inst) = Some (VNum (KCk * Ys / Ypel * b * h)).
Proof.
  intros H. apply pel_particulates_inv in H.
  destruct H as (_ & cm & ladd & add & apdr & Hcm & _ & ->).
  apply pydiv_ok in Hcm. destruct Hcm as [-> Hnz].
  repeat split; [exact Hnz].
Qed.

Lemma pel_particulates_witness :
  exists inst : model,
    Inhalation.pel_limiting_particulates 0.5 "user" 15 0.25 1.25 8
      (common_defaults 1) = Ok inst /\
    dict_get "Cm" (outputs inst) = Some (VNum (15 * 0.5 / 0.25)).
Proof.
  destruct (Inhalation.pel_limiting_particulates 0.5 "user" 15 0.25 1.25 8
              (common_defaults 1)) as [inst | e] eqn:E;
    [| vm_compute in E; discriminate E].
  destruct (pel_particulates_concentration _ _ _ _ _ _ _ _ E)
    as (_ & _ & Hcm & _).
  exists inst. auto.
Defined.

Lemma Qdiv_nonzero (a b : Q) : ~ a / b == 0 -> ~ a == 0.
Proof.
  intros Hn Ha. apply Hn. rewrite Ha. unfold Qdiv. ring.
Qed.

Lemma Qmult_nonzero (a b : Q) : ~ a * b == 0 -> ~ a == 0 /\ ~ b == 0.
Proof.
  intros Hn. split; intros Hz; apply Hn; rewrite Hz; ring.
Qed.

Lemma pel_vapors_Cv_divisors (Cvk VP Ys MW VPpel Ypel MWpel X cv : Q) :
  Inhalation.pel_vapors_Cv Cvk VP Ys MW VPpel Ypel MWpel X = Ok cv ->
  ~ MW == 0 /\ ~ MWpel == 0 /\ ~ VPpel == 0 /\ ~ Ypel == 0.
Proof.
  unfold Inhalation.pel_vapors_Cv. intros Hcv.
  apply bind_ok in Hcv. destruct Hcv as (num & Hnum & Hcv).
  apply bind_ok in Hcv. destruct Hcv as (den & Hden & Hcv).
  apply bind_ok in Hcv. destruct Hcv as (ratio & Hratio & Hcv).
  apply pydiv_ok in Hnum, Hden, Hratio.
  destruct Hnum as [-> Hmw], Hden as [-> Hmwpel], Hratio as [-> Hden].
  apply Qdiv_nonzero, Qmult_nonzero in Hden. destruct Hden as [Hvp Hy].
  auto.
Qed.


Lemma one_minus_nonzero (y : Q) : ~ 1 - y == 0 -> ~ y == 1.
Proof. intros Hn Hy. apply Hn. rewrite Hy. reflexivity. Qed.

(** X12 ([pel_limiting_vapors], divisors that are not tested): a built
    instance has [MW], [MWpel] and [Vm] different from zero.  The
    constructor tests none of them against zero ([Vm = 0] passes its
    lower-bound check); each is the divisor of a quotient of its own, so a
    zero is met by the division only, whatever the other arguments.  The
    instance reports [Cm = Cv * MW / Vm] of the [Cv] it reports. *)
Theorem pel_vapors_divisors (Cvk VP Ys MW VPpel Ypel MWpel X : Q)
  (scen : string) (Vm b h : Q) (c : common) (inst : model) :
  Inhalation.pel_limiting_vapors Cvk VP Ys MW VPpel Ypel MWpel X scen Vm b h c
  = Ok inst ->
  (~ MW == 0 /\ ~ MWpel == 0 /\ ~ Vm == 0) /\
  Checks.check_l "Vm" 0 0 = Ok 0 /\
  exists cv : Q,
    dict_get "Cv" (outputs inst) = Some (VNum cv) /\
    dict_get "Cm" (outputs inst) = Some (VNum (cv * MW / Vm)).
Proof.
  intros H. apply pel_vapors_inv in H.
  destruct H as (_ & cv & cm & ladd & add & apdr & Hcv & Hcm & _ & ->).
  unfold Inhalation.Cm_of_Cv in Hcm. apply pydiv_ok in Hcm.
  destruct Hcm as [-> Hvm].
  apply pel_vapors_Cv_divisors in Hcv.
  destruct Hcv as (Hmw & Hmwpel & _ & _).
  split; [auto | split; [reflexivity |]].
  eexists. split; reflexivity.
Qed.

Lemma pel_vapors_divisors_witness :
  exists (inst : model) (cv : Q),
    Inhalation.pel_limiting_vapors 100 28.4 0.5 92.141 20 0.5 78.11 1 "user"
      24.45 1.25 8 (common_defaults 1) = Ok inst /\
    dict_get "Cv" (outputs inst) = Some (VNum cv) /\
    dict_get "Cm" (outputs inst) = Some (VNum (cv * 92.141 / 24.45)).
Proof.
  destruct (Inhalation.pel_limiting_vapors 100 28.4 0.5 92.141 20 0.5 78.11 1
              "user" 24.45 1.25 8 (common_defaults 1))
    as [inst | e] eqn:E; [| vm_compute in E; discriminate E].
  destruct (pel_vapors_divisors _ _ _ _ _ _ _ _ _ _ _ _ _ _ E)
    as (_ & _ & cv & Hcv & Hcm).
  exists inst, cv. auto.
Defined.

(** X24 ([pel_limiting_vapors], the pure substance): for finite arguments,
    a built instance has a weight fraction [Ys] different from 1 and a
    [VPpel] different from zero.  [Ys = 1] passes the bounds check on
    [Ys]; the constructor then stores [Ypel = 1 - Ys = 0], the quotient
    [VPpel * Ypel / MWpel] is zero, and the division by it fails.  The
    numbers of the embedding are finite; an infinite [VPpel] or a NaN,
    which a caller of the code can pass, are outside this statement. *)
Theorem pel_vapors_pure_substance (Cvk VP Ys MW VPpel Ypel MWpel X : Q)
  (scen : string) (Vm b h : Q) (c : common) (inst : model) :
  Inhalation.pel_limiting_vapors Cvk VP Ys MW VPpel Ypel MWpel X scen Vm b h c
  = Ok inst ->
  ~ Ys == 1 /\ ~ VPpel == 0 /\ Checks.check_ul "Ys" 1 0 1 = Ok 1.
Proof.
  intros H. apply pel_vapors_inv in H.
  destruct H as (_ & cv & cm & ladd & add & apdr & Hcv & _).
  apply pel_vapors_Cv_divisors in Hcv.
  destruct Hcv as (_ & _ & Hvp & Hy).
  apply one_minus_nonzero in Hy. auto.
Qed.

Lemma pel_vapors_pure_substance_witness :
  ~ 0.5 == 1 /\ ~ 20 == 0 /\ Checks.check_ul "Ys" 1 0 1 = Ok 1.
Proof.
  destruct (Inhalation.pel_limiting_vapors 100 28.4 0.5 92.141 20 0.5 78.11 1
              "user" 24.45 1.25 8 (common_defaults 1))
    as [inst | e] eqn:E; [| vm_compute in E; discriminate E].
  exact (pel_vapors_pure_substance _ _ _ _ _ _ _ _ _ _ _ _ _ _ E).
Defined.



(** X14 (the two PNOR models): a built [total_pnor_pel_limiting] or
    [respirable_pnor_pel_limiting] instance reports [Cm = KCk * Ys] of the
    [KCk] and [Ys] it reports among its inputs, and [I = KCk * Ys * b * h];
    the instance is built for the scenario ['user'] only. *)
Theorem pnor_concentration
  (f : Q -> string -> Q -> Q -> Q -> common -> result model)
  (Ys : Q) (scen : string) (KCk b h : Q) (c : common) (inst : model) :
  f = Inhalation.total_pnor_pel_limiting \/
  f = Inhalation.respirable_pnor_pel_limiting ->
  f Ys scen KCk b h c = Ok inst ->
  scen = "user" /\
  dict_get "KCk" (inputs inst) = Some (VNum KCk) /\
  dict_get "Ys" (inputs inst) = Some (VNum Ys) /\
  dict_get "Cm" (outputs inst) = Some (VNum (KCk * Ys)) /\
  dict_get "I" (outputs inst) = Some (VNum (KCk * Ys * b * h)).
Proof.
  intros Hf H.
  assert (Hb : exists name : string,
             Inhalation.pnor_model name Ys scen KCk b h c = Ok inst).
  { destruct Hf as [-> | ->]; eexists; exact H. }
  destruct Hb as (name & Hb).
  apply pnor_model_inv in Hb.
  destruct Hb as (-> & ladd & add & apdr & _ & ->).
  repeat split.
Qed.

Lemma pnor_concentration_witness :
  exists inst : model,
    Inhalation.respirable_pnor_pel_limiting 0.5 "user" 5 1.25 8
      (common_defaults 1) = Ok inst /\
    dict_get "Cm" (outputs inst) = Some (VNum (5 * 0.5)) /\
    dict_get "I" (outputs inst) = Some (VNum (5 * 0.5 * 1.25 * 8)).
Proof.
  destruct (Inhalation.respirable_pnor_pel_limiting 0.5 "user" 5 1.25 8
              (common_defaults 1)) as [inst | e] eqn:E;
    [| vm_compute in E; discriminate E].
  destruct (pnor_concentration _ _ _ _ _ _ _ _ (or_intror eq_refl) E)
    as (_ & _ & _ & Hcm & Hi).
  exists inst. auto.
Defined.

(** X15 (the solids fraction of the coating models): the OEM, the refinish
    and the UV roll coating model report [Cm = KCk * Ys] of the [KCk] and
    [Ys] they store.  The stored [Ys] is the caller's where one is given.
    Where the caller leaves [Ys] out, it is [min(Ymist / Ysf, 1)], and
    [Ysf] is not zero: with [Ysf = 0], which the bounds check on [Ysf] lets
    through, and no [Ys], no instance is built. *)
Theorem coating_solids_fraction (m : call) (inst : model)
  (Ymist : Q) (Ys : option Q) (Ysf : Q) :
  construct m = Ok inst ->
  coating_args m = Some (Ymist, Ys, Ysf) ->
  Checks.check_ul "Ysf" 0 0 1 = Ok 0 /\
  exists kck ys : Q,
    dict_get "KCk" (inputs inst) = Some (VNum kck) /\
    dict_get "Ys" (inputs inst) = Some (VNum ys) /\
    dict_get "Cm" (outputs inst) = Some (VNum (kck * ys)) /\
    match Ys with
    | Some y => ys = y
    | None => ~ Ysf == 0 /\ ys = pymin (Ymist / Ysf) 1
    end.
Proof.
  intros H Ha. split; [reflexivity |].
  destruct m; cbn [coating_args] in Ha; try discriminate Ha;
    injection Ha as <- <- <-;
    cbn [construct] in H;
    first [ apply spray_model_inv in H | apply uv_roll_inv in H ];
    destruct H as (kck & ys & ladd & add & apdr & _ & Hys & _ & ->);
    exists kck, ys; repeat (split; [reflexivity |]);
    (destruct Ys0 as [y |]; cbn [resolved_Ys] in Hys;
     [ exact Hys | destruct Hys as [-> Hnz]; auto ]).
Qed.

Lemma coating_solids_fraction_witness :
  exists (inst : model) (kck ys : Q),
    construct (UvRollCoating 0.5 "high end of range" 7 None 0.25 1.25 8
                 (common_defaults 1)) = Ok inst /\
    dict_get "Ys" (inputs inst) = Some (VNum ys) /\
    dict_get "Cm" (outputs inst) = Some (VNum (kck * ys)) /\
    ys = pymin (0.5 / 0.25) 1.
Proof.
  destruct (construct (UvRollCoating 0.5 "high end of range" 7 None 0.25
                         1.25 8 (common_defaults 1)))
    as [inst | e] eqn:E; [| vm_compute in E; discriminate E].
  destruct (coating_solids_fraction _ _ _ _ _ E eq_refl)
    as (_ & kck & ys & _ & Hys & Hcm & _ & Hmin).
  exists inst, kck, ys. auto.
Defined.

(** X16 ([user_defined_inhalation]): the mass concentration is the
    caller's [Cm] where one is given, and [Cv * MW / Vm * Ys] else, in which
    case [Vm] is not zero; it is reported among the inputs and not among
    the outputs, and [I = Cm * b * h].  With [Cm] given, the arguments
    [Cv], [MW], [Vm] and [Ys] have no influence on the outputs. *)
Theorem user_defined_inhalation_Cm (Cv MW h : Q) (scen : string)
  (Cm : option Q) (Vm Ys b : Q) (c : common) (inst : model) :
  Inhalation.user_defined_inhalation Cv MW h scen Cm Vm Ys b c = Ok inst ->
  (exists cm : Q,
      dict_get "Cm" (inputs inst) = Some (VNum cm) /\
      dict_get "Cm" (outputs inst) = None /\
      dict_get "I" (outputs inst) = Some (VNum (cm * b * h)) /\
      match Cm with
      | Some x => cm = x
      | None => cm = Cv * MW / Vm * Ys /\ ~ Vm == 0
      end) /\
  (forall (Cv' MW' Vm' Ys' : Q) (inst' : model),
      Cm <> None ->
      Inhalation.user_defined_inhalation Cv' MW' h scen Cm Vm' Ys' b c
      = Ok inst' ->
      outputs inst' = outputs inst).
Proof.
  intros H. apply user_defined_inhalation_inv in H.
  destruct H as (_ & cm & ladd & add & apdr & Hcm & _ & Hd & ->).
  split.
  - exists cm. repeat (split; [reflexivity |]). assumption.
  - intros Cv' MW' Vm' Ys' inst' Hsome H'.
    destruct Cm as [x |]; [| congruence]. subst cm.
    apply user_defined_inhalation_inv in H'.
    destruct H' as (_ & cm' & ladd' & add' & apdr' & -> & _ & Hd' & ->).
    destruct Hd as (Hl & Ha & Hp), Hd' as (Hl' & Ha' & Hp').
    cbn [outputs]. congruence.
Qed.

Lemma user_defined_inhalation_witness :
  exists (inst : model) (cm : Q),
    Inhalation.user_defined_inhalation 500 92.141 8 "user" None 24.45 0.5
      1.25 (common_defaults 1) = Ok inst /\
    dict_get "Cm" (inputs inst) = Some (VNum cm) /\
    cm = 500 * 92.141 / 24.45 * 0.5.
Proof.
  destruct (Inhalation.user_defined_inhalation 500 92.141 8 "user" None
              24.45 0.5 1.25 (common_defaults 1))
    as [inst | e] eqn:E; [| vm_compute in E; discriminate E].
  destruct (user_defined_inhalation_Cm _ _ _ _ _ _ _ _ _ _ E)
    as ((cm & Hin & _ & _ & Hcm & _) & _).
  exists inst, cm. auto.
Defined.

(** ** The bounds check [check_u] *)

(** X17 ([check_u]): the upper-bound check returns for no argument at all.
    Its test reads [min_val], which is neither a parameter of [check_u]
    nor a name of the module, so every call fails with a [NameError],
    whether the value is below the bound or not, and never with a
    [BoundsException]. *)
Theorem check_u_never_returns (name : string) (value : Q)
  (max_val : option Q) :
  Checks.check_u_call name value max_val = Raise (NameError "min_val") /\
  (forall max : Q,
      Checks.check_u name value max = Raise (NameError "min_val")).
Proof. split; [| intros max]; reflexivity. Qed.

(** ** Missing entries in [potential_dose_rate] *)

Lemma all_numbers_get (d : dict) (k : string) :
  all_numbers d ->
  dict_get k d = None \/ exists q : Q, dict_get k d = Some (VNum q).
Proof.
  intros Hn. destruct (dict_get k d) as [v |] eqn:E; [right | now left].
  destruct (Hn k v E) as (q & ->). eauto.
Qed.

Ltac read_key d k :=
  let q := fresh "q" in
  let E := fresh "E" in
  match goal with
  | Hn : all_numbers d |- _ =>
      destruct (all_numbers_get d k Hn) as [E | (q & E)];
      cbn; unfold getitem, dict_mem;
      repeat match goal with
        | H : dict_get _ d = _ |- _ => rewrite H
        end;
      cbn
  end.

(** On the rationals the call raises a [KeyError] for the first entry
    that is missing, in reading order, and returns the product else. *)
Lemma potential_dose_rate_reads (route : string) (kwargs : dict) :
  route = "dermal" \/ route = "inhalation" ->
  all_numbers kwargs ->
  match find (fun k => negb (dict_mem k kwargs)) (needed_keys route kwargs)
  with
  | Some k =>
      Exposures.potential_dose_rate (VStr route) kwargs = Raise (KeyError k)
  | None =>
      exists (x : Q) (xs : list Q),
        numbers (map (fun k => dict_get k kwargs) (needed_keys route kwargs))
        = Some (x :: xs) /\
        Exposures.potential_dose_rate (VStr route) kwargs
        = Ok (VNum (fold_left Qmult xs x))
  end.
Proof.
  intros [-> | ->] Hn;
    unfold Exposures.potential_dose_rate, needed_keys;
    cbn [is_str String.eqb Ascii.eqb Bool.eqb andb].
  - read_key kwargs "SQu".
    + read_key kwargs "S"; [reflexivity |].
      read_key kwargs "Qu"; [reflexivity |].
      read_key kwargs "Yderm"; [reflexivity |].
      read_key kwargs "FT"; [reflexivity |].
      eexists; eexists; split; reflexivity.
    + read_key kwargs "Yderm"; [reflexivity |].
      read_key kwargs "FT"; [reflexivity |].
      eexists; eexists; split; reflexivity.
  - read_key kwargs "Cm".
    + read_key kwargs "EF"; [reflexivity |].
      read_key kwargs "AH"; [reflexivity |].
      read_key kwargs "Ys"; [reflexivity |].
      read_key kwargs "Sd"; [reflexivity |].
      eexists; eexists; split; reflexivity.
    + read_key kwargs "b"; [reflexivity |].
      read_key kwargs "h"; [reflexivity |].
      eexists; eexists; split; reflexivity.
Qed.

(** X18 (missing entries): on either route and with numbers for values,
    [potential_dose_rate] raises a [KeyError] only for an entry that it
    reads and that is missing, and then for the first such in the order in
    which it reads the entries ([SQu], [Yderm], [FT], or [S], [Qu],
    [Yderm], [FT]; [Cm], [b], [h], or [EF], [AH], [Ys], [Sd]).  Where that
    entry is the first or the second factor, which are read before
    anything is multiplied, the call fails with this [KeyError]. *)
Theorem potential_dose_rate_missing_key (route : string) (kwargs : dict)
  (k : string) :
  route = "dermal" \/ route = "inhalation" ->
  all_numbers kwargs ->
  (Exposures.potential_dose_rate (VStr route) kwargs = Raise (KeyError k) ->
   find (fun k => negb (dict_mem k kwargs)) (needed_keys route kwargs)
   = Some k) /\
  (find (fun k => negb (dict_mem k kwargs)) (needed_keys route kwargs)
   = Some k ->
   In k (firstn 2 (needed_keys route kwargs)) ->
   Exposures.potential_dose_rate (VStr route) kwargs = Raise (KeyError k)).
Proof.
  intros Hr Hn.
  pose proof (potential_dose_rate_reads route kwargs Hr Hn) as H.
  destruct (find (fun k => negb (dict_mem k kwargs))
              (needed_keys route kwargs)) as [k' |].
  - split.
    + rewrite H. now intros [= ->].
    + intros [= ->] _. exact H.
  - destruct H as (x & xs & _ & ->). split; [discriminate | discriminate].
Qed.

Lemma potential_dose_rate_missing_witness :
  Exposures.potential_dose_rate (VStr "dermal")
    [("S", VNum 535); ("Yderm", VNum 0.1); ("b", VNum 1.25)]
  = Raise (KeyError "Qu").
Proof.
  apply (potential_dose_rate_missing_key "dermal"
           [("S", VNum 535); ("Yderm", VNum 0.1); ("b", VNum 1.25)] "Qu").
  - left. reflexivity.
  - intros k v.
    cbn. repeat (destruct (String.eqb k _);
                 [intros [= <-]; eexists; reflexivity |]).
    discriminate.
  - reflexivity.
  - cbn. tauto.
Defined.

(** ** How [model_args] and the list of skips separate inputs and outputs *)

Lemma dict_get_filter (p : string -> bool) (k : string) (d : dict) :
  dict_get k (filter (fun kv => p (fst kv)) d)
  = if p k then dict_get k d else None.
Proof.
  induction d as [| [k' v] d IH]; cbn; [now destruct (p k) |].
  destruct (String.eqb k k') eqn:E.
  - apply String.eqb_eq in E. subst k'.
    destruct (p k) eqn:Hp; cbn.
    + now rewrite String.eqb_refl.
    + exact IH.
  - destruct (p k') eqn:Hp'; cbn; [rewrite E |]; exact IH.
Qed.

Lemma dict_keys_set (k : string) (v : value) (d : dict) :
  dict_get k d <> None -> dict_keys (dict_set k v d) = dict_keys d.
Proof.
  unfold dict_keys.
  induction d as [| [k' v'] d IH]; cbn; [congruence |].
  destruct (String.eqb k k') eqn:E; cbn.
  - apply String.eqb_eq in E. now subst.
  - intros H. now rewrite (IH H).
Qed.

Lemma dict_get_set_same (k : string) (v : value) (d : dict) :
  dict_get k (dict_set k v d) = Some v.
Proof.
  induction d as [| [k' v'] d IH]; cbn.
  - now rewrite String.eqb_refl.
  - destruct (String.eqb k k') eqn:E; cbn; rewrite ?E, ?String.eqb_refl;
      [reflexivity | exact IH].
Qed.

Lemma bound_in_app (l1 l2 : list string) (k : string) :
  bound_in (l1 ++ l2) k = bound_in l1 k || bound_in l2 k.
Proof. unfold bound_in. apply existsb_app. Qed.

Lemma bound_in_keys (k : string) (d : dict) :
  bound_in (dict_keys d) k = dict_mem k d.
Proof.
  unfold dict_mem. induction d as [| [k' v] d IH]; cbn; [reflexivity |].
  destruct (String.eqb k k'); [reflexivity | exact IH].
Qed.

Lemma filter_none {A : Type} (p : A -> bool) (l : list A) :
  (forall x : A, In x l -> p x = false) -> filter p l = [].
Proof.
  induction l as [| a l IH]; cbn; [reflexivity |].
  intros H. rewrite (H a (or_introl eq_refl)). apply IH.
  intros x Hx. apply H. now right.
Qed.

(** X19 ([model_args] and the list of skips): [model_args] returns the
    entries whose key is not in the list stored under ['skips'].  Once the
    constructor has appended the present keys to that list, [model_args]
    of the same dictionary is empty, and [model_args] of any later state of
    it, with entries added or overwritten, holds the entries under keys
    that were not there before, and only them.  This is how [outputs] comes
    to hold none of the inputs. *)
Theorem model_args_after_extend_skips (kwargs : dict) (skips : list string) :
  dict_get "skips" kwargs = Some (VList skips) ->
  (exists ins : dict,
      model_args kwargs = Ok ins /\
      forall k : string,
        dict_get k ins
        = if bound_in skips k then None else dict_get k kwargs) /\
  exists kw' : dict,
    extend_skips kwargs = Ok kw' /\
    dict_keys kw' = dict_keys kwargs /\
    model_args kw' = Ok [] /\
    forall later : dict,
      dict_get "skips" later = dict_get "skips" kw' ->
      exists outs : dict,
        model_args later = Ok outs /\
        forall k : string,
          dict_get k outs
          = if bound_in skips k || dict_mem k kwargs then None
            else dict_get k later.
Proof.
  intros Hs. split.
  - unfold model_args, getitem. rewrite Hs. cbn. eexists. split; [reflexivity |].
    intros k.
    rewrite (dict_get_filter (fun k => negb (bound_in skips k))).
    now destruct (bound_in skips k).
  - unfold extend_skips, getitem. rewrite Hs. cbn. eexists.
    split; [reflexivity |].
    assert (Hk : dict_keys (dict_set "skips"
                              (VList (skips ++ dict_keys kwargs)) kwargs)
                 = dict_keys kwargs)
      by (apply dict_keys_set; congruence).
    split; [exact Hk |]. split.
    + unfold model_args, getitem. rewrite dict_get_set_same. cbn.
      f_equal. apply filter_none. intros [k v] Hin. cbn.
      rewrite bound_in_app, <- Hk.
      assert (Hb : bound_in
                     (dict_keys (dict_set "skips"
                                   (VList (skips ++ dict_keys kwargs))
                                   kwargs)) k = true).
      { apply bound_in_In. apply (in_map fst) in Hin. exact Hin. }
      rewrite Hb. now rewrite orb_true_r.
    + intros later Hl. rewrite dict_get_set_same in Hl.
      unfold model_args, getitem. rewrite Hl. cbn.
      eexists. split; [reflexivity |]. intros k.
      rewrite (dict_get_filter
                 (fun k => negb (bound_in (skips ++ dict_keys kwargs) k))).
      rewrite bound_in_app, bound_in_keys.
      now destruct (bound_in skips k || dict_mem k kwargs).
Qed.

Lemma model_args_witness :
  exists kw' : dict,
    extend_skips [("ED", VNum 1); ("skips", VList ["skips"; "route"]);
                  ("route", VStr "dermal")] = Ok kw' /\
    model_args kw' = Ok [] /\
    model_args (dict_set "NW" (VNum 3) (dict_set "ED" (VNum 2) kw'))
    = Ok [("NW", VNum 3)].
Proof.
  destruct (model_args_after_extend_skips
              [("ED", VNum 1); ("skips", VList ["skips"; "route"]);
               ("route", VStr "dermal")] ["skips"; "route"] eq_refl)
    as (_ & kw' & He & _ & Hempty & _).
  exists kw'. split; [exact He |]. split; [exact Hempty |].
  vm_compute in He. injection He as <-. reflexivity.
Defined.

(** ** [checkfile]: the loop ends, with a name that is not listed *)

Lemma append_inj_l (s a b : string) : s ++ a = s ++ b -> a = b.
Proof.
  induction s as [| c s IH]; cbn; [auto |]. intros [= H]. auto.
Qed.

Lemma length_append (a b : string) :
  String.length (a ++ b) = (String.length a + String.length b)%nat.
Proof. induction a as [| c a IH]; cbn; [reflexivity | now rewrite IH]. Qed.

Lemma append_inj_r (a b e : string) : a ++ e = b ++ e -> a = b.
Proof.
  revert b. induction a as [| c a IH]; intros [| c' b]; cbn; intros H.
  - reflexivity.
  - exfalso. apply (f_equal String.length) in H. cbn in H.
    rewrite length_append in H. lia.
  - exfalso. apply (f_equal String.length) in H. cbn in H.
    rewrite length_append in H. lia.
  - injection H as -> H. f_equal. auto.
Qed.

Lemma str_of_nat_inj (i j : nat) : str_of_nat i = str_of_nat j -> i = j.
Proof.
  unfold str_of_nat. intros H.
  apply (f_equal NilEmpty.uint_of_string) in H.
  rewrite !NilEmpty.usu in H. injection H as H.
  apply (f_equal Nat.of_uint) in H. now rewrite !Unsigned.of_to in H.
Qed.

Lemma numbered_inj (fname ext : string) (i j : nat) :
  numbered fname i ext = numbered fname j ext -> i = j.
Proof.
  unfold numbered. intros H.
  apply append_inj_l in H. apply append_inj_l in H.
  apply append_inj_r in H. now apply str_of_nat_inj.
Qed.

Lemma forallb_false {A : Type} (p : A -> bool) (l : list A) :
  forallb p l = false -> exists x : A, In x l /\ p x = false.
Proof.
  induction l as [| a l IH]; cbn; [discriminate |].
  destruct (p a) eqn:E; cbn.
  - intros H. destruct (IH H) as (x & Hx & Hp). eauto.
  - eauto.
Qed.

Lemma NoDup_map_inj {A B : Type} (f : A -> B) (l : list A) :
  (forall x y : A, f x = f y -> x = y) -> NoDup l -> NoDup (map f l).
Proof.
  intros Hinj Hnd. induction Hnd as [| a l Ha Hnd IH]; cbn; constructor.
  - intros Hin. apply in_map_iff in Hin. destruct Hin as (x & Hx & Hin).
    apply Hinj in Hx. now subst.
  - exact IH.
Qed.

(** Of any [length ls + 1] consecutive indices one gives a numbered name
    that is not in [ls]. *)
Lemma unused_index (ls : list string) (fname ext : string) (start : nat) :
  exists d : nat,
    (d <= length ls)%nat /\
    bound_in ls (numbered fname (start + d) ext) = false.
Proof.
  destruct (forallb (fun d => bound_in ls (numbered fname (start + d) ext))
              (seq 0 (S (length ls)))) eqn:E.
  - exfalso. rewrite forallb_forall in E.
    assert (Hincl : incl (map (fun d => numbered fname (start + d) ext)
                            (seq 0 (S (length ls)))) ls).
    { intros x Hx. apply in_map_iff in Hx. destruct Hx as (d & <- & Hd).
      apply bound_in_In. now apply E. }
    assert (Hnd : NoDup (map (fun d => numbered fname (start + d) ext)
                           (seq 0 (S (length ls))))).
    { apply NoDup_map_inj; [| apply seq_NoDup].
      intros i j Hij. apply numbered_inj in Hij. lia. }
    pose proof (NoDup_incl_length Hnd Hincl) as Hlen.
    rewrite length_map, length_seq in Hlen. lia.
  - apply forallb_false in E. destruct E as (d & Hd & Hb).
    apply in_seq in Hd. exists d. split; [lia | exact Hb].
Qed.

Lemma checkfile_loop_finds (ls : list string) (fname ext : string)
  (d : nat) :
  forall (fuel : nat) (candidate : string) (index : nat),
    (d + 2 <= fuel)%nat ->
    bound_in ls (numbered fname (index + d) ext) = false ->
    exists r : string,
      checkfile_loop fuel ls fname ext candidate index = Some r /\
      bound_in ls r = false /\
      (r = candidate \/
       bound_in ls candidate = true /\
       exists i : nat,
         (index <= i)%nat /\ r = numbered fname i ext /\
         forall j : nat,
           (index <= j < i)%nat ->
           bound_in ls (numbered fname j ext) = true).
Proof.
  induction d as [| d IH]; intros fuel candidate index Hfuel Hfree.
  - destruct fuel as [| [| fuel]]; [lia | lia |].
    cbn. destruct (bound_in ls candidate) eqn:Hc; [| eauto].
    rewrite Nat.add_0_r in Hfree. rewrite Hfree.
    eexists. split; [reflexivity |]. split; [exact Hfree |].
    right. split; [reflexivity |]. exists index.
    split; [lia |]. split; [reflexivity |]. intros j Hj. lia.
  - destruct fuel as [| fuel]; [lia |].
    cbn [checkfile_loop]. destruct (bound_in ls candidate) eqn:Hc; [| eauto].
    destruct (IH fuel (numbered fname index ext) (S index)) as
      (r & Hr & Hfresh & Hcase); [lia | |].
    { now replace (S index + d)%nat with (index + S d)%nat by lia. }
    exists r. split; [exact Hr |]. split; [exact Hfresh |].
    right. split; [reflexivity |].
    destruct Hcase as [-> | (Hin & i & Hi & -> & Hless)].
    + exists index. split; [lia |]. split; [reflexivity |].
      intros j Hj. lia.
    + exists i. split; [lia |]. split; [reflexivity |].
      intros j Hj. destruct (Nat.eq_dec j index) as [-> | Hne];
        [exact Hin | apply Hless; lia].
Qed.

(** X20 ([checkfile]): with the listing of the directory at hand the loop
    of [checkfile] ends, after at most as many tests as the listing has
    entries, plus two.  Where the joined path does not exist, that path is
    returned; else the returned path joins the directory with a name that
    is not in the listing: the name itself, or the numbered name with the
    least index, counted from 1, that is not listed. *)
Theorem checkfile_unused_name (sys : os) (fuel : nat) (file_name : string) :
  let cwf := path_join sys (getcwd sys) file_name in
  let split := path_splitext sys (path_expanduser sys cwf) in
  let dir := path_dirname sys (fst split) in
  let fname := path_basename sys (fst split) in
  (length (listdir sys dir) + 2 <= fuel)%nat ->
  exists p : string,
    checkfile sys fuel file_name = Some p /\
    if path_exists sys cwf
    then exists candidate : string,
        p = path_join sys dir candidate /\
        first_unused (listdir sys dir) fname (snd split) candidate
    else p = cwf.
Proof.
  intros cwf split dir fname Hfuel. unfold checkfile. fold cwf.
  destruct (path_exists sys cwf); cbn [negb]; [| eauto].
  fold split. subst dir fname. destruct split as [root ext]. cbn [fst snd] in *.
  destruct (unused_index (listdir sys (path_dirname sys root))
              (path_basename sys root) ext 1) as (d & Hd & Hfree).
  destruct (checkfile_loop_finds (listdir sys (path_dirname sys root))
              (path_basename sys root) ext d fuel
              (path_basename sys root ++ ext) 1%nat)
    as (r & Hr & Hfresh & Hcase); [lia | exact Hfree |].
  rewrite Hr. eexists. split; [reflexivity |].
  exists r. split; [reflexivity |]. split.
  - now apply bound_in_false.
  - destruct Hcase as [-> | (Hin & i & Hi & -> & Hless)]; [now left |].
    right. split; [now apply bound_in_In |].
    exists i. split; [exact Hi |]. split; [reflexivity |].
    intros j Hj. apply bound_in_In. now apply Hless.
Qed.

Lemma checkfile_witness :
  exists p : string,
    checkfile
      {| getcwd := "/w";
         path_join := fun a b => a ++ "/" ++ b;
         path_exists := fun p => String.eqb p "/w/out.txt";
         path_splitext := fun _ => ("/w/out", ".txt");
         path_expanduser := fun p => p;
         path_dirname := fun _ => "/w";
         path_basename := fun _ => "out";
         listdir := fun _ => ["out.txt"; "out_1.txt"; "notes"] |}
      5 "out.txt" = Some p /\
    p = "/w/out_2.txt".
Proof.
  destruct (checkfile_unused_name
              {| getcwd := "/w";
                 path_join := fun a b => a ++ "/" ++ b;
                 path_exists := fun p => String.eqb p "/w/out.txt";
                 path_splitext := fun _ => ("/w/out", ".txt");
                 path_expanduser := fun p => p;
                 path_dirname := fun _ => "/w";
                 path_basename := fun _ => "out";
                 listdir := fun _ => ["out.txt"; "out_1.txt"; "notes"] |}
              5 "out.txt") as (p & Hp & _).
  - cbn. lia.
  - exists p. split; [exact Hp |].
    vm_compute in Hp. injection Hp as <-. reflexivity.
Defined.

(** ** How the constructors fail *)























(** ** [check_l] on Python floats *)

(** X25 ([check_l] and NaN): the test of [check_l] is [value < min_val],
    which is false of NaN: for the value NaN the check raises nothing and
    returns NaN, whatever the bound.  For every other value it returns the
    value when [min_val <= value], and when the value is below the bound
    it fails with the [NameError] on [max_val], never with a
    [BoundsException]; on finite numbers it is [Checks.check_l]. *)
Theorem check_l_passes_NaN (name : string) (v lo : PyFloat.number) :
  PyFloat.check_l name PyFloat.NaN lo = Ok PyFloat.NaN /\
  PyFloat.le lo PyFloat.NaN = false /\
  (PyFloat.le lo v = true -> PyFloat.check_l name v lo = Ok v) /\
  (PyFloat.lt v lo = true ->
   PyFloat.check_l name v lo = Raise (NameError "max_val")) /\
  (forall q ql : Q,
      PyFloat.check_l name (PyFloat.Fin q) (PyFloat.Fin ql)
      = PyFloat.finite (Checks.check_l name q ql)).
Proof.
  split; [now destruct lo |]. split; [now destruct lo |].
  split; [| split].
  - intros Hle. destruct (le_NaN _ _ Hle) as [Hl Hv].
    rewrite le_not_lt in Hle by assumption. apply negb_true_iff in Hle.
    unfold PyFloat.check_l. now rewrite Hle.
  - intros Hlt. unfold PyFloat.check_l. now rewrite Hlt.
  - intros q ql. apply check_l_finite.
Qed.
